(** * SFTP mirroring jobs: SFTP_Cliente1.py and SFTP_Cliente2.py

  A shallow embedding of the two synchronisation scripts, and the
  properties of their snapshot walk, reconciliation and transfer loop.

  The remote trees are finite trees in which listing a directory may
  raise; every other call to the outside (sessions, [exists], [remove],
  [get], [put], [mkdir]) is answered by an oracle that knows the calls
  made so far, and a run records its calls with their results. The blocks
  of [main] are written in a small monad over that record and the
  counters, with [continue] and exceptions as outcomes.

  Layout: Python [str] and [dict], [os.path] as an interface with the
  POSIX functions as an instance, the remote trees and the calls, the code
  shared by the two scripts, one module per script, the vocabulary for the
  calls of a run, the configuration code ([.env], environment,
  [load_job_config]), [main] from its first line, concrete worlds; then
  the facts about the blocks, the walk, the loop and [main], the theorems
  about the specification, and further properties of the code. *)

From Stdlib Require Import String Ascii List ZArith Bool Arith Lia.
Import ListNotations.
Local Open Scope string_scope.
Local Open Scope list_scope.

(* ===================================================================== *)
(** ** Python [str] methods used by the scripts *)
(* ===================================================================== *)

Module Str.

Definition is_empty (s : string) : bool :=
  match s with EmptyString => true | String _ _ => false end.

(** [s.rstrip(c)] for a one-character [c]. *)
Fixpoint rstrip (c : ascii) (s : string) : string :=
  match s with
  | EmptyString => EmptyString
  | String a s' =>
      let r := rstrip c s' in
      if is_empty r && Ascii.eqb a c then EmptyString else String a r
  end.

(** [s.lstrip(c)] for a one-character [c]. *)
Fixpoint lstrip (c : ascii) (s : string) : string :=
  match s with
  | EmptyString => EmptyString
  | String a s' => if Ascii.eqb a c then lstrip c s' else s
  end.

(** [s.strip(c)]. *)
Definition strip (c : ascii) (s : string) : string := rstrip c (lstrip c s).

(** [sub in s]. *)
Fixpoint contains (sub s : string) : bool :=
  String.prefix sub s ||
  match s with
  | EmptyString => false
  | String _ s' => contains sub s'
  end.

(** Left-to-right scan of [s.replace(old, new)] for a non-empty [old];
    [skip] counts the characters of a match still to be dropped. *)
Fixpoint replace_go (old new : string) (skip : nat) (s : string) : string :=
  match s with
  | EmptyString => EmptyString
  | String a s' =>
      match skip with
      | S k => replace_go old new k s'
      | O =>
          if String.prefix old s
          then new ++ replace_go old new (String.length old - 1) s'
          else String a (replace_go old new 0 s')
      end
  end.

(** With an empty [old] Python inserts [new] before every character and
    at the end. *)
Fixpoint intersperse (new s : string) : string :=
  match s with
  | EmptyString => new
  | String a s' => new ++ String a (intersperse new s')
  end.

(** [s.replace(old, new)]. *)
Definition replace (old new s : string) : string :=
  if is_empty old then intersperse new s else replace_go old new 0 s.

(** [s.split(sep)] for a non-empty [sep]; [cur] is the piece being read. *)
Fixpoint split_go (sep : string) (skip : nat) (cur s : string) : list string :=
  match s with
  | EmptyString => [cur]
  | String a s' =>
      match skip with
      | S k => split_go sep k cur s'
      | O =>
          if String.prefix sep s
          then cur :: split_go sep (String.length sep - 1) EmptyString s'
          else split_go sep 0 (cur ++ String a EmptyString) s'
      end
  end.

Definition split (sep s : string) : list string := split_go sep 0 EmptyString s.

(** [s[n:]]. *)
Fixpoint drop (n : nat) (s : string) : string :=
  match n, s with
  | O, _ => s
  | S _, EmptyString => EmptyString
  | S k, String _ s' => drop k s'
  end.

(** The text after the first occurrence of [sep]: [s.split(sep, 1)[1]]
    when [sep in s]. *)
Fixpoint after_first (sep s : string) : string :=
  if String.prefix sep s then drop (String.length sep) s
  else match s with
       | EmptyString => EmptyString
       | String _ s' => after_first sep s'
       end.

(** [sep.join(parts)]. *)
Fixpoint join (sep : string) (parts : list string) : string :=
  match parts with
  | [] => EmptyString
  | [p] => p
  | p :: ps => p ++ sep ++ join sep ps
  end.

End Str.

(* ===================================================================== *)
(** ** Python [dict] with string keys, in insertion order *)
(* ===================================================================== *)

Module Dict.

Section WithValue.
Context {V : Type}.

(** The items of the dict, oldest key first. *)
Definition t := list (string * V).

Definition empty : t := [].

(** [d.get(k)] *)
Fixpoint get (d : t) (k : string) : option V :=
  match d with
  | [] => None
  | (k', v) :: d' => if String.eqb k' k then Some v else get d' k
  end.

(** [k in d] *)
Definition mem (d : t) (k : string) : bool :=
  match get d k with Some _ => true | None => false end.

(** [d[k] = v]: a key already present keeps its place, a new key goes last. *)
Fixpoint set (d : t) (k : string) (v : V) : t :=
  match d with
  | [] => [(k, v)]
  | (k', v') :: d' =>
      if String.eqb k' k then (k', v) :: d' else (k', v') :: set d' k v
  end.

(** [d.update(other)], also [{**d, **other}] on a copy of [d]. *)
Definition update (d other : t) : t :=
  fold_left (fun acc kv => set acc (fst kv) (snd kv)) other d.

(** [d.items()] *)
Definition items (d : t) : list (string * V) := d.

(** [d.keys()] *)
Definition keys (d : t) : list string := map fst d.

(** [len(d)] *)
Definition len (d : t) : nat := length d.

End WithValue.

Arguments t : clear implicits.

End Dict.

(* ===================================================================== *)
(** ** [os.path] and [pathlib], as the platform provides them *)
(* ===================================================================== *)

(** The scripts run on POSIX and on Windows (hence their
    [.replace("\\", "/")]); the path functions of the standard library are
    an interface here, with the POSIX ones as an instance. They are total:
    [relpath] raises on an empty path only, which no key of a snapshot is. *)
Class OsPath := {
  (** [os.path.relpath(path, start)] *)
  relpath : string -> string -> string;
  (** [os.path.dirname(p)] *)
  dirname : string -> string;
  (** [base / rel], a [pathlib.Path] rendered with [str] *)
  path_join : string -> string -> string;
  (** [str(Path(p).parent)] *)
  path_parent : string -> string
}.

Module Posix.

(** [normpath] of an absolute path, as its list of components: empty and
    [.] components are dropped, [..] removes the component before it and
    is dropped at the root. Components are kept in reverse in [acc]. *)
Fixpoint norm_comps (comps acc : list string) : list string :=
  match comps with
  | [] => rev acc
  | c :: cs =>
      if String.eqb c "" || String.eqb c "." then norm_comps cs acc
      else if String.eqb c ".." then norm_comps cs (tl acc)
      else norm_comps cs (c :: acc)
  end.

(** The components of [abspath(p)], [cwd] being the working directory. *)
Definition abs_comps (cwd p : string) : list string :=
  if String.prefix "/" p then norm_comps (Str.split "/" p) []
  else norm_comps (Str.split "/" (cwd ++ "/" ++ p)) [].

Fixpoint common_prefix_len (a b : list string) : nat :=
  match a, b with
  | x :: a', y :: b' => if String.eqb x y then S (common_prefix_len a' b') else 0
  | _, _ => 0
  end.

(** [posixpath.relpath] *)
Definition posix_relpath (cwd path start : string) : string :=
  let start_list := abs_comps cwd start in
  let path_list := abs_comps cwd path in
  let i := common_prefix_len start_list path_list in
  let rel_list := repeat ".." (length start_list - i) ++ skipn i path_list in
  match rel_list with
  | [] => "."
  | _ => Str.join "/" rel_list
  end.

(** [p[:p.rfind('/') + 1]] *)
Fixpoint head_of (p : string) : string :=
  match p with
  | EmptyString => EmptyString
  | String a p' =>
      let r := head_of p' in
      if negb (Str.is_empty r) || Ascii.eqb a "/" then String a r else EmptyString
  end.

(** [posixpath.dirname] *)
Definition posix_dirname (p : string) : string :=
  let head := head_of p in
  if Str.is_empty (Str.rstrip "/" head) then head else Str.rstrip "/" head.

(** The root of [PurePosixPath(p)]: two leading slashes are kept, any
    other number of them is one. *)
Definition root_of (p : string) : string :=
  if String.prefix "///" p then "/"
  else if String.prefix "//" p then "//"
  else if String.prefix "/" p then "/"
  else "".

(** The parts of [PurePosixPath(p)] after its root: empty and [.]
    components are dropped, [..] is kept. *)
Definition parts_of (p : string) : list string :=
  filter (fun c => negb (String.eqb c "" || String.eqb c "."))
    (Str.split "/" p).

(** [str] of the path with that root and those parts. *)
Definition render (root : string) (parts : list string) : string :=
  match parts with
  | [] => if Str.is_empty root then "." else root
  | _ => root ++ Str.join "/" parts
  end.

(** [str(Path(base) / rel)]: an absolute [rel] replaces [base]. *)
Definition posix_join (base rel : string) : string :=
  if String.prefix "/" rel then render (root_of rel) (parts_of rel)
  else render (root_of base) (parts_of base ++ parts_of rel).

(** [str(Path(p).parent)] *)
Definition posix_parent (p : string) : string :=
  render (root_of p) (removelast (parts_of p)).

(** The POSIX functions, for a process whose working directory is [cwd]. *)
Definition posix (cwd : string) : OsPath := {|
  relpath := posix_relpath cwd;
  dirname := posix_dirname;
  path_join := posix_join;
  path_parent := posix_parent
|}.

End Posix.

(* ===================================================================== *)
(** ** The remote trees and the calls of the SFTP client *)
(* ===================================================================== *)

(** One entry of [sftp.listdir_attr(dir)]. [longname] starting with [d]
    makes it a [Dir]. [data_mod] is
    [datetime.fromtimestamp(entry.st_mtime).date()] as a day number, [None]
    when that conversion raises (a server that sends no mtime). The
    [children] of a directory are what listing it returns, [None] when
    listing it raises. *)
#[warning="-register-all"]
Inductive node : Type :=
| File (filename : string) (st_size : Z) (data_mod : option Z)
| Dir (filename : string) (data_mod : option Z) (children : option (list node)).

(** What [listdir_attr] answers for a directory. *)
Definition listing := option (list node).

(** [{"tamanho": ..., "data": ...}] *)
Record dados := { tamanho : Z; data : Z }.

(** The sessions, by the name the scripts bind them to. *)
Inductive Sessao :=
| sftp_dest | sftp_pre | sftp_orig | sftp_rec | sftp_rm | sftp_envio | sftp_log.

(** The calls that leave the process. *)
Inductive Call :=
| Connection (s : Sessao)
| listdir_attr (s : Sessao) (remote_dir : string)
| sftp_exists (s : Sessao) (path : string)
| sftp_remove (s : Sessao) (path : string)
| sftp_mkdir (s : Sessao) (path : string)
| sftp_chdir (s : Sessao) (path : string)
| sftp_get (s : Sessao) (remotepath localpath : string)
| sftp_put (s : Sessao) (localpath remotepath : string)
| local_mkdir (path : string).

(** What a call does: return (the boolean matters for [exists] only) or
    raise an [Exception]. *)
Inductive Resposta := Retorna (b : bool) | Levanta.

(** A call that was made, with what it did. *)
Record Evento := {
  chamada : Call;
  resultado : Resposta
}.

(** The world outside answers each call knowing what happened so far. *)
Definition Oracle := list Evento -> Call -> Resposta.

(** What a listing call did, given what the server has for the directory. *)
Definition listou (sftp : Sessao) (remote_dir : string) (r : option (list node))
  : Evento :=
  {| chamada := listdir_attr sftp remote_dir;
     resultado := match r with Some _ => Retorna true | None => Levanta end |}.

Definition Sessao_eqb (a b : Sessao) : bool :=
  match a, b with
  | sftp_dest, sftp_dest | sftp_pre, sftp_pre | sftp_orig, sftp_orig
  | sftp_rec, sftp_rec | sftp_rm, sftp_rm | sftp_envio, sftp_envio
  | sftp_log, sftp_log => true
  | _, _ => false
  end.

(** The session a call goes through; the local file system has none. *)
Definition sessao_de (c : Call) : option Sessao :=
  match c with
  | Connection s | listdir_attr s _ | sftp_exists s _ | sftp_remove s _
  | sftp_mkdir s _ | sftp_chdir s _ | sftp_get s _ _ | sftp_put s _ _ => Some s
  | local_mkdir _ => None
  end.

Definition na_sessao (sftp : Sessao) (e : Evento) : bool :=
  match sessao_de (chamada e) with
  | Some s => Sessao_eqb s sftp
  | None => false
  end.

(** The stages of the pipeline of one entry, read off its calls: removing
    the stale file goes through [sftp_rm], staging is the local [mkdir] and
    the [get], publishing goes through [sftp_envio]. *)
Definition removendo : Evento -> bool := na_sessao sftp_rm.

Definition baixando (e : Evento) : bool :=
  match chamada e with
  | local_mkdir _ => true
  | sftp_get s _ _ => Sessao_eqb s sftp_orig || Sessao_eqb s sftp_rec
  | _ => false
  end.

Definition publicando : Evento -> bool := na_sessao sftp_envio.

(** The call raised. *)
Definition falhou (e : Evento) : bool :=
  match resultado e with
  | Levanta => true
  | Retorna _ => false
  end.

(** A call of the given stage that raised. *)
Definition falha_de (estagio : Evento -> bool) (e : Evento) : bool :=
  estagio e && falhou e.

Definition um_se (b : bool) : nat := if b then 1 else 0.

(** The phase of [main] before the loop: connecting and listing. *)
Definition listando (e : Evento) : bool :=
  match chamada e with
  | Connection _ | listdir_attr _ _ => true
  | _ => false
  end.

Record StatusContador := {
  novos : nat;
  iguais : nat;
  reenviados : nat;
  erros_download : nat;
  erros_upload : nat;
  erros_remocao : nat
}.

(** [StatusContador()] *)
Definition StatusContador_init : StatusContador :=
  {| novos := 0; iguais := 0; reenviados := 0;
     erros_download := 0; erros_upload := 0; erros_remocao := 0 |}.

(** The entries counted under a decision. *)
Definition decididos (c : StatusContador) : nat := novos c + iguais c + reenviados c.

(** What a run has done so far: the calls made, oldest first, and the
    counters of the one [status] object. *)
Record Estado := {
  historico : list Evento;
  status : StatusContador
}.

(** How a block of statements ends: normally, by [continue], or by an
    exception that is raised out of it. *)
Inductive Outcome (A : Type) :=
| Ok (a : A)
| Continue
| Raised.

Arguments Ok {A} a.
Arguments Continue {A}.
Arguments Raised {A}.

(** A block of the scripts: it reads the world's answers, extends the
    calls and updates the counters; both survive an exception. *)
Definition Job (A : Type) := Oracle -> Estado -> Estado * Outcome A.

Definition ret {A} (a : A) : Job A := fun _ s => (s, Ok a).

Definition bind {A B} (m : Job A) (f : A -> Job B) : Job B :=
  fun o s =>
    match m o s with
    | (s', Ok a) => f a o s'
    | (s', Continue) => (s', Continue)
    | (s', Raised) => (s', Raised)
    end.

Declare Scope job_scope.
Delimit Scope job_scope with job.
Notation "x <- m ;; k" := (bind m (fun x => k))
  (at level 61, m at next level, right associativity) : job_scope.
Notation "m ;; k" := (bind m (fun _ => k))
  (at level 61, right associativity) : job_scope.
Local Open Scope job_scope.

(** [continue] *)
Definition continue_ {A} : Job A := fun _ s => (s, Continue).

(** [try: body  except Exception: handler] *)
Definition try_except {A} (body handler : Job A) : Job A :=
  fun o s =>
    match body o s with
    | (s', Raised) => handler o s'
    | r => r
    end.

(** One call to the outside. *)
Definition call (c : Call) : Job bool :=
  fun o s =>
    let r := o (historico s) c in
    let s' := {| historico := (historico s ++ [{| chamada := c; resultado := r |}])%list;
                 status := status s |} in
    match r with
    | Retorna b => (s', Ok b)
    | Levanta => (s', Raised)
    end.

Definition call_ (c : Call) : Job unit := (call c ;; ret tt).

(** [with pysftp.Connection(...) as sftp: body] *)
Definition with_connection {A} (sftp : Sessao) (body : Job A) : Job A :=
  (call_ (Connection sftp) ;; body).

(** [status.<counter> += 1] *)
Definition status_update (f : StatusContador -> StatusContador) : Job unit :=
  fun _ s => ({| historico := historico s; status := f (status s) |}, Ok tt).

Definition inc_novos (c : StatusContador) : StatusContador :=
  {| novos := S (novos c); iguais := iguais c; reenviados := reenviados c;
     erros_download := erros_download c; erros_upload := erros_upload c;
     erros_remocao := erros_remocao c |}.

Definition inc_iguais (c : StatusContador) : StatusContador :=
  {| novos := novos c; iguais := S (iguais c); reenviados := reenviados c;
     erros_download := erros_download c; erros_upload := erros_upload c;
     erros_remocao := erros_remocao c |}.

Definition inc_reenviados (c : StatusContador) : StatusContador :=
  {| novos := novos c; iguais := iguais c; reenviados := S (reenviados c);
     erros_download := erros_download c; erros_upload := erros_upload c;
     erros_remocao := erros_remocao c |}.

Definition inc_erros_download (c : StatusContador) : StatusContador :=
  {| novos := novos c; iguais := iguais c; reenviados := reenviados c;
     erros_download := S (erros_download c); erros_upload := erros_upload c;
     erros_remocao := erros_remocao c |}.

Definition inc_erros_upload (c : StatusContador) : StatusContador :=
  {| novos := novos c; iguais := iguais c; reenviados := reenviados c;
     erros_download := erros_download c; erros_upload := S (erros_upload c);
     erros_remocao := erros_remocao c |}.

Definition inc_erros_remocao (c : StatusContador) : StatusContador :=
  {| novos := novos c; iguais := iguais c; reenviados := reenviados c;
     erros_download := erros_download c; erros_upload := erros_upload c;
     erros_remocao := S (erros_remocao c) |}.

(** [for x in xs: body(x)]: [continue] ends one iteration, an exception
    ends the loop. *)
Fixpoint for_each {A} (body : A -> Job unit) (xs : list A) : Job unit :=
  match xs with
  | [] => ret tt
  | x :: xs' =>
      fun o s =>
        match body x o s with
        | (s', Raised) => (s', Raised)
        | (s', _) => for_each body xs' o s'
        end
  end.

(* ===================================================================== *)
(** ** Code that is the same in the two scripts *)
(* ===================================================================== *)

(** [f"{remote_dir.rstrip('/')}/{nome}".replace("//", "/")] *)
Definition junta (remote_dir nome : string) : string :=
  Str.replace "//" "/" (Str.rstrip "/" remote_dir ++ "/" ++ nome).

(** The loop of [ensure_remote_dirs] over [parts], [path] being the prefix
    built so far. *)
Fixpoint ensure_parts (sftp : Sessao) (path : string) (parts : list string)
  : Job unit :=
  match parts with
  | [] => ret tt
  | part :: rest =>
      let path := (path ++ "/" ++ part)%string in
      e <- call (sftp_exists sftp path) ;;
      (if e then ret tt else call_ (sftp_mkdir sftp path)) ;;
      ensure_parts sftp path rest
  end.

Definition ensure_remote_dirs (sftp : Sessao) (remote_dir : string) : Job unit :=
  let remote_dir := Str.replace "//" "/" remote_dir in
  e <- call (sftp_exists sftp remote_dir) ;;
  if e then ret tt
  else ensure_parts sftp "" (Str.split "/" (Str.strip "/" remote_dir)).

(** The three reconciliation decisions. *)
Inductive Decisao := Skip | Create | Replace.

(** The test that opens the loop body:
    [if key in dest: if dest[key]["tamanho"] == dados["tamanho"]: ... else: ...
     else: ...] *)
Definition decisao (dest : Dict.t dados) (key : string) (d : dados) : Decisao :=
  match Dict.get dest key with
  | Some dd => if Z.eqb (tamanho dd) (tamanho d) then Skip else Replace
  | None => Create
  end.

(** The removal block of a replaced file:
    [try: with Connection(...) as sftp_rm:
            if sftp_rm.exists(p): sftp_rm.remove(p)
     except Exception: status.erros_remocao += 1] *)
Definition remover_destino (p : string) : Job unit :=
  try_except
    (with_connection sftp_rm
       (e <- call (sftp_exists sftp_rm p) ;;
        if e then call_ (sftp_remove sftp_rm p) else ret tt))
    (status_update inc_erros_remocao).

(** The upload block:
    [try: with Connection(...) as sftp_envio:
            ensure_remote_dirs(sftp_envio, os.path.dirname(p))
            sftp_envio.put(str(local_temp), p)
     except Exception: status.erros_upload += 1] *)
Definition enviar `{OsPath} (local_temp p : string) : Job unit :=
  try_except
    (with_connection sftp_envio
       (ensure_remote_dirs sftp_envio (dirname p) ;;
        call_ (sftp_put sftp_envio local_temp p)))
    (status_update inc_erros_upload).

(** The last step of [main]:
    [try: with Connection(...) as sftp_log: ... except Exception: log] *)
Definition enviar_log (destino_log_dir log_path log_filename : string) : Job unit :=
  try_except
    (with_connection sftp_log
       (ensure_remote_dirs sftp_log destino_log_dir ;;
        call_ (sftp_chdir sftp_log destino_log_dir) ;;
        call_ (sftp_put sftp_log log_path log_filename)))
    (ret tt).

(** The counters after one entry, read off what happened in its three
    stages: the decision counts at once, and each stage in which a call
    raised counts its error. *)
Definition conta (d : Decisao) (lr lb lp : list Evento) (c : StatusContador)
  : StatusContador :=
  let c :=
    match d with
    | Skip => inc_iguais c
    | Create => inc_novos c
    | Replace =>
        inc_reenviados (if existsb falhou lr then inc_erros_remocao c else c)
    end in
  let c := if existsb falhou lb then inc_erros_download c else c in
  if existsb falhou lp then inc_erros_upload c else c.

Definition is_skip (d : Decisao) : bool :=
  match d with Skip => true | _ => false end.

Definition is_create (d : Decisao) : bool :=
  match d with Create => true | _ => false end.

Definition is_replace (d : Decisao) : bool :=
  match d with Replace => true | _ => false end.

(** [d] with another modification date. *)
Definition redatar (x : Z) (d : dados) : dados :=
  {| tamanho := tamanho d; data := x |}.

(** The loop of a walk over the entries of one directory: [body] returns
    the state and whether it raised, which ends the loop. *)
Section ForEntries.
Context {S : Type} (body : node -> S -> S * bool).

Fixpoint for_entries (entries : list node) (st : S) : S * bool :=
  match entries with
  | [] => (st, false)
  | e :: rest =>
      let (st', raised) := body e st in
      if raised then (st', true) else for_entries rest st'
  end.

End ForEntries.

(** A walk in progress: the [listdir_attr] calls made so far and the
    [arquivos] dict of the running invocation. *)
Record Passeio := {
  listagens : list Evento;
  arquivos : Dict.t dados
}.

(** [listar_arquivos_sftp_recursivo]: the two scripts have the same walk but
    for two tests, the one that makes the loop [continue] past a directory
    (none in SFTP_Cliente1.py) and the one a file passes to be recorded. *)
Section Walk.
Variable sftp : Sessao.
Variable pula_pasta : nat -> Z -> bool.
Variable inclui : Z -> bool.

(** One iteration of [for entry in entries] in directory [remote_dir] at
    depth [nivel]: the state after it and whether it raised. The recursive
    call on a sub-directory starts from its own empty [arquivos]; whether
    its [listdir_attr] or its loop raised is dropped there, by its
    [except Exception], and what it returns is merged with [update]. *)
Fixpoint visitar (nivel : nat) (remote_dir : string) (entry : node)
  (st : Passeio) : Passeio * bool :=
  match entry with
  | File nome st_size dm =>
      let caminho_remoto := junta remote_dir nome in
      match dm with
      | None => (st, true)
      | Some data_mod =>
          if inclui data_mod
          then ({| listagens := listagens st;
                   arquivos := Dict.set (arquivos st) caminho_remoto
                                 {| tamanho := st_size; data := data_mod |} |},
                false)
          else (st, false)
      end
  | Dir nome dm children =>
      let caminho_remoto := junta remote_dir nome in
      match dm with
      | None => (st, true)
      | Some data_mod =>
          if pula_pasta nivel data_mod then (st, false)
          else
            let st0 := {| listagens :=
                            (listagens st ++ [listou sftp caminho_remoto children])%list;
                          arquivos := Dict.empty |} in
            let (sub, _) :=
              match children with
              | None => (st0, true)
              | Some entries =>
                  for_entries (visitar (S nivel) caminho_remoto) entries st0
              end in
            ({| listagens := listagens sub;
                arquivos := Dict.update (arquivos st) (arquivos sub) |}, false)
      end
  end.

(** One invocation: [resposta] is what [listdir_attr(remote_dir)] answers
    and [feitas] the listing calls made before it. The [try] covers the
    listing call and the loop; whether one of them raised is dropped by
    [except Exception], and the dict built so far is returned. The
    recursion is that of the code on a tree that the interpreter's stack
    takes ([niveis_seguros] below); on a deeper one the code loses, to a
    [RecursionError] that the same [except] catches, entries that this
    function keeps. *)
Definition percorrer (nivel : nat) (remote_dir : string) (resposta : listing)
  (feitas : list Evento) : Passeio :=
  let st0 := {| listagens := (feitas ++ [listou sftp remote_dir resposta])%list;
                arquivos := Dict.empty |} in
  let (st, _) :=
    match resposta with
    | None => (st0, true)
    | Some entries => for_entries (visitar nivel remote_dir) entries st0
    end in
  st.

End Walk.

(** The entries of a directory, none when listing it raises. *)
Definition filhos (r : listing) : list node :=
  match r with
  | Some entries => entries
  | None => []
  end.

(** The tree in which every directory whose listing raises is an empty
    directory instead. *)
Fixpoint sarar (e : node) : node :=
  match e with
  | File _ _ _ => e
  | Dir nome dm children =>
      Dir nome dm
        (Some match children with
              | Some entries => map sarar entries
              | None => []
              end)
  end.

Definition sarar_listing (r : listing) : listing := Some (map sarar (filhos r)).

(** The entry has a modification date that converts. *)
Definition legivel (e : node) : bool :=
  match e with
  | File _ _ (Some _) | Dir _ (Some _) _ => true
  | _ => false
  end.

(** [alcanca pula_pasta inclui nivel remote_dir entries k]: the walk of
    [entries], listed from [remote_dir] at depth [nivel], comes to a file
    of path [k] that passes the file test: nothing raises before it in its
    directory, and every directory above it is listed and not skipped. *)
Inductive alcanca (pula_pasta : nat -> Z -> bool) (inclui : Z -> bool)
  : nat -> string -> list node -> string -> Prop :=
| alcanca_arquivo nivel remote_dir pre nome size dm post :
    forallb legivel pre = true ->
    inclui dm = true ->
    alcanca pula_pasta inclui nivel remote_dir
      (pre ++ File nome size (Some dm) :: post) (junta remote_dir nome)
| alcanca_pasta nivel remote_dir pre nome dm sub post k :
    forallb legivel pre = true ->
    pula_pasta nivel dm = false ->
    alcanca pula_pasta inclui (S nivel) (junta remote_dir nome) sub k ->
    alcanca pula_pasta inclui nivel remote_dir
      (pre ++ Dir nome (Some dm) (Some sub) :: post) k.

Record SFTPConfig := {
  host : string;
  port : Z;
  username : string;
  password : string;
  remote_dir : string
}.

(* ===================================================================== *)
(** ** SFTP_Cliente1.py: the files of today, uploads and processados *)
(* ===================================================================== *)

Module Cliente1.

Record cliente1JobConfig := {
  origem : SFTPConfig;
  destino : SFTPConfig;
  destino_uploads_dir : string;
  destino_processados_dir : string;
  destino_log_dir : string;
  base_dir : string;
  temp_dir : string;
  log_path : string;
  log_filename : string;
  disable_hostkey_check : bool;
  known_hosts_path : option string
}.

(** What the two servers answer to the three listing passes. *)
Record Mundo := {
  arvore_uploads : listing;
  arvore_processados : listing;
  arvore_origem : listing
}.

(** [filtro_data is None or data_mod == filtro_data] *)
Definition passa_filtro (filtro_data : option Z) (data_mod : Z) : bool :=
  match filtro_data with
  | None => true
  | Some f => Z.eqb data_mod f
  end.

(** [listar_arquivos_sftp_recursivo(sftp, remote_dir, filtro_data=...)]:
    the walk in which no directory is skipped. *)
Definition listar_arquivos_sftp_recursivo (sftp : Sessao) (remote_dir : string)
  (filtro_data : option Z) (resposta : listing) (feitas : list Evento) : Passeio :=
  percorrer sftp (fun _ _ => false) (passa_filtro filtro_data) 0 remote_dir
    resposta feitas.

(** The walk as a step of [main]. *)
Definition listar (sftp : Sessao) (remote_dir : string) (filtro_data : option Z)
  (resposta : listing) : Job (Dict.t dados) :=
  fun _ s =>
    let p := listar_arquivos_sftp_recursivo sftp remote_dir filtro_data resposta
               (historico s) in
    ({| historico := listagens p; status := status s |}, Ok (arquivos p)).

(** The key under which a destination file enters [arquivos_dest_rel]:
    [if "/uploads/" in caminho: rel = caminho.split("/uploads/", 1)[1]
     else: rel = caminho.replace(<uploads>/, ""); rel = rel.replace(<processados>/, "")]
    and then [rel.replace(<backslash>, "/").lstrip("/")]. *)
Definition rel_de (cfg : cliente1JobConfig) (caminho : string) : string :=
  let rel :=
    if Str.contains "/uploads/" caminho
    then Str.after_first "/uploads/" caminho
    else
      Str.replace (Str.rstrip "/" (destino_processados_dir cfg) ++ "/") ""
        (Str.replace (Str.rstrip "/" (destino_uploads_dir cfg) ++ "/") ""
           caminho) in
  Str.lstrip "/" (Str.replace "\" "/" rel).

(** [for caminho, dados in {**uploads, **proc}.items():
       arquivos_dest_rel[rel] = dados] *)
Definition merge_destino (cfg : cliente1JobConfig)
  (arquivos_dest_uploads arquivos_dest_proc : Dict.t dados) : Dict.t dados :=
  fold_left (fun acc kv => Dict.set acc (rel_de cfg (fst kv)) (snd kv))
    (Dict.items (Dict.update arquivos_dest_uploads arquivos_dest_proc))
    Dict.empty.

(** The merged destination snapshot and the source snapshot of a run. *)
Definition snapshot_destino (cfg : cliente1JobConfig) (data_hoje : Z) (m : Mundo)
  : Dict.t dados :=
  merge_destino cfg
    (arquivos (listar_arquivos_sftp_recursivo sftp_dest (destino_uploads_dir cfg)
                 (Some data_hoje) (arvore_uploads m) []))
    (arquivos (listar_arquivos_sftp_recursivo sftp_dest (destino_processados_dir cfg)
                 (Some data_hoje) (arvore_processados m) [])).

Definition snapshot_origem (cfg : cliente1JobConfig) (data_hoje : Z) (m : Mundo)
  : Dict.t dados :=
  arquivos (listar_arquivos_sftp_recursivo sftp_orig (remote_dir (origem cfg))
              (Some data_hoje) (arvore_origem m) []).

Section Main.
Context `{OsPath}.
Variable cfg : cliente1JobConfig.

Definition rel_path_de (caminho_remoto : string) : string :=
  Str.replace "\" "/" (relpath caminho_remoto (remote_dir (origem cfg))).

Definition destino_path_de (caminho_remoto : string) : string :=
  junta (destino_uploads_dir cfg) (rel_path_de caminho_remoto).

(** The download block:
    [try: local_temp.parent.mkdir(...); sftp_orig.get(...)
     except Exception: status.erros_download += 1; continue] *)
Definition baixar (caminho_remoto local_temp : string) : Job unit :=
  try_except
    (call_ (local_mkdir (path_parent local_temp)) ;;
     call_ (sftp_get sftp_orig caminho_remoto local_temp))
    (status_update inc_erros_download ;; continue_).

(** The body of [for caminho_remoto, dados in arquivos_origem.items()]. *)
Definition processar (arquivos_dest_rel : Dict.t dados)
  (item : string * dados) : Job unit :=
  let caminho_remoto := fst item in
  let dados := snd item in
  let rel_path := rel_path_de caminho_remoto in
  let destino_path := destino_path_de caminho_remoto in
  match decisao arquivos_dest_rel rel_path dados with
  | Skip => status_update inc_iguais ;; continue_
  | Replace => remover_destino destino_path ;; status_update inc_reenviados
  | Create => status_update inc_novos
  end ;;
  let local_temp := path_join (temp_dir cfg) rel_path in
  baixar caminho_remoto local_temp ;;
  enviar local_temp destino_path.

(** The two listing passes on the destination and their merge. *)
Definition listar_destino (data_hoje : Z) (m : Mundo) : Job (Dict.t dados) :=
  arquivos_dest_uploads <-
    listar sftp_dest (destino_uploads_dir cfg) (Some data_hoje) (arvore_uploads m) ;;
  arquivos_dest_proc <-
    listar sftp_dest (destino_processados_dir cfg) (Some data_hoje)
      (arvore_processados m) ;;
  ret (merge_destino cfg arquivos_dest_uploads arquivos_dest_proc).

Definition main_job (data_hoje : Z) (m : Mundo) : Job unit :=
  arquivos_dest_rel <- with_connection sftp_dest (listar_destino data_hoje m) ;;
  with_connection sftp_orig
    (arquivos_origem <-
       listar sftp_orig (remote_dir (origem cfg)) (Some data_hoje) (arvore_origem m) ;;
     for_each (processar arquivos_dest_rel) (Dict.items arquivos_origem)) ;;
  enviar_log (destino_log_dir cfg) (log_path cfg) (log_filename cfg).

(** [main()] from its first session on, run from a fresh [StatusContador]
    with the configuration and the date that its first lines produced;
    those lines are in [Execucao1.main]. *)
Definition main (data_hoje : Z) (m : Mundo) (o : Oracle) : Estado * Outcome unit :=
  main_job data_hoje m o {| historico := []; status := StatusContador_init |}.

End Main.

End Cliente1.

(* ===================================================================== *)
(** ** SFTP_Cliente2.py: the files of the last [days_back] days *)
(* ===================================================================== *)

Module Cliente2.

Record Cliente2JobConfig := {
  origem : SFTPConfig;
  destino : SFTPConfig;
  destino_log_dir : string;
  days_back : Z;
  base_dir : string;
  temp_dir : string;
  log_path : string;
  log_filename : string;
  disable_hostkey_check : bool;
  known_hosts_path : option string;
  keep_extra_local_copy : bool
}.

(** What the two servers answer to the two listing passes. *)
Record Mundo := {
  arvore_destino : listing;
  arvore_origem : listing
}.

(** [nivel == 0 and filtro_data_min and data_mod < filtro_data_min] *)
Definition pasta_antiga (nivel : nat) (filtro_data_min : option Z) (data_mod : Z)
  : bool :=
  Nat.eqb nivel 0 &&
  match filtro_data_min with
  | None => false
  | Some f => Z.ltb data_mod f
  end.

(** [not filtro_data_min or data_mod >= filtro_data_min] *)
Definition passa_filtro (filtro_data_min : option Z) (data_mod : Z) : bool :=
  match filtro_data_min with
  | None => true
  | Some f => Z.leb f data_mod
  end.

(** One iteration of the loop of the window walk. *)
Definition visitar_janela (sftp : Sessao) (filtro_data_min : option Z)
  : nat -> string -> node -> Passeio -> Passeio * bool :=
  visitar sftp (fun n d => pasta_antiga n filtro_data_min d)
    (passa_filtro filtro_data_min).

(** [listar_arquivos_sftp_recursivo(sftp, remote_dir, nivel=...,
    filtro_data_min=...)] *)
Definition listar_arquivos_sftp_recursivo (sftp : Sessao) (remote_dir : string)
  (nivel : nat) (filtro_data_min : option Z) (resposta : listing)
  (feitas : list Evento) : Passeio :=
  percorrer sftp (fun n d => pasta_antiga n filtro_data_min d)
    (passa_filtro filtro_data_min) nivel remote_dir resposta feitas.

(** The walk as a step of [main], from [nivel = 0]. *)
Definition listar (sftp : Sessao) (remote_dir : string)
  (filtro_data_min : option Z) (resposta : listing) : Job (Dict.t dados) :=
  fun _ s =>
    let p := listar_arquivos_sftp_recursivo sftp remote_dir 0 filtro_data_min
               resposta (historico s) in
    ({| historico := listagens p; status := status s |}, Ok (arquivos p)).

(** [(datetime.today() - timedelta(days=cfg.days_back)).date()], for a
    [days_back] with which it does not raise [OverflowError]; that is
    tested in [Execucao2.data_limite], before the first session. *)
Definition data_limite (cfg : Cliente2JobConfig) (data_hoje : Z) : Z :=
  (data_hoje - days_back cfg)%Z.

(** The destination snapshot and the source snapshot of a run. *)
Definition snapshot_destino (cfg : Cliente2JobConfig) (data_hoje : Z) (m : Mundo)
  : Dict.t dados :=
  arquivos (listar_arquivos_sftp_recursivo sftp_pre (remote_dir (destino cfg)) 0
              (Some (data_limite cfg data_hoje)) (arvore_destino m) []).

Definition snapshot_origem (cfg : Cliente2JobConfig) (data_hoje : Z) (m : Mundo)
  : Dict.t dados :=
  arquivos (listar_arquivos_sftp_recursivo sftp_rec (remote_dir (origem cfg)) 0
              (Some (data_limite cfg data_hoje)) (arvore_origem m) []).

Section Main.
Context `{OsPath}.
Variable cfg : Cliente2JobConfig.

Definition rel_path_de (caminho : string) : string :=
  Str.replace "\" "/" (relpath caminho (remote_dir (origem cfg))).

Definition caminho_dest_de (caminho : string) : string :=
  junta (remote_dir (destino cfg)) (rel_path_de caminho).

(** The download block, with the optional second copy under [base_dir]. *)
Definition baixar (caminho rel_path local_temp : string) : Job unit :=
  try_except
    (call_ (local_mkdir (path_parent local_temp)) ;;
     call_ (sftp_get sftp_rec caminho local_temp) ;;
     if keep_extra_local_copy cfg
     then
       let local_copy := path_join (base_dir cfg) rel_path in
       call_ (local_mkdir (path_parent local_copy)) ;;
       call_ (sftp_get sftp_rec caminho local_copy)
     else ret tt)
    (status_update inc_erros_download ;; continue_).

(** The body of [for caminho, dados in arquivos_origem.items()]. *)
Definition processar (arquivos_destino : Dict.t dados)
  (item : string * dados) : Job unit :=
  let caminho := fst item in
  let dados := snd item in
  let rel_path := rel_path_de caminho in
  let caminho_dest := caminho_dest_de caminho in
  match decisao arquivos_destino caminho_dest dados with
  | Skip => status_update inc_iguais ;; continue_
  | Replace => remover_destino caminho_dest ;; status_update inc_reenviados
  | Create => status_update inc_novos
  end ;;
  let local_temp := path_join (temp_dir cfg) rel_path in
  baixar caminho rel_path local_temp ;;
  enviar local_temp caminho_dest.

Definition main_job (data_hoje : Z) (m : Mundo) : Job unit :=
  arquivos_destino <-
    with_connection sftp_pre
      (listar sftp_pre (remote_dir (destino cfg)) (Some (data_limite cfg data_hoje))
         (arvore_destino m)) ;;
  with_connection sftp_rec
    (arquivos_origem <-
       listar sftp_rec (remote_dir (origem cfg)) (Some (data_limite cfg data_hoje))
         (arvore_origem m) ;;
     for_each (processar arquivos_destino) (Dict.items arquivos_origem)) ;;
  enviar_log (destino_log_dir cfg) (log_path cfg) (log_filename cfg).

(** [main()] from its first session on, run from a fresh [StatusContador]
    with the configuration and the date that its first lines produced;
    those lines are in [Execucao2.main]. *)
Definition main (data_hoje : Z) (m : Mundo) (o : Oracle) : Estado * Outcome unit :=
  main_job data_hoje m o {| historico := []; status := StatusContador_init |}.

End Main.

End Cliente2.

(** Induction on a tree, with the entries of a directory. *)
Section NodeInd.
Variable P : node -> Prop.
Hypothesis HFile : forall nome size dm, P (File nome size dm).
Hypothesis HDir :
  forall nome dm children, Forall P (filhos children) -> P (Dir nome dm children).

Fixpoint node_induction (e : node) : P e :=
  match e with
  | File nome size dm => HFile nome size dm
  | Dir nome dm children =>
      HDir nome dm children
        (match children as c return Forall P (filhos c) with
         | None => Forall_nil P
         | Some entries =>
             (fix go (l : list node) : Forall P l :=
                match l with
                | [] => Forall_nil P
                | x :: l' => Forall_cons x (node_induction x) (go l')
                end) entries
         end)
  end.

End NodeInd.


(* ===================================================================== *)
(** ** Vocabulary for the calls of a run *)
(* ===================================================================== *)

(** The successive paths that the loop of [ensure_remote_dirs] builds from
    [path], one for each part. *)
Fixpoint prefixos (path : string) (parts : list string) : list string :=
  match parts with
  | [] => []
  | part :: rest =>
      let path := (path ++ "/" ++ part)%string in
      path :: prefixos path rest
  end.

(** The calls of that loop over the paths [ps], in the order of [ps]: a
    path is probed with [exists] and made with [mkdir] when the answer is
    false; a call that raises is the last one. *)
Inductive sondagem (sftp : Sessao) : list string -> list Evento -> Prop :=
| sondagem_fim : sondagem sftp [] []
| sondagem_existe p ps l :
    sondagem sftp ps l ->
    sondagem sftp (p :: ps)
      ({| chamada := sftp_exists sftp p; resultado := Retorna true |} :: l)
| sondagem_cria p ps b l :
    sondagem sftp ps l ->
    sondagem sftp (p :: ps)
      ({| chamada := sftp_exists sftp p; resultado := Retorna false |}
       :: {| chamada := sftp_mkdir sftp p; resultado := Retorna b |} :: l)
| sondagem_mkdir_levanta p ps :
    sondagem sftp (p :: ps)
      [{| chamada := sftp_exists sftp p; resultado := Retorna false |};
       {| chamada := sftp_mkdir sftp p; resultado := Levanta |}]
| sondagem_exists_levanta p ps :
    sondagem sftp (p :: ps)
      [{| chamada := sftp_exists sftp p; resultado := Levanta |}].

(** The event shows that the directory [p] is there for the session:
    [exists(p)] answered true, or [mkdir(p)] returned. *)
Definition confirma (sftp : Sessao) (p : string) (e : Evento) : bool :=
  match chamada e, resultado e with
  | sftp_exists s q, Retorna true => Sessao_eqb s sftp && String.eqb q p
  | sftp_mkdir s q, Retorna _ => Sessao_eqb s sftp && String.eqb q p
  | _, _ => false
  end.

(** A server on which a directory that was seen or made is still there
    when it is probed again. *)
Definition persistente (sftp : Sessao) (o : Oracle) : Prop :=
  forall h p,
    existsb (confirma sftp p) h = true ->
    o h (sftp_exists sftp p) = Retorna true.

(** A call that [ensure_remote_dirs] makes on the session. *)
Definition sonda (sftp : Sessao) (c : Call) : Prop :=
  exists q, c = sftp_exists sftp q \/ c = sftp_mkdir sftp q.

(** A file was delivered: a [put] through [sftp_envio] that returned. *)
Definition entregue (e : Evento) : bool :=
  match chamada e, resultado e with
  | sftp_put s _ _, Retorna _ => Sessao_eqb s sftp_envio
  | _, _ => false
  end.

(** The calls [plano] made one after the other inside one [try]: the
    events are those of the calls that returned, in order, and end with the
    first call that raised, if one did. *)
Inductive segue : list Call -> list Evento -> Prop :=
| segue_fim : segue [] []
| segue_retorna c b cs l :
    segue cs l ->
    segue (c :: cs) ({| chamada := c; resultado := Retorna b |} :: l)
| segue_levanta c cs :
    segue (c :: cs) [{| chamada := c; resultado := Levanta |}].

(** The calls of the removal block for the path [p]. *)
Definition chamadas_de_remocao (p : string) : list Call :=
  [Connection sftp_rm; sftp_exists sftp_rm p; sftp_remove sftp_rm p].

(** The body that the loops of the two scripts share: the decision and its
    counter, the removal of a replaced file, then the download block [B]
    and the upload block [E]. *)
Definition corpo (d : Decisao) (p : string) (B E : Job unit) : Job unit :=
  match d with
  | Skip => status_update inc_iguais ;; continue_
  | Replace => remover_destino p ;; status_update inc_reenviados
  | Create => status_update inc_novos
  end ;;
  B ;;
  E.

(** The staging calls of one entry, in the order of the download block. *)
Definition plano1 `{OsPath} (caminho_remoto local_temp : string) : list Call :=
  [local_mkdir (path_parent local_temp);
   sftp_get sftp_orig caminho_remoto local_temp].

Definition plano2 `{OsPath} (cfg : Cliente2.Cliente2JobConfig)
  (caminho rel_path local_temp : string) : list Call :=
  [local_mkdir (path_parent local_temp); sftp_get sftp_rec caminho local_temp]
  ++ (if Cliente2.keep_extra_local_copy cfg
      then [local_mkdir (path_parent (path_join (Cliente2.base_dir cfg) rel_path));
            sftp_get sftp_rec caminho (path_join (Cliente2.base_dir cfg) rel_path)]
      else []).

(** What the upload block of an entry leaves behind: its session, the
    probes of [ensure_remote_dirs] and the one [put]; one delivery exactly
    when no call raised. *)
Definition envio_de (local_temp p : string) (l : list Evento) : Prop :=
  Forall (fun e =>
            In (chamada e) [Connection sftp_envio; sftp_put sftp_envio local_temp p]
            \/ sonda sftp_envio (chamada e)) l /\
  length (filter entregue l) = um_se (negb (existsb falhou l)) /\
  l <> [].

(** The calls that a source entry may make, given its decision [d], its
    destination path [p], its staging path and its staging calls: none
    when it is skipped, the removal calls only when it is replaced. *)
Definition previsto (d : Decisao) (p local_temp : string) (plano : list Call)
  (c : Call) : Prop :=
  d <> Skip /\
  ((d = Replace /\ In c (chamadas_de_remocao p)) \/
   In c plano \/
   In c [Connection sftp_envio; sftp_put sftp_envio local_temp p] \/
   sonda sftp_envio c).

(** The calls of the step that ships the log. *)
Definition chamadas_do_log (destino_log_dir log_path log_filename : string)
  : list Call :=
  [sftp_chdir sftp_log destino_log_dir; sftp_put sftp_log log_path log_filename].

(** A call of the phase of [main] before the loop: opening one of its two
    sessions, or listing a directory through one of them. *)
Definition preparando (a b : Sessao) (e : Evento) : Prop :=
  chamada e = Connection a \/ chamada e = Connection b \/
  exists d x, e = listou a d x \/ e = listou b d x.

(** In the calls [l], whatever was removed had been reported by [exists]
    through the same session. *)
Definition remocao_conferida (l : list Evento) : Prop :=
  forall sx q r,
    In {| chamada := sftp_remove sx q; resultado := r |} l ->
    In {| chamada := sftp_exists sx q; resultado := Retorna true |} l.

(** Deliveries and errors add up to the entries decided new or replaced,
    and removal errors are at most the replaced ones. *)
Definition saldo_certo (s : Estado) : Prop :=
  length (filter entregue (historico s))
  + erros_download (status s) + erros_upload (status s) =
    novos (status s) + reenviados (status s) /\
  erros_remocao (status s) <= reenviados (status s).

(** The call does not go through the session that ships the log. *)
Definition fora_do_log (e : Evento) : Prop :=
  sessao_de (chamada e) <> Some sftp_log.

(* ===================================================================== *)
(** ** Configuration: the process environment and the [.env] file *)
(* ===================================================================== *)

(** More [str] methods, those the configuration code uses. A character
    is a code point below 256 here. *)
Module Texto.

(** [c.isspace()]: tab to carriage return, the four separators 28 to 31,
    the space, and the two Latin-1 spaces 133 and 160. *)
Definition isspace (a : ascii) : bool :=
  let n := nat_of_ascii a in
  (((9 <=? n) && (n <=? 13)) || ((28 <=? n) && (n <=? 32))
   || (n =? 133) || (n =? 160))%nat.

(** [s.lstrip()] *)
Fixpoint lstrip (s : string) : string :=
  match s with
  | EmptyString => EmptyString
  | String a s' => if isspace a then lstrip s' else s
  end.

(** [s.rstrip()] *)
Fixpoint rstrip (s : string) : string :=
  match s with
  | EmptyString => EmptyString
  | String a s' =>
      let r := rstrip s' in
      if Str.is_empty r && isspace a then EmptyString else String a r
  end.

(** [s.strip()] *)
Definition strip (s : string) : string := rstrip (lstrip s).

(** [c.lower()]: the letters [A] to [Z] and the accented capitals 192 to
    222, but for the multiplication sign 215, move 32 up. *)
Definition lower_char (a : ascii) : ascii :=
  let n := nat_of_ascii a in
  if (((65 <=? n) && (n <=? 90)) || ((192 <=? n) && (n <=? 214))
      || ((216 <=? n) && (n <=? 222)))%nat
  then ascii_of_nat (n + 32) else a.

(** [s.lower()] *)
Fixpoint lower (s : string) : string :=
  match s with
  | EmptyString => EmptyString
  | String a s' => String (lower_char a) (lower s')
  end.

(** The text before the first occurrence of [sep]: [s.split(sep, 1)[0]]. *)
Fixpoint before_first (sep s : string) : string :=
  if String.prefix sep s then EmptyString
  else match s with
       | EmptyString => EmptyString
       | String a s' => String a (before_first sep s')
       end.

(** The double quote. *)
Definition aspas : ascii := ascii_of_nat 34.

End Texto.

(** [os.environ] as the platform keeps it. *)
Class OsEnviron := {
  (** the key under which a name is kept: the name itself on POSIX, the
      name in upper case on Windows *)
  encodekey : string -> string;
  (** whether [os.putenv] takes the assignment; it raises when it does not *)
  putenv : string -> string -> bool
}.

(** What [env_path] is: no file, a file that cannot be read as UTF-8
    text, or a file with these lines ([read_text().splitlines()]). *)
Inductive arquivo_env :=
| Ausente
| Ilegivel
| Linhas (ls : list string).

Module Env.

Section ComAmbiente.
Context `{OsEnviron}.

(** The variables of the process, by key. *)
Definition environ := Dict.t string.

(** [os.getenv(name, default)] *)
Definition getenv (env : environ) (name default : string) : string :=
  match Dict.get env (encodekey name) with
  | Some v => v
  | None => default
  end.

(** [os.environ.setdefault(k, v)]: the environment after it, and whether
    it raised. *)
Definition setdefault (env : environ) (k v : string) : environ * bool :=
  let ek := encodekey k in
  if Dict.mem env ek then (env, false)
  else if putenv ek v then (Dict.set env ek v, false)
  else (env, true).

(** The loop of [load_env_file] over the lines of the file. *)
Fixpoint load_linhas (ls : list string) (env : environ) : environ * bool :=
  match ls with
  | [] => (env, false)
  | raw :: rest =>
      let line := Texto.strip raw in
      if Str.is_empty line || String.prefix "#" line
         || negb (Str.contains "=" line)
      then load_linhas rest env
      else
        let k := Texto.before_first "=" line in
        let v := Str.after_first "=" line in
        let k := Texto.strip k in
        let v := Str.strip "'" (Str.strip Texto.aspas (Texto.strip v)) in
        let (env', raised) := setdefault env k v in
        if raised then (env', true) else load_linhas rest env'
  end.

(** [load_env_file(env_path)]: the environment after it, and whether it
    raised. *)
Definition load_env_file (env_path : arquivo_env) (env : environ)
  : environ * bool :=
  match env_path with
  | Ausente => (env, false)
  | Ilegivel => (env, true)
  | Linhas ls => load_linhas ls env
  end.

(** [getenv_required(name)]; [None] when it raises [RuntimeError]. *)
Definition getenv_required (env : environ) (name : string) : option string :=
  let v := Texto.strip (getenv env name "") in
  if Str.is_empty v then None else Some v.

(** [getenv_int(name, default)], [int_de] being [int] on a string:
    the number, or [None] when it raises [ValueError]. *)
Definition getenv_int (int_de : string -> option Z) (env : environ)
  (name : string) (default : Z) : option Z :=
  let raw := Texto.strip (getenv env name "") in
  if Str.is_empty raw then Some default else int_de raw.

(** [getenv_bool(name, default)] *)
Definition getenv_bool (env : environ) (name : string) (default : bool) : bool :=
  let raw := Texto.lower (Texto.strip (getenv env name "")) in
  if Str.is_empty raw then default
  else existsb (String.eqb raw) ["1"; "true"; "yes"; "y"; "on"].

(** [os.getenv(name, "").strip() or None] *)
Definition getenv_opcional (env : environ) (name : string) : option string :=
  let v := Texto.strip (getenv env name "") in
  if Str.is_empty v then None else Some v.

(** What a line of the file assigns, if anything: the key and the value
    that the loop passes to [setdefault]. *)
Definition atribuicao (raw : string) : option (string * string) :=
  let line := Texto.strip raw in
  if Str.is_empty line || String.prefix "#" line
     || negb (Str.contains "=" line)
  then None
  else Some (Texto.strip (Texto.before_first "=" line),
             Str.strip "'" (Str.strip Texto.aspas
                              (Texto.strip (Str.after_first "=" line)))).

(** The assignments of a file, in its order. *)
Definition atribuicoes (ls : list string) : list (string * string) :=
  flat_map (fun raw => match atribuicao raw with
                       | Some kv => [kv]
                       | None => []
                       end) ls.

(** The first assignment of a file to the variable [name]. *)
Definition primeira (ls : list string) (name : string) : option string :=
  match find (fun kv => String.eqb (encodekey (fst kv)) (encodekey name))
          (atribuicoes ls) with
  | Some kv => Some (snd kv)
  | None => None
  end.

End ComAmbiente.

End Env.

(** Sequencing of steps that may raise. *)
Definition e_entao {A B} (m : option A) (k : A -> option B) : option B :=
  match m with
  | Some a => k a
  | None => None
  end.

Declare Scope carga_scope.
Delimit Scope carga_scope with carga.
Notation "x <~ m ;; k" := (e_entao m (fun x => k))
  (at level 61, m at next level, right associativity) : carga_scope.

(** A text that is not blank and has no space around it. *)
Definition preenchido (s : string) : Prop :=
  s <> EmptyString /\ Texto.strip s = s.

(** [load_job_config] of SFTP_Cliente1.py. [base_dir] is the directory of
    the script, [dt_exec] the time stamp of the run, [env_file] the [.env]
    file of [base_dir] and [env] the environment of the process; [None]
    when it raises. *)
Module Config1.

Section Carga.
Context `{OsPath} `{OsEnviron}.
Variable int_de : string -> option Z.

Definition load_job_config (base_dir dt_exec : string) (env_file : arquivo_env)
  (env : Env.environ) : option Cliente1.cliente1JobConfig :=
  let (env, raised) := Env.load_env_file env_file env in
  if raised then None
  else
    let log_filename := ("log_execucao_cliente1_" ++ dt_exec ++ ".log")%string in
    let temp_dir := path_join (path_join base_dir "CARGAS") "cliente1" in
    let log_path :=
      path_join (path_join (path_join base_dir "logs") "cliente1") log_filename in
    (o_host <~ Env.getenv_required env "CLIENTE1_SFTP_HOST" ;;
     o_port <~ Env.getenv_int int_de env "CLIENTE1_SFTP_PORT" 2222 ;;
     o_user <~ Env.getenv_required env "CLIENTE1_SFTP_USER" ;;
     o_pass <~ Env.getenv_required env "CLIENTE1_SFTP_PASS" ;;
     o_dir <~ Env.getenv_required env "CLIENTE1_REMOTE_DIR" ;;
     d_host <~ Env.getenv_required env "PREAMBULO_SFTP_HOST" ;;
     d_port <~ Env.getenv_int int_de env "PREAMBULO_SFTP_PORT" 22 ;;
     d_user <~ Env.getenv_required env "PREAMBULO_SFTP_USER" ;;
     d_pass <~ Env.getenv_required env "PREAMBULO_SFTP_PASS" ;;
     uploads <~ Env.getenv_required env "PREAMBULO_REMOTE_UPLOADS_DIR" ;;
     processados <~ Env.getenv_required env "PREAMBULO_REMOTE_PROCESSADOS_DIR" ;;
     logs <~ Env.getenv_required env "PREAMBULO_REMOTE_LOG_DIR" ;;
     Some {| Cliente1.origem :=
               {| host := o_host; port := o_port; username := o_user;
                  password := o_pass; remote_dir := o_dir |};
             Cliente1.destino :=
               {| host := d_host; port := d_port; username := d_user;
                  password := d_pass; remote_dir := "/" |};
             Cliente1.destino_uploads_dir := uploads;
             Cliente1.destino_processados_dir := processados;
             Cliente1.destino_log_dir := logs;
             Cliente1.base_dir := base_dir;
             Cliente1.temp_dir := temp_dir;
             Cliente1.log_path := log_path;
             Cliente1.log_filename := log_filename;
             Cliente1.disable_hostkey_check :=
               Env.getenv_bool env "SFTP_DISABLE_HOSTKEY_CHECK" false;
             Cliente1.known_hosts_path :=
               Env.getenv_opcional env "SFTP_KNOWN_HOSTS" |})%carga.

End Carga.

(** The variables that [load_job_config] reads with [getenv_required]. *)
Definition obrigatorias : list string :=
  ["CLIENTE1_SFTP_HOST"; "CLIENTE1_SFTP_USER"; "CLIENTE1_SFTP_PASS";
   "CLIENTE1_REMOTE_DIR"; "PREAMBULO_SFTP_HOST"; "PREAMBULO_SFTP_USER";
   "PREAMBULO_SFTP_PASS"; "PREAMBULO_REMOTE_UPLOADS_DIR";
   "PREAMBULO_REMOTE_PROCESSADOS_DIR"; "PREAMBULO_REMOTE_LOG_DIR"].

End Config1.

(** [load_job_config] of SFTP_Cliente2.py, likewise; [base_dir] is what
    [get_base_dir] returns. *)
Module Config2.

Section Carga.
Context `{OsPath} `{OsEnviron}.
Variable int_de : string -> option Z.

Definition load_job_config (base_dir dt_exec : string) (env_file : arquivo_env)
  (env : Env.environ) : option Cliente2.Cliente2JobConfig :=
  let (env, raised) := Env.load_env_file env_file env in
  if raised then None
  else
    let log_filename := ("log_execucao_cliente2_" ++ dt_exec ++ ".log")%string in
    let temp_dir := path_join (path_join base_dir "CARGAS") "cliente2" in
    let log_path :=
      path_join (path_join (path_join base_dir "logs") "cliente2") log_filename in
    (days <~ Env.getenv_int int_de env "DAYS_BACK" 2 ;;
     d_host <~ Env.getenv_required env "PREAMBULO_SFTP_HOST" ;;
     d_port <~ Env.getenv_int int_de env "PREAMBULO_SFTP_PORT" 22 ;;
     d_user <~ Env.getenv_required env "PREAMBULO_SFTP_USER" ;;
     d_pass <~ Env.getenv_required env "PREAMBULO_SFTP_PASS" ;;
     d_dir <~ Env.getenv_required env "PREAMBULO_REMOTE_DIR" ;;
     o_host <~ Env.getenv_required env "CLIENTE2_SFTP_HOST" ;;
     o_port <~ Env.getenv_int int_de env "CLIENTE2_SFTP_PORT" 9022 ;;
     o_user <~ Env.getenv_required env "CLIENTE2_SFTP_USER" ;;
     o_pass <~ Env.getenv_required env "CLIENTE2_SFTP_PASS" ;;
     o_dir <~ Env.getenv_required env "CLIENTE2_REMOTE_DIR" ;;
     logs <~ Env.getenv_required env "PREAMBULO_REMOTE_LOG_DIR" ;;
     Some {| Cliente2.origem :=
               {| host := o_host; port := o_port; username := o_user;
                  password := o_pass; remote_dir := o_dir |};
             Cliente2.destino :=
               {| host := d_host; port := d_port; username := d_user;
                  password := d_pass; remote_dir := d_dir |};
             Cliente2.destino_log_dir := logs;
             Cliente2.days_back := days;
             Cliente2.base_dir := base_dir;
             Cliente2.temp_dir := temp_dir;
             Cliente2.log_path := log_path;
             Cliente2.log_filename := log_filename;
             Cliente2.disable_hostkey_check :=
               Env.getenv_bool env "SFTP_DISABLE_HOSTKEY_CHECK" false;
             Cliente2.known_hosts_path :=
               Env.getenv_opcional env "SFTP_KNOWN_HOSTS";
             Cliente2.keep_extra_local_copy :=
               Env.getenv_bool env "KEEP_EXTRA_LOCAL_COPY" true |})%carga.

End Carga.

(** The variables that [load_job_config] reads with [getenv_required]. *)
Definition obrigatorias : list string :=
  ["PREAMBULO_SFTP_HOST"; "PREAMBULO_SFTP_USER"; "PREAMBULO_SFTP_PASS";
   "PREAMBULO_REMOTE_DIR"; "CLIENTE2_SFTP_HOST"; "CLIENTE2_SFTP_USER";
   "CLIENTE2_SFTP_PASS"; "CLIENTE2_REMOTE_DIR"; "PREAMBULO_REMOTE_LOG_DIR"].

End Config2.

(* ===================================================================== *)
(** ** The calls of each block, exactly *)
(* ===================================================================== *)

(** The calls of the removal block for the path [p]: its session; when
    that opens, the probe of [p]; and when the probe answers true, the
    [remove] of [p]. Nothing else, and nothing less. *)
Inductive remocao_de (p : string) : list Evento -> Prop :=
| remocao_sem_sessao :
    remocao_de p [{| chamada := Connection sftp_rm; resultado := Levanta |}]
| remocao_sem_resposta b :
    remocao_de p
      [{| chamada := Connection sftp_rm; resultado := Retorna b |};
       {| chamada := sftp_exists sftp_rm p; resultado := Levanta |}]
| remocao_sem_arquivo b :
    remocao_de p
      [{| chamada := Connection sftp_rm; resultado := Retorna b |};
       {| chamada := sftp_exists sftp_rm p; resultado := Retorna false |}]
| remocao_pedida b r :
    remocao_de p
      [{| chamada := Connection sftp_rm; resultado := Retorna b |};
       {| chamada := sftp_exists sftp_rm p; resultado := Retorna true |};
       {| chamada := sftp_remove sftp_rm p; resultado := r |}].

(** The calls of [ensure_remote_dirs(sftp, remote_dir)]: the probe of the
    directory, and, when it answers false, the loop over its parts. *)
Definition garantia (sftp : Sessao) (remote_dir : string) (l : list Evento) : Prop :=
  let alvo := Str.replace "//" "/" remote_dir in
  exists r l',
    l = {| chamada := sftp_exists sftp alvo; resultado := r |} :: l' /\
    match r with
    | Retorna false =>
        sondagem sftp (prefixos "" (Str.split "/" (Str.strip "/" alvo))) l'
    | _ => l' = []
    end.

(** The calls of a block
    [try: with Connection(...) as sftp: ensure_remote_dirs(sftp, dir); plano]:
    the session; when it opens, the calls of [ensure_remote_dirs]; and when
    none of these raises, the calls of [plano] up to the first that raises. *)
Definition bloco_remoto (sftp : Sessao) (dir : string) (plano : list Call)
  (l : list Evento) : Prop :=
  exists r resto,
    l = {| chamada := Connection sftp; resultado := r |} :: resto /\
    match r with
    | Levanta => resto = []
    | Retorna _ =>
        exists le fim,
          resto = le ++ fim /\
          garantia sftp dir le /\
          if existsb falhou le then fim = [] else segue plano fim
    end.

(** The number of directory levels under an entry: the recursion depth
    that walking it takes. *)
Fixpoint altura (e : node) : nat :=
  match e with
  | File _ _ _ => 0
  | Dir _ _ children =>
      S match children with
        | Some entries => fold_right (fun x n => Nat.max (altura x) n) 0 entries
        | None => 0
        end
  end.

Definition altura_de (entries : list node) : nat :=
  fold_right (fun x n => Nat.max (altura x) n) 0 entries.

(** A depth that the interpreter takes with room to spare: the walk uses
    one frame for each level, and CPython allows 1000 frames by default.
    Deeper than its limit, the recursive call raises [RecursionError], the
    [except Exception] of the walk catches it, and what lies below is left
    out of the snapshot. *)
Definition niveis_seguros : nat := 500.

(* ===================================================================== *)
(** ** [main] from its first line *)
(* ===================================================================== *)

(** What the machine of the run does for the lines of [main] that come
    before its first session. *)
Record Maquina := {
  (** [configurar_logs(log_path)] returns: the directory of the log can
      be made and the log file opened *)
  logs_abrem : string -> bool;
  (** [pysftp.CnOpts()] returns *)
  CnOpts : bool;
  (** [Path(p).exists()] *)
  path_exists : string -> bool;
  (** [cnopts.hostkeys.load(p)] returns *)
  hostkeys_load : string -> bool
}.

(** [configurar_logs(log_path)]; [None] when it raises. *)
Definition configurar_logs (mq : Maquina) (log_path : string) : option unit :=
  if logs_abrem mq log_path then Some tt else None.

(** [build_cnopts(disable_hostkey_check, known_hosts_path)]; [None] when
    it raises: in [CnOpts()], for a known_hosts file that is not there
    ([RuntimeError]), or in loading it. *)
Definition build_cnopts (mq : Maquina) (disable_hostkey_check : bool)
  (known_hosts_path : option string) : option unit :=
  if CnOpts mq then
    if disable_hostkey_check then Some tt
    else
      match known_hosts_path with
      | Some p =>
          if Str.is_empty p then Some tt
          else if path_exists mq p
               then (if hostkeys_load mq p then Some tt else None)
               else None
      | None => Some tt
      end
  else None.

(** [timedelta(days=n)]; [None] when it raises [OverflowError]. *)
Definition timedelta (days : Z) : option Z :=
  if (Z.abs days <=? 999999999)%Z then Some days else None.

(** [(hoje - delta).date()], the day numbers being those of
    [date.toordinal()], from 1 for 0001-01-01 to 3652059 for 9999-12-31;
    [None] when the subtraction raises [OverflowError]. *)
Definition menos (hoje delta : Z) : option Z :=
  let d := (hoje - delta)%Z in
  if ((1 <=? d) && (d <=? 3652059))%Z then Some d else None.

(** The whole of [main] of SFTP_Cliente1.py. *)
Module Execucao1.

(** The calls made when the destination has been listed, [b] being what
    opening its session answered. *)
Definition antes_da_origem (cfg : Cliente1.cliente1JobConfig) (data_hoje : Z)
  (m : Cliente1.Mundo) (b : bool) : list Evento :=
  listagens
    (Cliente1.listar_arquivos_sftp_recursivo sftp_dest
       (Cliente1.destino_processados_dir cfg) (Some data_hoje)
       (Cliente1.arvore_processados m)
       (listagens
          (Cliente1.listar_arquivos_sftp_recursivo sftp_dest
             (Cliente1.destino_uploads_dir cfg) (Some data_hoje)
             (Cliente1.arvore_uploads m)
             [{| chamada := Connection sftp_dest; resultado := Retorna b |}]))).

Section Inteiro.
Context `{OsPath} `{OsEnviron}.
Variable int_de : string -> option Z.

(** The lines before the first session:
    [cfg = load_job_config(); configurar_logs(cfg.log_path);
     status = StatusContador(); cnopts = build_cnopts(...)];
    [None] when one of them raises. [datetime.today().date()] does not. *)
Definition preparar (base_dir dt_exec : string) (env_file : arquivo_env)
  (env : Env.environ) (mq : Maquina) : option Cliente1.cliente1JobConfig :=
  (cfg <~ Config1.load_job_config int_de base_dir dt_exec env_file env ;;
   logs <~ configurar_logs mq (Cliente1.log_path cfg) ;;
   cnopts <~ build_cnopts mq (Cliente1.disable_hostkey_check cfg)
               (Cliente1.known_hosts_path cfg) ;;
   Some cfg)%carga.

(** [main()]: an exception of the lines before the first session ends the
    run there; after them it is [Cliente1.main]. *)
Definition main (base_dir dt_exec : string) (env_file : arquivo_env)
  (env : Env.environ) (mq : Maquina) (data_hoje : Z) (m : Cliente1.Mundo)
  (o : Oracle) : Estado * Outcome unit :=
  match preparar base_dir dt_exec env_file env mq with
  | Some cfg => Cliente1.main cfg data_hoje m o
  | None => ({| historico := []; status := StatusContador_init |}, Raised)
  end.

End Inteiro.

End Execucao1.

(** The whole of [main] of SFTP_Cliente2.py. *)
Module Execucao2.

(** [(datetime.today() - timedelta(days=days_back)).date()]; [None] when
    it raises. *)
Definition data_limite (days_back data_hoje : Z) : option Z :=
  (delta <~ timedelta days_back ;; menos data_hoje delta)%carga.

(** The calls made when the destination has been listed, [b] being what
    opening its session answered. *)
Definition antes_da_origem (cfg : Cliente2.Cliente2JobConfig) (data_hoje : Z)
  (m : Cliente2.Mundo) (b : bool) : list Evento :=
  listagens
    (Cliente2.listar_arquivos_sftp_recursivo sftp_pre
       (remote_dir (Cliente2.destino cfg)) 0
       (Some (Cliente2.data_limite cfg data_hoje)) (Cliente2.arvore_destino m)
       [{| chamada := Connection sftp_pre; resultado := Retorna b |}]).

Section Inteiro.
Context `{OsPath} `{OsEnviron}.
Variable int_de : string -> option Z.

(** The lines before the first session, the date of the window being the
    last of them; [None] when one of them raises. *)
Definition preparar (base_dir dt_exec : string) (env_file : arquivo_env)
  (env : Env.environ) (mq : Maquina) (data_hoje : Z)
  : option Cliente2.Cliente2JobConfig :=
  (cfg <~ Config2.load_job_config int_de base_dir dt_exec env_file env ;;
   logs <~ configurar_logs mq (Cliente2.log_path cfg) ;;
   cnopts <~ build_cnopts mq (Cliente2.disable_hostkey_check cfg)
               (Cliente2.known_hosts_path cfg) ;;
   limite <~ data_limite (Cliente2.days_back cfg) data_hoje ;;
   Some cfg)%carga.

(** [main()]: an exception of the lines before the first session ends the
    run there; after them it is [Cliente2.main], whose threshold is the
    date that did not overflow. *)
Definition main (base_dir dt_exec : string) (env_file : arquivo_env)
  (env : Env.environ) (mq : Maquina) (data_hoje : Z) (m : Cliente2.Mundo)
  (o : Oracle) : Estado * Outcome unit :=
  match preparar base_dir dt_exec env_file env mq data_hoje with
  | Some cfg => Cliente2.main cfg data_hoje m o
  | None => ({| historico := []; status := StatusContador_init |}, Raised)
  end.

End Inteiro.

End Execucao2.

(* ===================================================================== *)
(** ** Concrete runs *)
(* ===================================================================== *)

Module Cenario.

Definition os : OsPath := Posix.posix "/job".

Definition servidor (nome raiz : string) : SFTPConfig :=
  {| host := nome; port := 22; username := "job"; password := "segredo";
     remote_dir := raiz |}.

Definition cfg1 : Cliente1.cliente1JobConfig :=
  {| Cliente1.origem := servidor "cliente1" "/src";
     Cliente1.destino := servidor "preambulo" "/";
     Cliente1.destino_uploads_dir := "/home/uploads";
     Cliente1.destino_processados_dir := "/home/processados";
     Cliente1.destino_log_dir := "/home/logs";
     Cliente1.base_dir := "/job";
     Cliente1.temp_dir := "/job/CARGAS/cliente1";
     Cliente1.log_path := "/job/logs/cliente1/run.log";
     Cliente1.log_filename := "run.log";
     Cliente1.disable_hostkey_check := false;
     Cliente1.known_hosts_path := None |}.

Definition cfg2 : Cliente2.Cliente2JobConfig :=
  {| Cliente2.origem := servidor "cliente2" "/src";
     Cliente2.destino := servidor "preambulo" "/dst";
     Cliente2.destino_log_dir := "/logs";
     Cliente2.days_back := 2;
     Cliente2.base_dir := "/job";
     Cliente2.temp_dir := "/job/CARGAS/cliente2";
     Cliente2.log_path := "/job/logs/cliente2/run.log";
     Cliente2.log_filename := "run.log";
     Cliente2.disable_hostkey_check := false;
     Cliente2.known_hosts_path := None;
     Cliente2.keep_extra_local_copy := true |}.

(** Today, as a day number. *)
Definition hoje : Z := 100.

(** A world in which every call succeeds, and [exists] answers whether
    the path is one of [presentes]. *)
Definition responde (presentes : list string) : Oracle :=
  fun _ c =>
    match c with
    | sftp_exists _ p => Retorna (existsb (String.eqb p) presentes)
    | _ => Retorna true
    end.

(** The same world, but for the calls that [falha] selects, which raise. *)
Definition falha_em (falha : Call -> bool) (presentes : list string) : Oracle :=
  fun h c => if falha c then Levanta else responde presentes h c.

Definition e_get (c : Call) : bool :=
  match c with sftp_get _ _ _ => true | _ => false end.

Definition e_put (c : Call) : bool :=
  match c with sftp_put sftp_envio _ _ => true | _ => false end.

Definition e_remove (c : Call) : bool :=
  match c with sftp_remove _ _ => true | _ => false end.

Definition e_conexao (sftp : Sessao) (c : Call) : bool :=
  match c with Connection s => Sessao_eqb s sftp | _ => false end.

Definition e_staging (e : Evento) : bool :=
  removendo e || baixando e || publicando e.

(** Scenario 1 of the spec: one new file in a sub-directory. *)
Definition mundo_novo : Cliente1.Mundo :=
  {| Cliente1.arvore_uploads := Some [];
     Cliente1.arvore_processados := Some [];
     Cliente1.arvore_origem :=
       Some [Dir "a" (Some 100%Z) (Some [File "b.txt" 10 (Some 100%Z)])] |}.

(** Scenario 2: the same file with the same size on both sides. *)
Definition mundo_igual : Cliente1.Mundo :=
  {| Cliente1.arvore_uploads := Some [File "x.txt" 5 (Some 100%Z)];
     Cliente1.arvore_processados := Some [];
     Cliente1.arvore_origem := Some [File "x.txt" 5 (Some 100%Z)] |}.

(** Scenario 3: the same file with another size at the destination. *)
Definition mundo_diferente : Cliente1.Mundo :=
  {| Cliente1.arvore_uploads := Some [File "y.txt" 5 (Some 100%Z)];
     Cliente1.arvore_processados := Some [];
     Cliente1.arvore_origem := Some [File "y.txt" 20 (Some 100%Z)] |}.





Definition mundo2_igual : Cliente2.Mundo :=
  {| Cliente2.arvore_destino := Some [File "x.txt" 5 (Some 99%Z)];
     Cliente2.arvore_origem := Some [File "x.txt" 5 (Some 100%Z)] |}.

Definition mundo2_diferente : Cliente2.Mundo :=
  {| Cliente2.arvore_destino := Some [File "y.txt" 5 (Some 99%Z)];
     Cliente2.arvore_origem := Some [File "y.txt" 20 (Some 100%Z)] |}.

(** Three files at the source: one new, one equal, one of another size. *)
Definition mundo_misto : Cliente1.Mundo :=
  {| Cliente1.arvore_uploads :=
       Some [File "x.txt" 5 (Some 100%Z); File "y.txt" 5 (Some 100%Z)];
     Cliente1.arvore_processados := Some [];
     Cliente1.arvore_origem :=
       Some [Dir "a" (Some 100%Z) (Some [File "b.txt" 10 (Some 100%Z)]);
             File "x.txt" 5 (Some 100%Z);
             File "y.txt" 20 (Some 100%Z)] |}.

(** Three new files at the source; the second one cannot be downloaded. *)
Definition mundo_tres_novos : Cliente1.Mundo :=
  {| Cliente1.arvore_uploads := Some [];
     Cliente1.arvore_processados := Some [];
     Cliente1.arvore_origem :=
       Some [File "a.txt" 1 (Some 100%Z);
             File "b.txt" 2 (Some 100%Z);
             File "c.txt" 3 (Some 100%Z)] |}.

Definition e_get_de (remotepath : string) (c : Call) : bool :=
  match c with sftp_get _ p _ => String.eqb p remotepath | _ => false end.

(** A directory of the window walk, older than the threshold. *)
Definition pasta_velha : node :=
  Dir "2019" (Some 90%Z) (Some [File "z.txt" 7 (Some 100%Z)]).

(** A configuration in which the processados root lies inside the
    uploads root, and a destination with [uploads/a.txt] under the
    processados root [/d/x] and under its sibling [/d/y]. Listings are in
    the order of the names, as [listdir_attr] of pysftp returns them. *)
Definition cfg1_aninhado : Cliente1.cliente1JobConfig :=
  {| Cliente1.origem := servidor "cliente1" "/src";
     Cliente1.destino := servidor "preambulo" "/";
     Cliente1.destino_uploads_dir := "/d";
     Cliente1.destino_processados_dir := "/d/x";
     Cliente1.destino_log_dir := "/logs";
     Cliente1.base_dir := "/job";
     Cliente1.temp_dir := "/job/CARGAS/cliente1";
     Cliente1.log_path := "/job/logs/cliente1/run.log";
     Cliente1.log_filename := "run.log";
     Cliente1.disable_hostkey_check := false;
     Cliente1.known_hosts_path := None |}.

Definition pasta_x : list node :=
  [Dir "uploads" (Some 100%Z) (Some [File "a.txt" 1 (Some 100%Z)])].

Definition mundo_aninhado : Cliente1.Mundo :=
  {| Cliente1.arvore_uploads :=
       Some [Dir "x" (Some 100%Z) (Some pasta_x);
             Dir "y" (Some 100%Z)
               (Some [Dir "uploads" (Some 100%Z)
                        (Some [File "a.txt" 2 (Some 100%Z)])])];
     Cliente1.arvore_processados := Some pasta_x;
     Cliente1.arvore_origem := Some [] |}.

(** The same file name under the two roots of [cfg1]. *)
Definition mundo_nos_dois : Cliente1.Mundo :=
  {| Cliente1.arvore_uploads := Some [File "a.txt" 1 (Some 100%Z)];
     Cliente1.arvore_processados := Some [File "a.txt" 2 (Some 100%Z)];
     Cliente1.arvore_origem := Some [] |}.

Definition uploads_de (cfg : Cliente1.cliente1JobConfig) (m : Cliente1.Mundo)
  : Dict.t dados :=
  arquivos (Cliente1.listar_arquivos_sftp_recursivo sftp_dest
              (Cliente1.destino_uploads_dir cfg) (Some hoje) (Cliente1.arvore_uploads m) []).

Definition processados_de (cfg : Cliente1.cliente1JobConfig) (m : Cliente1.Mundo)
  : Dict.t dados :=
  arquivos (Cliente1.listar_arquivos_sftp_recursivo sftp_dest
              (Cliente1.destino_processados_dir cfg) (Some hoje)
              (Cliente1.arvore_processados m) []).

End Cenario.

(** More concrete worlds. *)
Module Terreno.

(** A server that has the directories [iniciais] and keeps what a run sees
    or makes; every other call succeeds. *)
Definition pastas (iniciais : list string) : Oracle :=
  fun h c =>
    match c with
    | sftp_exists s p =>
        Retorna (existsb (String.eqb p) iniciais || existsb (confirma s p) h)
    | _ => Retorna true
    end.

Definition inicio : Estado := {| historico := []; status := StatusContador_init |}.

(** The environment of a POSIX process: names are kept as they are, and
    [putenv] refuses an empty name, a name with [=], and a NUL. *)
Definition tem_nul (s : string) : bool :=
  Str.contains (String (ascii_of_nat 0) EmptyString) s.

Definition posix_environ : OsEnviron :=
  {| encodekey := fun k => k;
     putenv := fun k v =>
       negb (Str.is_empty k) && negb (Str.contains "=" k)
       && negb (tem_nul k) && negb (tem_nul v) |}.

(** A process that has one of the variables set, to a blank. *)
Definition ambiente : Dict.t string :=
  [("HOME", "/root"); ("CLIENTE1_SFTP_PASS", " ")].

(** A [.env] file with a comment, a blank line, spaces around a key and
    a value, quotes, a second assignment to the same key, a line without
    [=], and an assignment to the variable that the process has. *)
Definition dotenv : list string :=
  ["# servidores";
   "";
   "  CLIENTE1_SFTP_HOST = src.example.org  ";
   "CLIENTE1_SFTP_USER='job'";
   "CLIENTE1_SFTP_USER=outro";
   "linha sem sinal";
   "CLIENTE1_SFTP_PASS=segredo"].

(** A [.env] file that assigns every variable that SFTP_Cliente1.py
    requires, and no port. *)
Definition dotenv_completo : list string :=
  ["CLIENTE1_SFTP_HOST=src.example.org";
   "CLIENTE1_SFTP_USER=job";
   "CLIENTE1_SFTP_PASS=segredo";
   "CLIENTE1_REMOTE_DIR=/src";
   "PREAMBULO_SFTP_HOST=dst.example.org";
   "PREAMBULO_SFTP_USER=job";
   "PREAMBULO_SFTP_PASS=segredo";
   "PREAMBULO_REMOTE_UPLOADS_DIR=/home/uploads";
   "PREAMBULO_REMOTE_PROCESSADOS_DIR=/home/processados";
   "PREAMBULO_REMOTE_LOG_DIR = /home/logs ";
   "SFTP_DISABLE_HOSTKEY_CHECK=Yes"].

(** No port is set in these runs, so that [int] is never called. *)
Definition sem_int : string -> option Z := fun _ => None.

(** What [load_job_config] returns for that file in a process that sets
    none of the variables. *)
Definition cfg_carregada : Cliente1.cliente1JobConfig :=
  {| Cliente1.origem :=
       {| host := "src.example.org"; port := 2222; username := "job";
          password := "segredo"; remote_dir := "/src" |};
     Cliente1.destino :=
       {| host := "dst.example.org"; port := 22; username := "job";
          password := "segredo"; remote_dir := "/" |};
     Cliente1.destino_uploads_dir := "/home/uploads";
     Cliente1.destino_processados_dir := "/home/processados";
     Cliente1.destino_log_dir := "/home/logs";
     Cliente1.base_dir := "/job";
     Cliente1.temp_dir := "/job/CARGAS/cliente1";
     Cliente1.log_path := "/job/logs/cliente1/log_execucao_cliente1_20240102_0304.log";
     Cliente1.log_filename := "log_execucao_cliente1_20240102_0304.log";
     Cliente1.disable_hostkey_check := true;
     Cliente1.known_hosts_path := None |}.

(** The [get] of the extra local copy of [y.txt] under [/job]. *)
Definition e_copia (c : Call) : bool :=
  match c with
  | sftp_get _ _ l => String.eqb l "/job/y.txt"
  | _ => false
  end.

(** The configuration of the scenarios, but with an uploads root that has
    [/uploads/] inside it. *)
Definition cfg_uploads_no_meio : Cliente1.cliente1JobConfig :=
  {| Cliente1.origem := Cliente1.origem Cenario.cfg1;
     Cliente1.destino := Cliente1.destino Cenario.cfg1;
     Cliente1.destino_uploads_dir := "/data/uploads/incoming";
     Cliente1.destino_processados_dir := "/data/processados";
     Cliente1.destino_log_dir := "/data/logs";
     Cliente1.base_dir := "/job";
     Cliente1.temp_dir := "/job/CARGAS/cliente1";
     Cliente1.log_path := "/job/logs/cliente1/run.log";
     Cliente1.log_filename := "run.log";
     Cliente1.disable_hostkey_check := false;
     Cliente1.known_hosts_path := None |}.

(** A [.env] file that assigns every variable that SFTP_Cliente2.py
    requires, no port and no [DAYS_BACK]. *)
Definition dotenv2_completo : list string :=
  ["PREAMBULO_SFTP_HOST=dst.example.org";
   "PREAMBULO_SFTP_USER=job";
   "PREAMBULO_SFTP_PASS=segredo";
   "PREAMBULO_REMOTE_DIR=/dst";
   "CLIENTE2_SFTP_HOST=src.example.org";
   "CLIENTE2_SFTP_USER=job";
   "CLIENTE2_SFTP_PASS=segredo";
   "CLIENTE2_REMOTE_DIR=/src";
   "PREAMBULO_REMOTE_LOG_DIR=/logs";
   "SFTP_DISABLE_HOSTKEY_CHECK=1"].

(** A [.env] file for SFTP_Cliente1.py that checks host keys against a
    file of its own. *)
Definition dotenv_com_hosts : list string :=
  ["CLIENTE1_SFTP_HOST=src.example.org";
   "CLIENTE1_SFTP_USER=job";
   "CLIENTE1_SFTP_PASS=segredo";
   "CLIENTE1_REMOTE_DIR=/src";
   "PREAMBULO_SFTP_HOST=dst.example.org";
   "PREAMBULO_SFTP_USER=job";
   "PREAMBULO_SFTP_PASS=segredo";
   "PREAMBULO_REMOTE_UPLOADS_DIR=/home/uploads";
   "PREAMBULO_REMOTE_PROCESSADOS_DIR=/home/processados";
   "PREAMBULO_REMOTE_LOG_DIR=/home/logs";
   "SFTP_KNOWN_HOSTS=/job/known_hosts"].

(** A machine on which the lines of [main] before its first session go
    through, but for a known_hosts file, which it has not. *)
Definition maquina : Maquina :=
  {| logs_abrem := fun _ => true;
     CnOpts := true;
     path_exists := fun _ => false;
     hostkeys_load := fun _ => true |}.

End Terreno.

(* ===================================================================== *)
(** ** The blocks of the loop body, one by one *)
(* ===================================================================== *)

Local Open Scope list_scope.
Local Arguments String.append : simpl never.

Lemma call_run (c : Call) (o : Oracle) (s : Estado) :
  call c o s =
    ({| historico := historico s ++ [{| chamada := c; resultado := o (historico s) c |}];
        status := status s |},
     match o (historico s) c with
     | Retorna b => Ok b
     | Levanta => Raised
     end).
Proof.
  unfold call. destruct (o (historico s) c); reflexivity.
Qed.

Lemma call__run (c : Call) (o : Oracle) (s : Estado) :
  call_ c o s =
    ({| historico := historico s ++ [{| chamada := c; resultado := o (historico s) c |}];
        status := status s |},
     match o (historico s) c with
     | Retorna _ => Ok tt
     | Levanta => Raised
     end).
Proof.
  unfold call_, bind. rewrite call_run. destruct (o (historico s) c); reflexivity.
Qed.

(** What [ensure_parts] leaves behind: calls of its session only, the
    counters as they were, and an exception exactly when a call raised. *)
Lemma Sessao_eqb_refl (x : Sessao) : Sessao_eqb x x = true.
Proof. destruct x; reflexivity. Qed.

Ltac fecha_eventos :=
  split; [reflexivity|];
  unfold na_sessao; simpl; rewrite ?Sessao_eqb_refl; simpl; auto.

Lemma ensure_parts_run (sftp : Sessao) (parts : list string) :
  forall (path : string) (o : Oracle) (s : Estado),
  exists l,
    historico (fst (ensure_parts sftp path parts o s)) = historico s ++ l /\
    status (fst (ensure_parts sftp path parts o s)) = status s /\
    forallb (na_sessao sftp) l = true /\
    snd (ensure_parts sftp path parts o s) =
      (if existsb falhou l then Raised else Ok tt).
Proof.
  induction parts as [|part rest IH]; intros path o s.
  - exists []. simpl. rewrite app_nil_r. auto.
  - simpl. unfold bind. rewrite call_run. simpl.
    destruct (o (historico s) (sftp_exists sftp (path ++ "/" ++ part)%string))
      as [[|]|] eqn:E1.
    + simpl.
      match goal with |- context [ensure_parts sftp ?p rest o ?s1] =>
        destruct (IH p o s1) as (l & Hh & Hs & Hf & Hr) end.
      eexists (_ :: l). simpl in *. rewrite Hh, Hs, Hr, <- app_assoc. simpl.
      fecha_eventos.
    + rewrite call__run. simpl.
      destruct (o _ (sftp_mkdir sftp (path ++ "/" ++ part)%string)) as [b|] eqn:E2.
      * match goal with |- context [ensure_parts sftp ?p rest o ?s1] =>
          destruct (IH p o s1) as (l & Hh & Hs & Hf & Hr) end.
        eexists (_ :: _ :: l). simpl in *.
        rewrite Hh, Hs, Hr, <- !app_assoc. simpl. fecha_eventos.
      * eexists [_; _]. simpl. rewrite <- app_assoc. simpl. fecha_eventos.
    + eexists [_]. simpl. fecha_eventos.
Qed.

Lemma ensure_remote_dirs_run (sftp : Sessao) (remote_dir : string) (o : Oracle)
  (s : Estado) :
  exists l,
    historico (fst (ensure_remote_dirs sftp remote_dir o s)) = historico s ++ l /\
    status (fst (ensure_remote_dirs sftp remote_dir o s)) = status s /\
    forallb (na_sessao sftp) l = true /\
    snd (ensure_remote_dirs sftp remote_dir o s) =
      (if existsb falhou l then Raised else Ok tt).
Proof.
  unfold ensure_remote_dirs, bind. rewrite call_run.
  set (p := Str.replace "//" "/" remote_dir).
  destruct (o (historico s) (sftp_exists sftp p)) as [[|]|] eqn:E1; simpl.
  - eexists [_]. fecha_eventos.
  - match goal with |- context [ensure_parts sftp ?q ?ps o ?s1] =>
      destruct (ensure_parts_run sftp ps q o s1) as (l & Hh & Hs & Hf & Hr) end.
    eexists (_ :: l). simpl in *. rewrite Hh, Hs, Hr, <- app_assoc. simpl.
    fecha_eventos.
  - eexists [_]. fecha_eventos.
Qed.

(** The removal block never raises and never ends the iteration; it opens
    its session first, removes what [exists] reports, and counts one
    removal error when one of its calls raised. *)
Lemma remover_destino_run (p : string) (o : Oracle) (s : Estado) :
  exists r l,
    historico (fst (remover_destino p o s)) =
      historico s ++ {| chamada := Connection sftp_rm; resultado := r |} :: l /\
    forallb removendo l = true /\
    status (fst (remover_destino p o s)) =
      (if falhou {| chamada := Connection sftp_rm; resultado := r |}
          || existsb falhou l
       then inc_erros_remocao (status s) else status s) /\
    snd (remover_destino p o s) = Ok tt /\
    (In {| chamada := sftp_exists sftp_rm p; resultado := Retorna true |} l ->
     exists r', In {| chamada := sftp_remove sftp_rm p; resultado := r' |} l) /\
    (forall r', In {| chamada := sftp_remove sftp_rm p; resultado := r' |} l ->
     In {| chamada := sftp_exists sftp_rm p; resultado := Retorna true |} l).
Proof.
  unfold remover_destino, try_except, with_connection, bind.
  rewrite call__run.
  destruct (o (historico s) (Connection sftp_rm)) as [b0|] eqn:E0; simpl.
  - rewrite call_run. simpl.
    destruct (o _ (sftp_exists sftp_rm p)) as [[|]|] eqn:E1; simpl.
    + rewrite call__run. simpl.
      destruct (o _ (sftp_remove sftp_rm p)) as [b2|] eqn:E2; simpl;
        eexists _, [_; _]; rewrite <- !app_assoc; simpl;
        (split; [reflexivity|]); simpl; repeat split; eauto.
    + eexists _, [_]; rewrite <- !app_assoc; simpl;
        (split; [reflexivity|]); simpl; repeat split; eauto;
        intros; intuition discriminate.
    + eexists _, [_]; rewrite <- !app_assoc; simpl;
        (split; [reflexivity|]); simpl; repeat split; eauto;
        intros; intuition discriminate.
  - eexists _, []; (split; [reflexivity|]); simpl; repeat split; eauto;
      intros; contradiction.
Qed.

(** The upload block never raises and never ends the iteration; all its
    calls go through [sftp_envio], and it counts one upload error when one
    of them raised. *)
Lemma enviar_run `{OsPath} (local_temp p : string) (o : Oracle) (s : Estado) :
  exists l,
    historico (fst (enviar local_temp p o s)) = historico s ++ l /\
    forallb publicando l = true /\
    status (fst (enviar local_temp p o s)) =
      (if existsb falhou l then inc_erros_upload (status s) else status s) /\
    snd (enviar local_temp p o s) = Ok tt.
Proof.
  unfold enviar, try_except, with_connection, bind.
  rewrite call__run.
  destruct (o (historico s) (Connection sftp_envio)) as [b0|] eqn:E0; simpl.
  - match goal with |- context [ensure_remote_dirs ?f ?d o ?s1] =>
      destruct (ensure_remote_dirs_run f d o s1) as (l & Hh & Hs & Hf & Hr);
      destruct (ensure_remote_dirs f d o s1) as [s2 r2] end.
    simpl in *. subst r2.
    destruct (existsb falhou l) eqn:Ef.
    + eexists (_ :: l). simpl. rewrite Hh, Hs, <- app_assoc. simpl.
      rewrite Ef. unfold publicando. fecha_eventos.
    + rewrite call__run. rewrite Hh, Hs.
      destruct (o _ (sftp_put sftp_envio local_temp p)) as [b2|] eqn:E2; simpl;
        eexists (_ :: l ++ [_]); rewrite <- !app_assoc; simpl;
        (split; [reflexivity|]); rewrite forallb_app, existsb_app, Ef;
        unfold publicando in *; rewrite Hf; simpl; auto.
  - eexists [_]. unfold publicando. fecha_eventos.
Qed.

Lemma enviar_log_run (d lp lf : string) (o : Oracle) (s : Estado) :
  exists l,
    historico (fst (enviar_log d lp lf o s)) = historico s ++ l /\
    forallb (na_sessao sftp_log) l = true /\
    status (fst (enviar_log d lp lf o s)) = status s /\
    snd (enviar_log d lp lf o s) = Ok tt.
Proof.
  unfold enviar_log, try_except, with_connection, bind.
  rewrite call__run.
  destruct (o (historico s) (Connection sftp_log)) as [b0|] eqn:E0; simpl.
  - match goal with |- context [ensure_remote_dirs ?f ?d o ?s1] =>
      destruct (ensure_remote_dirs_run f d o s1) as (l & Hh & Hs & Hf & Hr);
      destruct (ensure_remote_dirs f d o s1) as [s2 r2] end.
    simpl in *. subst r2.
    destruct (existsb falhou l) eqn:Ef.
    + eexists (_ :: l). simpl. rewrite Hh, Hs, <- app_assoc. simpl. fecha_eventos.
    + rewrite call__run. rewrite Hh, Hs.
      destruct (o _ (sftp_chdir sftp_log d)) as [b2|] eqn:E2; simpl.
      * rewrite call__run. simpl.
        destruct (o _ (sftp_put sftp_log lp lf)) as [b3|] eqn:E3; simpl;
          eexists (_ :: l ++ [_; _]); rewrite <- !app_assoc; simpl;
          (split; [reflexivity|]); rewrite forallb_app, Hf; simpl; auto.
      * eexists (_ :: l ++ [_]); rewrite <- !app_assoc; simpl;
          (split; [reflexivity|]); rewrite forallb_app, Hf; simpl; auto.
  - eexists [_]. fecha_eventos.
Qed.

(** The download block of SFTP_Cliente1.py: it starts with the local
    [mkdir], and a call that raises counts one download error and ends the
    iteration. *)
Lemma baixar1_run `{OsPath} (caminho local_temp : string) (o : Oracle) (s : Estado) :
  exists r l,
    historico (fst (Cliente1.baixar caminho local_temp o s)) =
      historico s
      ++ {| chamada := local_mkdir (path_parent local_temp); resultado := r |} :: l /\
    forallb baixando l = true /\
    status (fst (Cliente1.baixar caminho local_temp o s)) =
      (if falhou {| chamada := local_mkdir (path_parent local_temp); resultado := r |}
          || existsb falhou l
       then inc_erros_download (status s) else status s) /\
    snd (Cliente1.baixar caminho local_temp o s) =
      (if falhou {| chamada := local_mkdir (path_parent local_temp); resultado := r |}
          || existsb falhou l
       then Continue else Ok tt).
Proof.
  unfold Cliente1.baixar, try_except, bind.
  rewrite call__run.
  destruct (o (historico s) (local_mkdir (path_parent local_temp))) as [b0|];
    simpl.
  - rewrite call__run. simpl.
    destruct (o _ (sftp_get sftp_orig caminho local_temp)) as [b1|]; simpl;
      eexists _, [_]; rewrite <- !app_assoc; simpl;
      (split; [reflexivity|]); simpl; auto.
  - eexists _, []; (split; [reflexivity|]); simpl; auto.
Qed.

(** The download block of SFTP_Cliente2.py, with its optional second copy. *)
Lemma baixar2_run `{OsPath} (cfg : Cliente2.Cliente2JobConfig)
  (caminho rel_path local_temp : string) (o : Oracle) (s : Estado) :
  exists r l,
    historico (fst (Cliente2.baixar cfg caminho rel_path local_temp o s)) =
      historico s
      ++ {| chamada := local_mkdir (path_parent local_temp); resultado := r |} :: l /\
    forallb baixando l = true /\
    status (fst (Cliente2.baixar cfg caminho rel_path local_temp o s)) =
      (if falhou {| chamada := local_mkdir (path_parent local_temp); resultado := r |}
          || existsb falhou l
       then inc_erros_download (status s) else status s) /\
    snd (Cliente2.baixar cfg caminho rel_path local_temp o s) =
      (if falhou {| chamada := local_mkdir (path_parent local_temp); resultado := r |}
          || existsb falhou l
       then Continue else Ok tt).
Proof.
  unfold Cliente2.baixar, try_except, bind.
  rewrite call__run.
  destruct (o (historico s) (local_mkdir (path_parent local_temp))) as [b0|];
    simpl.
  - rewrite call__run. simpl.
    destruct (o _ (sftp_get sftp_rec caminho local_temp)) as [b1|]; simpl.
    + destruct (Cliente2.keep_extra_local_copy cfg); simpl.
      * rewrite call__run. simpl.
        destruct (o _ (local_mkdir _)) as [b2|]; simpl.
        -- rewrite call__run. simpl.
           destruct (o _ (sftp_get sftp_rec caminho _)) as [b3|]; simpl;
             eexists _, [_; _; _]; rewrite <- !app_assoc; simpl;
             (split; [reflexivity|]); simpl; auto.
        -- eexists _, [_; _]; rewrite <- !app_assoc; simpl;
             (split; [reflexivity|]); simpl; auto.
      * eexists _, [_]; rewrite <- !app_assoc; simpl;
          (split; [reflexivity|]); simpl; auto.
    + eexists _, [_]; rewrite <- !app_assoc; simpl;
        (split; [reflexivity|]); simpl; auto.
  - eexists _, []; (split; [reflexivity|]); simpl; auto.
Qed.

(** Composing two blocks. *)
Lemma bind_run {A B} (m : Job A) (f : A -> Job B) (o : Oracle) (s : Estado) :
  bind m f o s =
    match snd (m o s) with
    | Ok a => f a o (fst (m o s))
    | Continue => (fst (m o s), Continue)
    | Raised => (fst (m o s), Raised)
    end.
Proof.
  unfold bind. destruct (m o s) as [s' [a| |]]; reflexivity.
Qed.

(** One iteration of the loop of SFTP_Cliente1.py, stage by stage. *)
Lemma processar1_run `{OsPath} (cfg : Cliente1.cliente1JobConfig)
  (dest : Dict.t dados) (item : string * dados) (o : Oracle) (s : Estado) :
  let d := decisao dest (Cliente1.rel_path_de cfg (fst item)) (snd item) in
  let p := Cliente1.destino_path_de cfg (fst item) in
  let local_temp :=
    path_join (Cliente1.temp_dir cfg) (Cliente1.rel_path_de cfg (fst item)) in
  exists lr lb lp,
    historico (fst (Cliente1.processar cfg dest item o s)) =
      historico s ++ lr ++ lb ++ lp /\
    forallb removendo lr = true /\
    forallb baixando lb = true /\
    forallb publicando lp = true /\
    status (fst (Cliente1.processar cfg dest item o s)) =
      conta d lr lb lp (status s) /\
    snd (Cliente1.processar cfg dest item o s) =
      (if is_skip d || existsb falhou lb then Continue else Ok tt) /\
    (existsb falhou lb = true -> lp = []) /\
    match d with
    | Skip => lr = [] /\ lb = [] /\ lp = []
    | Create =>
        lr = [] /\
        exists r l,
          lb = {| chamada := local_mkdir (path_parent local_temp);
                  resultado := r |} :: l
    | Replace =>
        (exists r l,
           lr = {| chamada := Connection sftp_rm; resultado := r |} :: l /\
           (In {| chamada := sftp_exists sftp_rm p; resultado := Retorna true |} l ->
            exists r', In {| chamada := sftp_remove sftp_rm p; resultado := r' |} l) /\
           (forall r', In {| chamada := sftp_remove sftp_rm p; resultado := r' |} l ->
            In {| chamada := sftp_exists sftp_rm p; resultado := Retorna true |} l)) /\
        exists r l,
          lb = {| chamada := local_mkdir (path_parent local_temp);
                  resultado := r |} :: l
    end.
Proof.
  intros d p local_temp. unfold Cliente1.processar. cbv zeta.
  fold d. fold p. fold local_temp.
  destruct d eqn:Ed.
  - (* Skip *)
    exists [], [], []. simpl. rewrite app_nil_r. auto 10.
  - (* Create *)
    rewrite bind_run. simpl.
    destruct (baixar1_run (fst item) local_temp o
                {| historico := historico s; status := inc_novos (status s) |})
      as (r & l & Hh & Hf & Hs & Hr).
    rewrite bind_run, Hr.
    set (eb := {| chamada := local_mkdir (path_parent local_temp); resultado := r |}) in *.
    destruct (falhou eb || existsb falhou l) eqn:Ef.
    + exists [], (eb :: l), []. simpl in *. rewrite Hh, Hs, app_nil_r.
      unfold conta. simpl. rewrite Ef.
      repeat split; eauto; try (do 2 eexists; reflexivity).
    + match goal with |- context [enviar ?a ?b o ?s1] =>
        destruct (enviar_run a b o s1) as (lp & Hh2 & Hf2 & Hs2 & Hr2) end.
      exists [], (eb :: l), lp. simpl in *. rewrite Hh2, Hs2, Hr2, Hh, Hs.
      rewrite <- app_assoc. simpl.
      unfold conta. simpl. rewrite Ef.
      repeat split; eauto; try discriminate; try (do 2 eexists; reflexivity).
  - (* Replace *)
    rewrite bind_run.
    destruct (remover_destino_run p o s) as (r0 & l0 & Hh0 & Hf0 & Hs0 & Hr0 & Hx0).
    rewrite bind_run, Hr0. cbv iota beta.
    set (er := {| chamada := Connection sftp_rm; resultado := r0 |}) in *.
    change (status_update inc_reenviados o (fst (remover_destino p o s)))
      with ({| historico := historico (fst (remover_destino p o s));
               status := inc_reenviados (status (fst (remover_destino p o s))) |},
            @Ok unit tt).
    cbv iota beta. simpl fst. simpl snd. cbv iota beta.
    rewrite bind_run.
    match goal with |- context [Cliente1.baixar ?a ?b o ?s1] =>
      destruct (baixar1_run a b o s1) as (r & l & Hh & Hf & Hs & Hr) end.
    rewrite Hr.
    set (eb := {| chamada := local_mkdir (path_parent local_temp); resultado := r |}) in *.
    assert (Hfr : forallb removendo (er :: l0) = true) by (simpl; exact Hf0).
    destruct (falhou eb || existsb falhou l) eqn:Ef.
    + exists (er :: l0), (eb :: l), []. simpl in Hh, Hs. cbn [fst snd].
      rewrite Hh, Hs, Hh0, Hs0.
      rewrite app_nil_r, <- app_assoc.
      unfold conta. simpl existsb. rewrite Ef.
      repeat split; eauto; try (do 2 eexists; reflexivity).
      exists r0, l0. split; [reflexivity | exact Hx0].
    + match goal with |- context [enviar ?a ?b o ?s1] =>
        destruct (enviar_run a b o s1) as (lp & Hh2 & Hf2 & Hs2 & Hr2) end.
      exists (er :: l0), (eb :: l), lp. simpl in Hh, Hs.
      rewrite Hh2, Hs2, Hr2, Hh, Hs, Hh0, Hs0.
      rewrite <- !app_assoc.
      unfold conta. simpl existsb. rewrite Ef.
      repeat split; eauto; try discriminate; try (do 2 eexists; reflexivity).
      exists r0, l0. split; [reflexivity | exact Hx0].
Qed.

(** One iteration of the loop of SFTP_Cliente2.py, stage by stage. *)
Lemma processar2_run `{OsPath} (cfg : Cliente2.Cliente2JobConfig)
  (dest : Dict.t dados) (item : string * dados) (o : Oracle) (s : Estado) :
  let d := decisao dest (Cliente2.caminho_dest_de cfg (fst item)) (snd item) in
  let p := Cliente2.caminho_dest_de cfg (fst item) in
  let local_temp :=
    path_join (Cliente2.temp_dir cfg) (Cliente2.rel_path_de cfg (fst item)) in
  exists lr lb lp,
    historico (fst (Cliente2.processar cfg dest item o s)) =
      historico s ++ lr ++ lb ++ lp /\
    forallb removendo lr = true /\
    forallb baixando lb = true /\
    forallb publicando lp = true /\
    status (fst (Cliente2.processar cfg dest item o s)) =
      conta d lr lb lp (status s) /\
    snd (Cliente2.processar cfg dest item o s) =
      (if is_skip d || existsb falhou lb then Continue else Ok tt) /\
    (existsb falhou lb = true -> lp = []) /\
    match d with
    | Skip => lr = [] /\ lb = [] /\ lp = []
    | Create =>
        lr = [] /\
        exists r l,
          lb = {| chamada := local_mkdir (path_parent local_temp);
                  resultado := r |} :: l
    | Replace =>
        (exists r l,
           lr = {| chamada := Connection sftp_rm; resultado := r |} :: l /\
           (In {| chamada := sftp_exists sftp_rm p; resultado := Retorna true |} l ->
            exists r', In {| chamada := sftp_remove sftp_rm p; resultado := r' |} l) /\
           (forall r', In {| chamada := sftp_remove sftp_rm p; resultado := r' |} l ->
            In {| chamada := sftp_exists sftp_rm p; resultado := Retorna true |} l)) /\
        exists r l,
          lb = {| chamada := local_mkdir (path_parent local_temp);
                  resultado := r |} :: l
    end.
Proof.
  intros d p local_temp. unfold Cliente2.processar. cbv zeta.
  fold d. fold p. fold local_temp.
  destruct d eqn:Ed.
  - (* Skip *)
    exists [], [], []. simpl. rewrite app_nil_r. auto 10.
  - (* Create *)
    rewrite bind_run. simpl.
    destruct (baixar2_run cfg (fst item) (Cliente2.rel_path_de cfg (fst item)) local_temp o
                {| historico := historico s; status := inc_novos (status s) |})
      as (r & l & Hh & Hf & Hs & Hr).
    rewrite bind_run, Hr.
    set (eb := {| chamada := local_mkdir (path_parent local_temp); resultado := r |}) in *.
    destruct (falhou eb || existsb falhou l) eqn:Ef.
    + exists [], (eb :: l), []. simpl in *. rewrite Hh, Hs, app_nil_r.
      unfold conta. simpl. rewrite Ef.
      repeat split; eauto; try (do 2 eexists; reflexivity).
    + match goal with |- context [enviar ?a ?b o ?s1] =>
        destruct (enviar_run a b o s1) as (lp & Hh2 & Hf2 & Hs2 & Hr2) end.
      exists [], (eb :: l), lp. simpl in *. rewrite Hh2, Hs2, Hr2, Hh, Hs.
      rewrite <- app_assoc. simpl.
      unfold conta. simpl. rewrite Ef.
      repeat split; eauto; try discriminate; try (do 2 eexists; reflexivity).
  - (* Replace *)
    rewrite bind_run.
    destruct (remover_destino_run p o s) as (r0 & l0 & Hh0 & Hf0 & Hs0 & Hr0 & Hx0).
    rewrite bind_run, Hr0. cbv iota beta.
    set (er := {| chamada := Connection sftp_rm; resultado := r0 |}) in *.
    change (status_update inc_reenviados o (fst (remover_destino p o s)))
      with ({| historico := historico (fst (remover_destino p o s));
               status := inc_reenviados (status (fst (remover_destino p o s))) |},
            @Ok unit tt).
    cbv iota beta. simpl fst. simpl snd. cbv iota beta.
    rewrite bind_run.
    match goal with |- context [Cliente2.baixar cfg ?a ?c ?b o ?s1] =>
      destruct (baixar2_run cfg a c b o s1) as (r & l & Hh & Hf & Hs & Hr) end.
    rewrite Hr.
    set (eb := {| chamada := local_mkdir (path_parent local_temp); resultado := r |}) in *.
    assert (Hfr : forallb removendo (er :: l0) = true) by (simpl; exact Hf0).
    destruct (falhou eb || existsb falhou l) eqn:Ef.
    + exists (er :: l0), (eb :: l), []. simpl in Hh, Hs. cbn [fst snd].
      rewrite Hh, Hs, Hh0, Hs0.
      rewrite app_nil_r, <- app_assoc.
      unfold conta. simpl existsb. rewrite Ef.
      repeat split; eauto; try (do 2 eexists; reflexivity).
      exists r0, l0. split; [reflexivity | exact Hx0].
    + match goal with |- context [enviar ?a ?b o ?s1] =>
        destruct (enviar_run a b o s1) as (lp & Hh2 & Hf2 & Hs2 & Hr2) end.
      exists (er :: l0), (eb :: l), lp. simpl in Hh, Hs.
      rewrite Hh2, Hs2, Hr2, Hh, Hs, Hh0, Hs0.
      rewrite <- !app_assoc.
      unfold conta. simpl existsb. rewrite Ef.
      repeat split; eauto; try discriminate; try (do 2 eexists; reflexivity).
      exists r0, l0. split; [reflexivity | exact Hx0].
Qed.

(* ===================================================================== *)
(** ** Facts about the dict *)
(* ===================================================================== *)

Section DictFacts.
Context {V : Type}.
Implicit Types (d : Dict.t V) (k : string) (v : V).

Lemma get_set_eq d k v : Dict.get (Dict.set d k v) k = Some v.
Proof.
  induction d as [|[k' v'] d IH]; simpl.
  - now rewrite String.eqb_refl.
  - destruct (String.eqb k' k) eqn:E; simpl; rewrite E; auto.
Qed.

Lemma get_set_neq d k k' v :
  k <> k' -> Dict.get (Dict.set d k v) k' = Dict.get d k'.
Proof.
  intros Hn. induction d as [|[k0 v0] d IH]; simpl.
  - destruct (String.eqb k k') eqn:E; auto.
    apply String.eqb_eq in E. contradiction.
  - destruct (String.eqb k0 k) eqn:E; simpl.
    + apply String.eqb_eq in E. subst k0.
      destruct (String.eqb k k') eqn:E'; auto.
      apply String.eqb_eq in E'. contradiction.
    + destruct (String.eqb k0 k'); auto.
Qed.

Lemma in_set d k v kv :
  In kv (Dict.set d k v) -> kv = (k, v) \/ In kv d.
Proof.
  induction d as [|[k' v'] d IH]; simpl.
  - intros [<-|[]]. now left.
  - destruct (String.eqb k' k) eqn:E; simpl.
    + apply String.eqb_eq in E. subst k'. intros [<-|Hin]; auto.
    + intros [<-|Hin]; auto. destruct (IH Hin); auto.
Qed.

Lemma in_update d other kv :
  In kv (Dict.update d other) -> In kv d \/ In kv other.
Proof.
  unfold Dict.update. revert d.
  induction other as [|[k v] other IH]; simpl; intros d Hin; auto.
  apply IH in Hin. destruct Hin as [Hin|Hin]; auto.
  apply in_set in Hin. destruct Hin as [->|Hin]; auto.
Qed.

Lemma mem_true_iff d k : Dict.mem d k = true <-> exists v, Dict.get d k = Some v.
Proof.
  unfold Dict.mem. destruct (Dict.get d k) as [v|].
  - split; eauto.
  - split; [discriminate | intros [v Hv]; discriminate].
Qed.

Lemma mem_set d k v k' :
  Dict.mem (Dict.set d k v) k' = String.eqb k k' || Dict.mem d k'.
Proof.
  unfold Dict.mem. destruct (String.eqb k k') eqn:E.
  - apply String.eqb_eq in E. subst k'. now rewrite get_set_eq.
  - apply String.eqb_neq in E. now rewrite get_set_neq.
Qed.

Lemma mem_update d other k :
  Dict.mem (Dict.update d other) k = Dict.mem d k || Dict.mem other k.
Proof.
  unfold Dict.update. revert d.
  induction other as [|[k0 v0] other IH]; simpl; intros d.
  - now rewrite orb_false_r.
  - rewrite IH, mem_set.
    assert (Hc : Dict.mem ((k0, v0) :: other) k = String.eqb k0 k || Dict.mem other k).
    { unfold Dict.mem. simpl. destruct (String.eqb k0 k); reflexivity. }
    rewrite Hc.
    destruct (String.eqb k0 k), (Dict.mem d k), (Dict.mem other k); reflexivity.
Qed.

Lemma get_in d k v : Dict.get d k = Some v -> In (k, v) d.
Proof.
  induction d as [|[k' v'] d IH]; simpl; [discriminate|].
  destruct (String.eqb k' k) eqn:E.
  - apply String.eqb_eq in E. subst k'. intros [= ->]. now left.
  - auto.
Qed.

End DictFacts.

(* ===================================================================== *)
(** ** Facts about the walk *)
(* ===================================================================== *)

Lemma for_entries_app {S} (body : node -> S -> S * bool) (a b : list node) (st : S) :
  for_entries body (a ++ b) st =
    if snd (for_entries body a st) then (fst (for_entries body a st), true)
    else for_entries body b (fst (for_entries body a st)).
Proof.
  revert st. induction a as [|e a IH]; intros st; simpl; auto.
  destruct (body e st) as [st' [|]]; simpl; auto.
Qed.

Lemma for_entries_inv {S} (body : node -> S -> S * bool) (Q : S -> Prop)
  (entries : list node) :
  Forall (fun e => forall st, Q st -> Q (fst (body e st))) entries ->
  forall st, Q st -> Q (fst (for_entries body entries st)).
Proof.
  induction 1 as [|e es He Hes IH]; intros st HQ; simpl; auto.
  specialize (He st HQ). destruct (body e st) as [st' [|]]; simpl in *; auto.
Qed.

Section WalkFacts.
Variable sftp : Sessao.
Variable pula_pasta : nat -> Z -> bool.
Variable inclui : Z -> bool.

(** The iteration on a directory is the recursive call and the merge of
    its result. *)
Lemma visitar_Dir (nivel : nat) (remote_dir nome : string) (dm : Z)
  (children : listing) (st : Passeio) :
  visitar sftp pula_pasta inclui nivel remote_dir (Dir nome (Some dm) children) st =
    if pula_pasta nivel dm then (st, false)
    else
      let sub := percorrer sftp pula_pasta inclui (S nivel) (junta remote_dir nome)
                   children (listagens st) in
      ({| listagens := listagens sub;
          arquivos := Dict.update (arquivos st) (arquivos sub) |}, false).
Proof.
  simpl. destruct (pula_pasta nivel dm); [reflexivity|].
  unfold percorrer. destruct children as [entries|]; [|reflexivity].
  destruct (for_entries _ entries _); reflexivity.
Qed.

(** The walk of a directory that can be listed is the loop over its
    entries. *)
Lemma percorrer_fst (nivel : nat) (remote_dir : string) (entries : list node)
  (feitas : list Evento) :
  percorrer sftp pula_pasta inclui nivel remote_dir (Some entries) feitas =
    fst (for_entries (visitar sftp pula_pasta inclui nivel remote_dir) entries
           {| listagens := feitas ++ [listou sftp remote_dir (Some entries)];
              arquivos := Dict.empty |}).
Proof.
  unfold percorrer. destruct (for_entries _ entries _); reflexivity.
Qed.

(** A directory that cannot be listed and an empty one leave the same
    [arquivos]. *)
Lemma percorrer_filhos (nivel : nat) (remote_dir : string) (r : listing)
  (feitas : list Evento) :
  arquivos (percorrer sftp pula_pasta inclui nivel remote_dir r feitas) =
    arquivos
      (fst (for_entries (visitar sftp pula_pasta inclui nivel remote_dir) (filhos r)
              {| listagens := feitas ++ [listou sftp remote_dir r];
                 arquivos := Dict.empty |})).
Proof.
  destruct r as [entries|]; [|reflexivity]. now rewrite percorrer_fst.
Qed.

(** A property of [arquivos] that the insertions of the walk keep is kept
    by the whole walk. *)
Section Invariante.
Variable I : Dict.t dados -> Prop.
Hypothesis I_set :
  forall d k size dm, I d -> inclui dm = true ->
    I (Dict.set d k {| tamanho := size; data := dm |}).
Hypothesis I_update : forall d d', I d -> I d' -> I (Dict.update d d').
Hypothesis I_empty : I Dict.empty.



End Invariante.

(** The walk only adds listing calls to the calls made. *)
Lemma visitar_listagens (e : node) :
  forall nivel remote_dir st,
    exists l,
      listagens (fst (visitar sftp pula_pasta inclui nivel remote_dir e st)) =
        listagens st ++ l /\
      forallb listando l = true.
Proof.
  induction e as [nome size dm | nome dm children IH] using node_induction;
    intros nivel remote_dir st.
  - simpl. destruct dm as [dm|]; simpl; [|exists []; now rewrite app_nil_r].
    destruct (inclui dm); simpl; exists []; now rewrite app_nil_r.
  - destruct dm as [dm|]; [|simpl; exists []; now rewrite app_nil_r].
    simpl. destruct (pula_pasta nivel dm); simpl;
      [exists []; now rewrite app_nil_r|].
    set (st0 := {| listagens := listagens st ++ [listou sftp (junta remote_dir nome) children];
                   arquivos := Dict.empty |}).
    assert (Hsub : exists l,
      listagens (fst (for_entries
                        (visitar sftp pula_pasta inclui (S nivel) (junta remote_dir nome))
                        (filhos children) st0)) = listagens st0 ++ l /\
      forallb listando l = true).
    { apply (for_entries_inv _
               (fun st' => exists l, listagens st' = listagens st0 ++ l /\
                                     forallb listando l = true)).
      - eapply Forall_impl; [|exact IH]. simpl.
        intros e He st' (l & Hl & Hf).
        destruct (He (S nivel) (junta remote_dir nome) st') as (l' & Hl' & Hf').
        exists (l ++ l'). rewrite Hl', Hl, app_assoc, forallb_app, Hf, Hf'. auto.
      - exists []. now rewrite app_nil_r. }
    destruct Hsub as (l & Hl & Hf).
    exists (listou sftp (junta remote_dir nome) children :: l).
    split; [|simpl; exact Hf].
    destruct children as [entries|]; simpl in *.
    + fold st0. destruct (for_entries _ entries st0) as [sub raised].
      simpl in *. rewrite Hl. now rewrite <- app_assoc.
    + rewrite <- app_assoc in Hl. simpl in Hl. exact Hl.
Qed.

Lemma percorrer_listagens (nivel : nat) (remote_dir : string) (r : listing)
  (feitas : list Evento) :
  exists l,
    listagens (percorrer sftp pula_pasta inclui nivel remote_dir r feitas) =
      feitas ++ listou sftp remote_dir r :: l /\
    forallb listando l = true.
Proof.
  set (st0 := {| listagens := feitas ++ [listou sftp remote_dir r];
                 arquivos := Dict.empty |}).
  assert (Hsub : exists l,
    listagens (fst (for_entries (visitar sftp pula_pasta inclui nivel remote_dir)
                      (filhos r) st0)) = listagens st0 ++ l /\
    forallb listando l = true).
  { apply (for_entries_inv _
             (fun st' => exists l, listagens st' = listagens st0 ++ l /\
                                   forallb listando l = true)).
    - apply Forall_forall. intros e _ st' (l & Hl & Hf).
      destruct (visitar_listagens e nivel remote_dir st') as (l' & Hl' & Hf').
      exists (l ++ l'). rewrite Hl', Hl, app_assoc, forallb_app, Hf, Hf'. auto.
    - exists []. now rewrite app_nil_r. }
  destruct Hsub as (l & Hl & Hf). exists l. split; [|exact Hf].
  simpl in Hl. rewrite <- app_assoc in Hl. simpl in Hl.
  destruct r as [entries|]; [rewrite percorrer_fst|]; exact Hl.
Qed.

(** The same walk on a tree transformed by [g], when [g] keeps the entries
    and maps the sub-trees: same [arquivos], same exception. *)
Section Relacional.
Variable g : node -> node.
Hypothesis g_File : forall nome size dm, g (File nome size dm) = File nome size dm.
Hypothesis g_Dir :
  forall nome dm children,
    exists children',
      g (Dir nome dm children) = Dir nome dm children' /\
      filhos children' = map g (filhos children).

Lemma for_entries_rel (body body' : node -> Passeio -> Passeio * bool)
  (entries : list node) :
  Forall (fun e => forall st st', arquivos st = arquivos st' ->
            arquivos (fst (body e st)) = arquivos (fst (body' (g e) st')) /\
            snd (body e st) = snd (body' (g e) st')) entries ->
  forall st st', arquivos st = arquivos st' ->
    arquivos (fst (for_entries body entries st)) =
      arquivos (fst (for_entries body' (map g entries) st')) /\
    snd (for_entries body entries st) = snd (for_entries body' (map g entries) st').
Proof.
  induction 1 as [|e es He Hes IH]; intros st st' Heq; simpl; auto.
  destruct (He st st' Heq) as [Ha Hb].
  destruct (body e st) as [s1 r1], (body' (g e) st') as [s2 r2]. simpl in *.
  subst r2. destruct r1; simpl; auto.
Qed.

Lemma visitar_rel (e : node) :
  forall nivel remote_dir st st',
    arquivos st = arquivos st' ->
    arquivos (fst (visitar sftp pula_pasta inclui nivel remote_dir e st)) =
      arquivos (fst (visitar sftp pula_pasta inclui nivel remote_dir (g e) st')) /\
    snd (visitar sftp pula_pasta inclui nivel remote_dir e st) =
      snd (visitar sftp pula_pasta inclui nivel remote_dir (g e) st').
Proof.
  induction e as [nome size dm | nome dm children IH] using node_induction;
    intros nivel remote_dir st st' Heq.
  - rewrite g_File. simpl. destruct dm as [dm|]; simpl; auto.
    destruct (inclui dm); simpl; auto. now rewrite Heq.
  - destruct (g_Dir nome dm children) as (children' & -> & Hf).
    destruct dm as [dm|]; [|simpl; auto].
    rewrite !visitar_Dir. destruct (pula_pasta nivel dm); simpl; auto.
    split; auto. rewrite !percorrer_filhos, Hf, Heq. f_equal.
    apply for_entries_rel; auto.
    eapply Forall_impl; [|exact IH]. simpl. intros e He s1 s2 H12. now apply He.
Qed.

Lemma percorrer_rel (nivel : nat) (remote_dir : string) (r r' : listing)
  (feitas feitas' : list Evento) :
  filhos r' = map g (filhos r) ->
  arquivos (percorrer sftp pula_pasta inclui nivel remote_dir r feitas) =
    arquivos (percorrer sftp pula_pasta inclui nivel remote_dir r' feitas').
Proof.
  intros Hf. rewrite !percorrer_filhos, Hf.
  apply for_entries_rel; auto.
  apply Forall_forall. intros e _ s1 s2 H12. now apply visitar_rel.
Qed.

End Relacional.

(** [arquivos] does not depend on the calls made before. *)
Lemma percorrer_feitas (nivel : nat) (remote_dir : string) (r : listing)
  (feitas feitas' : list Evento) :
  arquivos (percorrer sftp pula_pasta inclui nivel remote_dir r feitas) =
    arquivos (percorrer sftp pula_pasta inclui nivel remote_dir r feitas').
Proof.
  apply (percorrer_rel (fun e => e)).
  - reflexivity.
  - intros nome dm children. exists children. now rewrite map_id.
  - now rewrite map_id.
Qed.

Lemma filhos_sarar (children : listing) :
  filhos (sarar_listing children) = map sarar (filhos children).
Proof. reflexivity. Qed.

(** Healing the tree does not change [arquivos]. *)
Lemma percorrer_sarar (nivel : nat) (remote_dir : string) (r : listing)
  (feitas : list Evento) :
  arquivos (percorrer sftp pula_pasta inclui nivel remote_dir r feitas) =
    arquivos (percorrer sftp pula_pasta inclui nivel remote_dir (sarar_listing r) feitas).
Proof.
  apply (percorrer_rel sarar).
  - reflexivity.
  - intros nome dm children. eexists. split; [reflexivity|].
    destruct children; reflexivity.
  - apply filhos_sarar.
Qed.

Lemma for_entries_feitas (nivel : nat) (remote_dir : string) (entries : list node)
  (st st' : Passeio) :
  arquivos st = arquivos st' ->
  arquivos (fst (for_entries (visitar sftp pula_pasta inclui nivel remote_dir) entries st)) =
    arquivos (fst (for_entries (visitar sftp pula_pasta inclui nivel remote_dir) entries st')) /\
  snd (for_entries (visitar sftp pula_pasta inclui nivel remote_dir) entries st) =
    snd (for_entries (visitar sftp pula_pasta inclui nivel remote_dir) entries st').
Proof.
  intros Heq.
  pose proof (for_entries_rel (fun e => e)
                (visitar sftp pula_pasta inclui nivel remote_dir)
                (visitar sftp pula_pasta inclui nivel remote_dir) entries) as Hrel.
  rewrite map_id in Hrel. apply Hrel; auto.
  apply Forall_forall. intros e _ s1 s2 H12.
  apply (visitar_rel (fun e => e)); auto.
  intros nome dm children. exists children. now rewrite map_id.
Qed.

(** A sub-directory whose listing raises leaves [arquivos] as if it were
    not there: what was collected before it stays, and the entries after
    it are walked as usual. *)
Lemma percorrer_sem_pasta_falha (nivel : nat) (remote_dir : string)
  (pre post : list node) (nome : string) (dm : Z) (feitas : list Evento) :
  arquivos (percorrer sftp pula_pasta inclui nivel remote_dir
              (Some (pre ++ Dir nome (Some dm) None :: post)) feitas) =
    arquivos (percorrer sftp pula_pasta inclui nivel remote_dir
                (Some (pre ++ post)) feitas).
Proof.
  rewrite !percorrer_fst, !for_entries_app.
  set (st0 := {| listagens := feitas ++ [listou sftp remote_dir
                                            (Some (pre ++ Dir nome (Some dm) None :: post))];
                 arquivos := Dict.empty |}).
  set (st0' := {| listagens := feitas ++ [listou sftp remote_dir (Some (pre ++ post))];
                  arquivos := Dict.empty |}).
  destruct (for_entries_feitas nivel remote_dir pre st0 st0' eq_refl) as [Ha Hb].
  rewrite <- Hb.
  destruct (snd (for_entries (visitar sftp pula_pasta inclui nivel remote_dir) pre st0));
    cbn [fst]; [exact Ha|].
  change (for_entries ?b (?e :: post) ?s)
    with (let (s1, raised) := b e s in
          if raised then (s1, true) else for_entries b post s1).
  rewrite visitar_Dir.
  destruct (pula_pasta nivel dm); cbn [fst snd];
    apply for_entries_feitas; simpl; auto.
Qed.

(** An iteration never takes a key out of [arquivos]. *)
Lemma visitar_mem_mono (nivel : nat) (remote_dir : string) (e : node)
  (st : Passeio) (k : string) :
  Dict.mem (arquivos st) k = true ->
  Dict.mem (arquivos (fst (visitar sftp pula_pasta inclui nivel remote_dir e st))) k = true.
Proof.
  intros Hm. destruct e as [nome size [dm|] | nome [dm|] children];
    try (simpl; exact Hm).
  - simpl. destruct (inclui dm); simpl; auto. rewrite mem_set, Hm. apply orb_true_r.
  - rewrite visitar_Dir.
    destruct (pula_pasta nivel dm); simpl; auto. rewrite mem_update, Hm. reflexivity.
Qed.

Lemma for_entries_mem_mono (nivel : nat) (remote_dir : string) (entries : list node)
  (st : Passeio) (k : string) :
  Dict.mem (arquivos st) k = true ->
  Dict.mem
    (arquivos (fst (for_entries (visitar sftp pula_pasta inclui nivel remote_dir)
                      entries st))) k = true.
Proof.
  apply (for_entries_inv _ (fun st' => Dict.mem (arquivos st') k = true)).
  apply Forall_forall. intros e _ st' Hst'. now apply visitar_mem_mono.
Qed.

(** Entries whose date converts do not end the loop. *)
Lemma for_entries_legivel (nivel : nat) (remote_dir : string) (entries : list node)
  (st : Passeio) :
  forallb legivel entries = true ->
  snd (for_entries (visitar sftp pula_pasta inclui nivel remote_dir) entries st) = false.
Proof.
  revert st. induction entries as [|e es IH]; intros st Hl; simpl in *; auto.
  apply andb_true_iff in Hl. destruct Hl as [He Hes].
  destruct (visitar sftp pula_pasta inclui nivel remote_dir e st) as [st' raised] eqn:E.
  assert (raised = false).
  { destruct e as [nome size [dm|] | nome [dm|] children]; try discriminate.
    - simpl in E. destruct (inclui dm); now inversion E.
    - rewrite visitar_Dir in E. destruct (pula_pasta nivel dm); now inversion E. }
  subst raised. now apply IH.
Qed.

(** A file the walk comes to is a key of [arquivos]. *)
Lemma alcanca_mem (nivel : nat) (remote_dir : string) (entries : list node)
  (k : string) :
  alcanca pula_pasta inclui nivel remote_dir entries k ->
  forall st,
    Dict.mem
      (arquivos (fst (for_entries (visitar sftp pula_pasta inclui nivel remote_dir)
                        entries st))) k = true.
Proof.
  induction 1 as [nivel remote_dir pre nome size dm post Hpre Hinc
                 |nivel remote_dir pre nome dm sub post k Hpre Hpula Hsub IH];
    intros st; rewrite for_entries_app, (for_entries_legivel _ _ _ _ Hpre).
  - change (for_entries ?b (?e :: post) ?s)
      with (let (s1, raised) := b e s in
            if raised then (s1, true) else for_entries b post s1).
    simpl visitar. rewrite Hinc. cbv iota beta.
    apply for_entries_mem_mono. simpl. rewrite mem_set, String.eqb_refl. reflexivity.
  - change (for_entries ?b (?e :: post) ?s)
      with (let (s1, raised) := b e s in
            if raised then (s1, true) else for_entries b post s1).
    rewrite visitar_Dir, Hpula. cbv zeta iota beta.
    apply for_entries_mem_mono. simpl. rewrite mem_update.
    rewrite percorrer_fst, IH. apply orb_true_r.
Qed.

End WalkFacts.

(* ===================================================================== *)
(** ** The stages of one entry, read off its events *)
(* ===================================================================== *)

Lemma estagios_disjuntos (e : Evento) :
  (removendo e = true -> baixando e = false /\ publicando e = false) /\
  (baixando e = true -> removendo e = false /\ publicando e = false) /\
  (publicando e = true -> removendo e = false /\ baixando e = false).
Proof.
  destruct e as [c r]. unfold removendo, publicando, baixando, na_sessao. simpl.
  destruct c as [s|s ?|s ?|s ?|s ?|s ?|s ? ?|s ? ?|?]; simpl;
    try destruct s; simpl; repeat split; intros; congruence.
Qed.

Lemma existsb_falha_de_mesmo (p : Evento -> bool) (l : list Evento) :
  forallb p l = true -> existsb (falha_de p) l = existsb falhou l.
Proof.
  induction l as [|e l IH]; simpl; auto.
  intros Hf. apply andb_true_iff in Hf. destruct Hf as [He Hl].
  unfold falha_de at 1. rewrite He, IH by assumption. reflexivity.
Qed.

Lemma existsb_falha_de_outro (p q : Evento -> bool) (l : list Evento) :
  (forall e, p e = true -> q e = false) ->
  forallb p l = true -> existsb (falha_de q) l = false.
Proof.
  intros Hpq. induction l as [|e l IH]; simpl; auto.
  intros Hf. apply andb_true_iff in Hf. destruct Hf as [He Hl].
  unfold falha_de at 1. rewrite (Hpq e He), IH by assumption. reflexivity.
Qed.

Lemma existsb_outro (p q : Evento -> bool) (l : list Evento) :
  (forall e, p e = true -> q e = false) ->
  forallb p l = true -> existsb q l = false.
Proof.
  intros Hpq. induction l as [|e l IH]; simpl; auto.
  intros Hf. apply andb_true_iff in Hf. destruct Hf as [He Hl].
  rewrite (Hpq e He), IH by assumption. reflexivity.
Qed.

(** In the events of one entry, the failures of each stage are the
    failures of its part. *)
Lemma falhas_por_estagio (lr lb lp : list Evento) :
  forallb removendo lr = true ->
  forallb baixando lb = true ->
  forallb publicando lp = true ->
  existsb (falha_de removendo) (lr ++ lb ++ lp) = existsb falhou lr /\
  existsb (falha_de baixando) (lr ++ lb ++ lp) = existsb falhou lb /\
  existsb (falha_de publicando) (lr ++ lb ++ lp) = existsb falhou lp /\
  existsb publicando (lr ++ lb ++ lp) = existsb publicando lp /\
  existsb removendo (lb ++ lp) = false.
Proof.
  intros Hr Hb Hp.
  assert (D := estagios_disjuntos).
  rewrite !existsb_app.
  rewrite (existsb_falha_de_mesmo _ _ Hr), (existsb_falha_de_mesmo _ _ Hb),
    (existsb_falha_de_mesmo _ _ Hp).
  rewrite (existsb_falha_de_outro removendo baixando lr),
    (existsb_falha_de_outro removendo publicando lr),
    (existsb_falha_de_outro baixando removendo lb),
    (existsb_falha_de_outro baixando publicando lb),
    (existsb_falha_de_outro publicando removendo lp),
    (existsb_falha_de_outro publicando baixando lp),
    (existsb_outro removendo publicando lr),
    (existsb_outro baixando publicando lb),
    (existsb_outro baixando removendo lb),
    (existsb_outro publicando removendo lp);
    try assumption; try (intros e He; apply (D e) in He; tauto).
  rewrite !orb_false_r. simpl. auto.
Qed.

(** The counters after an entry, one by one. *)
Lemma conta_campos (d : Decisao) (lr lb lp : list Evento) (c : StatusContador) :
  (d <> Replace -> lr = []) ->
  novos (conta d lr lb lp c) = novos c + um_se (is_create d) /\
  iguais (conta d lr lb lp c) = iguais c + um_se (is_skip d) /\
  reenviados (conta d lr lb lp c) = reenviados c + um_se (is_replace d) /\
  erros_remocao (conta d lr lb lp c) = erros_remocao c + um_se (existsb falhou lr) /\
  erros_download (conta d lr lb lp c) = erros_download c + um_se (existsb falhou lb) /\
  erros_upload (conta d lr lb lp c) = erros_upload c + um_se (existsb falhou lp).
Proof.
  intros Hlr. unfold conta.
  destruct d; try (rewrite Hlr by discriminate);
    destruct (existsb falhou lb), (existsb falhou lp);
    try destruct (existsb falhou lr); simpl; repeat split; lia.
Qed.

(** One iteration of the loop of SFTP_Cliente1.py, in terms of the events
    it adds. *)
Lemma processar1_eventos `{OsPath} (cfg : Cliente1.cliente1JobConfig)
  (dest : Dict.t dados) (item : string * dados) (o : Oracle) (s : Estado) :
  let d := decisao dest (Cliente1.rel_path_de cfg (fst item)) (snd item) in
  let p := Cliente1.destino_path_de cfg (fst item) in
  let local_temp :=
    path_join (Cliente1.temp_dir cfg) (Cliente1.rel_path_de cfg (fst item)) in
  let s' := fst (Cliente1.processar cfg dest item o s) in
  exists l,
    historico s' = historico s ++ l /\
    (novos (status s') = novos (status s) + um_se (is_create d) /\
     iguais (status s') = iguais (status s) + um_se (is_skip d) /\
     reenviados (status s') = reenviados (status s) + um_se (is_replace d) /\
     erros_remocao (status s') =
       erros_remocao (status s) + um_se (existsb (falha_de removendo) l) /\
     erros_download (status s') =
       erros_download (status s) + um_se (existsb (falha_de baixando) l) /\
     erros_upload (status s') =
       erros_upload (status s) + um_se (existsb (falha_de publicando) l)) /\
    snd (Cliente1.processar cfg dest item o s) =
      (if is_skip d || existsb (falha_de baixando) l then Continue else Ok tt) /\
    (existsb (falha_de baixando) l = true -> existsb publicando l = false) /\
    match d with
    | Skip => l = []
    | Create =>
        existsb removendo l = false /\
        exists r resto,
          l = {| chamada := local_mkdir (path_parent local_temp);
                 resultado := r |} :: resto
    | Replace =>
        exists r0 lr r1 resto,
          l = {| chamada := Connection sftp_rm; resultado := r0 |} :: lr
              ++ {| chamada := local_mkdir (path_parent local_temp);
                    resultado := r1 |} :: resto /\
          forallb removendo lr = true /\
          existsb removendo
            ({| chamada := local_mkdir (path_parent local_temp);
                resultado := r1 |} :: resto) = false /\
          (In {| chamada := sftp_exists sftp_rm p; resultado := Retorna true |} lr ->
           exists r', In {| chamada := sftp_remove sftp_rm p; resultado := r' |} lr) /\
          (forall r', In {| chamada := sftp_remove sftp_rm p; resultado := r' |} lr ->
           In {| chamada := sftp_exists sftp_rm p; resultado := Retorna true |} lr)
    end.
Proof.
  intros d p local_temp s'.
  destruct (processar1_run cfg dest item o s)
    as (lr & lb & lp & Hh & Hfr & Hfb & Hfp & Hs & Hr & Hlp & Hd).
  fold d p local_temp s' in Hh, Hs, Hr, Hd.
  destruct (falhas_por_estagio lr lb lp Hfr Hfb Hfp) as (F1 & F2 & F3 & F4 & F5).
  assert (Hlr : d <> Replace -> lr = []).
  { intros Hn. destruct d; try tauto; contradiction. }
  exists (lr ++ lb ++ lp). split; [exact Hh|].
  rewrite F1, F2, F3, F4, Hs. split; [now apply conta_campos|].
  split; [exact Hr|]. split.
  { intros Hb. rewrite (Hlp Hb). reflexivity. }
  destruct d.
  - destruct Hd as (-> & -> & ->). reflexivity.
  - destruct Hd as (-> & r & l & ->). simpl app. split; [exact F5|]. eauto.
  - destruct Hd as ((r0 & l0 & -> & Hx) & r1 & l1 & ->).
    exists r0, l0, r1, (l1 ++ lp). simpl app. repeat split; tauto.
Qed.

(** One iteration of the loop of SFTP_Cliente2.py, in terms of the events
    it adds. *)
Lemma processar2_eventos `{OsPath} (cfg : Cliente2.Cliente2JobConfig)
  (dest : Dict.t dados) (item : string * dados) (o : Oracle) (s : Estado) :
  let d := decisao dest (Cliente2.caminho_dest_de cfg (fst item)) (snd item) in
  let p := Cliente2.caminho_dest_de cfg (fst item) in
  let local_temp :=
    path_join (Cliente2.temp_dir cfg) (Cliente2.rel_path_de cfg (fst item)) in
  let s' := fst (Cliente2.processar cfg dest item o s) in
  exists l,
    historico s' = historico s ++ l /\
    (novos (status s') = novos (status s) + um_se (is_create d) /\
     iguais (status s') = iguais (status s) + um_se (is_skip d) /\
     reenviados (status s') = reenviados (status s) + um_se (is_replace d) /\
     erros_remocao (status s') =
       erros_remocao (status s) + um_se (existsb (falha_de removendo) l) /\
     erros_download (status s') =
       erros_download (status s) + um_se (existsb (falha_de baixando) l) /\
     erros_upload (status s') =
       erros_upload (status s) + um_se (existsb (falha_de publicando) l)) /\
    snd (Cliente2.processar cfg dest item o s) =
      (if is_skip d || existsb (falha_de baixando) l then Continue else Ok tt) /\
    (existsb (falha_de baixando) l = true -> existsb publicando l = false) /\
    match d with
    | Skip => l = []
    | Create =>
        existsb removendo l = false /\
        exists r resto,
          l = {| chamada := local_mkdir (path_parent local_temp);
                 resultado := r |} :: resto
    | Replace =>
        exists r0 lr r1 resto,
          l = {| chamada := Connection sftp_rm; resultado := r0 |} :: lr
              ++ {| chamada := local_mkdir (path_parent local_temp);
                    resultado := r1 |} :: resto /\
          forallb removendo lr = true /\
          existsb removendo
            ({| chamada := local_mkdir (path_parent local_temp);
                resultado := r1 |} :: resto) = false /\
          (In {| chamada := sftp_exists sftp_rm p; resultado := Retorna true |} lr ->
           exists r', In {| chamada := sftp_remove sftp_rm p; resultado := r' |} lr) /\
          (forall r', In {| chamada := sftp_remove sftp_rm p; resultado := r' |} lr ->
           In {| chamada := sftp_exists sftp_rm p; resultado := Retorna true |} lr)
    end.
Proof.
  intros d p local_temp s'.
  destruct (processar2_run cfg dest item o s)
    as (lr & lb & lp & Hh & Hfr & Hfb & Hfp & Hs & Hr & Hlp & Hd).
  fold d p local_temp s' in Hh, Hs, Hr, Hd.
  destruct (falhas_por_estagio lr lb lp Hfr Hfb Hfp) as (F1 & F2 & F3 & F4 & F5).
  assert (Hlr : d <> Replace -> lr = []).
  { intros Hn. destruct d; try tauto; contradiction. }
  exists (lr ++ lb ++ lp). split; [exact Hh|].
  rewrite F1, F2, F3, F4, Hs. split; [now apply conta_campos|].
  split; [exact Hr|]. split.
  { intros Hb. rewrite (Hlp Hb). reflexivity. }
  destruct d.
  - destruct Hd as (-> & -> & ->). reflexivity.
  - destruct Hd as (-> & r & l & ->). simpl app. split; [exact F5|]. eauto.
  - destruct Hd as ((r0 & l0 & -> & Hx) & r1 & l1 & ->).
    exists r0, l0, r1, (l1 ++ lp). simpl app. repeat split; tauto.
Qed.

(* ===================================================================== *)
(** ** The loop and [main] *)
(* ===================================================================== *)

Lemma for_each_cons {A} (body : A -> Job unit) (x : A) (xs : list A) (o : Oracle)
  (s : Estado) :
  snd (body x o s) <> Raised ->
  for_each body (x :: xs) o s = for_each body xs o (fst (body x o s)).
Proof.
  simpl. destruct (body x o s) as [s' [[]| |]]; simpl; intros Hn; auto.
  now contradiction Hn.
Qed.

Lemma for_each_completes {A} (body : A -> Job unit) :
  (forall x o s, snd (body x o s) <> Raised) ->
  forall xs o s, snd (for_each body xs o s) = Ok tt.
Proof.
  intros Hb xs o. induction xs as [|x xs IH]; intros s; simpl; auto.
  specialize (Hb x o s). destruct (body x o s) as [s' [[]| |]]; simpl in *; auto.
  now contradiction Hb.
Qed.

(** An invariant of the iterations is an invariant of a loop whose body
    never raises. *)
Lemma for_each_inv {A} (body : A -> Job unit) (Q : nat -> Estado -> Prop) :
  (forall x o s, snd (body x o s) <> Raised) ->
  (forall x o s n, Q n s -> Q (S n) (fst (body x o s))) ->
  forall xs o s n, Q n s -> Q (length xs + n) (fst (for_each body xs o s)).
Proof.
  intros Hn Hb xs o. induction xs as [|x xs IH]; intros s n HQ; auto.
  rewrite for_each_cons by apply Hn.
  simpl length. rewrite Nat.add_succ_comm. apply IH. now apply Hb.
Qed.

Lemma processar1_nao_levanta `{OsPath} (cfg : Cliente1.cliente1JobConfig)
  (dest : Dict.t dados) (item : string * dados) (o : Oracle) (s : Estado) :
  snd (Cliente1.processar cfg dest item o s) <> Raised.
Proof.
  destruct (processar1_run cfg dest item o s)
    as (lr & lb & lp & _ & _ & _ & _ & _ & Hr & _).
  rewrite Hr. destruct (_ || _); discriminate.
Qed.

Lemma processar2_nao_levanta `{OsPath} (cfg : Cliente2.Cliente2JobConfig)
  (dest : Dict.t dados) (item : string * dados) (o : Oracle) (s : Estado) :
  snd (Cliente2.processar cfg dest item o s) <> Raised.
Proof.
  destruct (processar2_run cfg dest item o s)
    as (lr & lb & lp & _ & _ & _ & _ & _ & Hr & _).
  rewrite Hr. destruct (_ || _); discriminate.
Qed.

Lemma listar1_run (sftp : Sessao) (dir : string) (filtro : option Z) (r : listing)
  (o : Oracle) (s : Estado) :
  exists l,
    forallb listando l = true /\
    Cliente1.listar sftp dir filtro r o s =
      ({| historico := historico s ++ l; status := status s |},
       Ok (arquivos (Cliente1.listar_arquivos_sftp_recursivo sftp dir filtro r []))).
Proof.
  unfold Cliente1.listar, Cliente1.listar_arquivos_sftp_recursivo.
  destruct (percorrer_listagens sftp (fun _ _ => false) (Cliente1.passa_filtro filtro)
              0 dir r (historico s)) as (l & Hl & Hf).
  exists (listou sftp dir r :: l). split; [exact Hf|].
  rewrite Hl. f_equal. f_equal. apply percorrer_feitas.
Qed.

Lemma listar2_run (sftp : Sessao) (dir : string) (filtro : option Z) (r : listing)
  (o : Oracle) (s : Estado) :
  exists l,
    forallb listando l = true /\
    Cliente2.listar sftp dir filtro r o s =
      ({| historico := historico s ++ l; status := status s |},
       Ok (arquivos (Cliente2.listar_arquivos_sftp_recursivo sftp dir 0 filtro r []))).
Proof.
  unfold Cliente2.listar, Cliente2.listar_arquivos_sftp_recursivo.
  destruct (percorrer_listagens sftp (fun n d => Cliente2.pasta_antiga n filtro d)
              (Cliente2.passa_filtro filtro) 0 dir r (historico s)) as (l & Hl & Hf).
  exists (listou sftp dir r :: l). split; [exact Hf|].
  rewrite Hl. f_equal. f_equal. apply percorrer_feitas.
Qed.

(** [main] of SFTP_Cliente1.py: it stops at a session that cannot be
    opened, before the loop; otherwise it runs the loop over the source
    snapshot against the merged destination snapshot and ships the log. *)
Lemma main1_run `{OsPath} (cfg : Cliente1.cliente1JobConfig) (data_hoje : Z)
  (m : Cliente1.Mundo) (o : Oracle) :
  (exists h0 sf,
     (sf = sftp_dest \/ sf = sftp_orig) /\
     o h0 (Connection sf) = Levanta /\
     forallb listando h0 = true /\
     Cliente1.main cfg data_hoje m o =
       ({| historico := h0 ++ [{| chamada := Connection sf; resultado := Levanta |}];
           status := StatusContador_init |}, Raised))
  \/
  (exists h1 ll,
     forallb listando h1 = true /\
     forallb (na_sessao sftp_log) ll = true /\
     let sl :=
       fst (for_each
              (Cliente1.processar cfg (Cliente1.snapshot_destino cfg data_hoje m))
              (Dict.items (Cliente1.snapshot_origem cfg data_hoje m)) o
              {| historico := h1; status := StatusContador_init |}) in
     Cliente1.main cfg data_hoje m o =
       ({| historico := historico sl ++ ll; status := status sl |}, Ok tt)).
Proof.
  unfold Cliente1.main, Cliente1.main_job, with_connection.
  rewrite bind_run, bind_run, call__run. simpl historico.
  destruct (o [] (Connection sftp_dest)) as [b0|] eqn:E0; cbn [fst snd].
  2:{ left. exists [], sftp_dest. auto. }
  unfold Cliente1.listar_destino. rewrite bind_run.
  match goal with |- context [Cliente1.listar ?a ?b ?c ?d o ?s1] =>
    destruct (listar1_run a b c d o s1) as (l1 & Hf1 & ->) end.
  cbn [fst snd]. rewrite bind_run.
  match goal with |- context [Cliente1.listar ?a ?b ?c ?d o ?s1] =>
    destruct (listar1_run a b c d o s1) as (l2 & Hf2 & ->) end.
  cbn [fst snd ret historico status]. fold (Cliente1.snapshot_destino cfg data_hoje m).
  rewrite bind_run, bind_run, call__run. cbn [historico status].
  match goal with |- context [o ?h' (Connection sftp_orig)] => set (h := h') end.
  destruct (o h (Connection sftp_orig)) as [b1|] eqn:E1; cbn [fst snd].
  2:{ left. exists h, sftp_orig. repeat split; auto.
      subst h. simpl. rewrite !forallb_app, Hf1, Hf2. reflexivity. }
  rewrite bind_run.
  match goal with |- context [Cliente1.listar ?a ?b ?c ?d o ?s1] =>
    destruct (listar1_run a b c d o s1) as (l3 & Hf3 & ->) end.
  cbn [fst snd historico status]. fold (Cliente1.snapshot_origem cfg data_hoje m).
  right.
  match goal with |- context [for_each ?body ?xs o ?s1] =>
    set (s0 := s1);
    pose proof (for_each_completes body
                  (fun x o s => processar1_nao_levanta cfg _ x o s) xs o s0) as Hc
  end.
  rewrite Hc.
  match goal with |- context [enviar_log ?a ?b ?c o ?s1] =>
    destruct (enviar_log_run a b c o s1) as (ll & Hh & Hfl & Hs & Hr);
    destruct (enviar_log a b c o s1) as [sf rf] end.
  simpl in Hh, Hs, Hr. subst rf.
  exists (historico s0), ll. repeat split; auto.
  - subst s0 h. simpl. rewrite !forallb_app, Hf1, Hf2, Hf3. reflexivity.
  - simpl. destruct sf as [hf stf]. simpl in *. subst. reflexivity.
Qed.

(** [main] of SFTP_Cliente2.py, likewise. *)
Lemma main2_run `{OsPath} (cfg : Cliente2.Cliente2JobConfig) (data_hoje : Z)
  (m : Cliente2.Mundo) (o : Oracle) :
  (exists h0 sf,
     (sf = sftp_pre \/ sf = sftp_rec) /\
     o h0 (Connection sf) = Levanta /\
     forallb listando h0 = true /\
     Cliente2.main cfg data_hoje m o =
       ({| historico := h0 ++ [{| chamada := Connection sf; resultado := Levanta |}];
           status := StatusContador_init |}, Raised))
  \/
  (exists h1 ll,
     forallb listando h1 = true /\
     forallb (na_sessao sftp_log) ll = true /\
     let sl :=
       fst (for_each
              (Cliente2.processar cfg (Cliente2.snapshot_destino cfg data_hoje m))
              (Dict.items (Cliente2.snapshot_origem cfg data_hoje m)) o
              {| historico := h1; status := StatusContador_init |}) in
     Cliente2.main cfg data_hoje m o =
       ({| historico := historico sl ++ ll; status := status sl |}, Ok tt)).
Proof.
  unfold Cliente2.main, Cliente2.main_job, with_connection.
  rewrite bind_run, bind_run, call__run. simpl historico.
  destruct (o [] (Connection sftp_pre)) as [b0|] eqn:E0; cbn [fst snd].
  2:{ left. exists [], sftp_pre. auto. }
  match goal with |- context [Cliente2.listar ?a ?b ?c ?d o ?s1] =>
    destruct (listar2_run a b c d o s1) as (l1 & Hf1 & ->) end.
  cbn [fst snd ret historico status]. fold (Cliente2.snapshot_destino cfg data_hoje m).
  rewrite bind_run, bind_run, call__run. cbn [historico status].
  match goal with |- context [o ?h' (Connection sftp_rec)] => set (h := h') end.
  destruct (o h (Connection sftp_rec)) as [b1|] eqn:E1; cbn [fst snd].
  2:{ left. exists h, sftp_rec. repeat split; auto. }
  rewrite bind_run.
  match goal with |- context [Cliente2.listar ?a ?b ?c ?d o ?s1] =>
    destruct (listar2_run a b c d o s1) as (l3 & Hf3 & ->) end.
  cbn [fst snd historico status]. fold (Cliente2.snapshot_origem cfg data_hoje m).
  right.
  match goal with |- context [for_each ?body ?xs o ?s1] =>
    set (s0 := s1);
    pose proof (for_each_completes body
                  (fun x o s => processar2_nao_levanta cfg _ x o s) xs o s0) as Hc
  end.
  rewrite Hc.
  match goal with |- context [enviar_log ?a ?b ?c o ?s1] =>
    destruct (enviar_log_run a b c o s1) as (ll & Hh & Hfl & Hs & Hr);
    destruct (enviar_log a b c o s1) as [sf rf] end.
  simpl in Hh, Hs, Hr. subst rf.
  exists (historico s0), ll. repeat split; auto.
  - subst s0 h. simpl. rewrite !forallb_app, Hf1, Hf3. reflexivity.
  - simpl. destruct sf as [hf stf]. simpl in *. subst. reflexivity.
Qed.

(* ===================================================================== *)
(** ** The merge of the destination snapshots *)
(* ===================================================================== *)

Lemma find_concat {A} (p : A -> bool) (a b : list A) :
  find p (a ++ b) = match find p a with Some x => Some x | None => find p b end.
Proof.
  induction a as [|x a IH]; simpl; auto. destruct (p x); auto.
Qed.

Section Merge.
Variable rel : string -> string.

Let passo (acc : Dict.t dados) (kv : string * dados) : Dict.t dados :=
  Dict.set acc (rel (fst kv)) (snd kv).




(** The value under a key of the merge is that of the last item that maps
    to the key. *)
Lemma get_merge (L acc : Dict.t dados) (r : string) :
  Dict.get (fold_left passo L acc) r =
    match find (fun kv => String.eqb (rel (fst kv)) r) (rev L) with
    | Some kv => Some (snd kv)
    | None => Dict.get acc r
    end.
Proof.
  revert acc. induction L as [|[k v] L IH]; simpl; intros acc; auto.
  rewrite IH, find_concat.
  destruct (find (fun kv => String.eqb (rel (fst kv)) r) (rev L)); auto.
  simpl. unfold passo. simpl.
  destruct (String.eqb (rel k) r) eqn:E.
  - apply String.eqb_eq in E. subst r. apply get_set_eq.
  - apply String.eqb_neq in E. now apply get_set_neq.
Qed.

End Merge.

Lemma set_app_fora {V} (U Q : Dict.t V) (k : string) (v : V) :
  ~ In k (Dict.keys U) -> Dict.set (U ++ Q) k v = U ++ Dict.set Q k v.
Proof.
  induction U as [|[k' v'] U IH]; simpl; intros Hn; auto.
  destruct (String.eqb k' k) eqn:E.
  - apply String.eqb_eq in E. subst k'. exfalso. apply Hn. now left.
  - rewrite IH; auto.
Qed.

(** Two snapshots with no key in common are merged one after the other. *)
Lemma update_disjuntos {V} (U P : Dict.t V) :
  (forall k, In k (Dict.keys U) -> ~ In k (Dict.keys P)) ->
  Dict.update U P = U ++ Dict.update Dict.empty P.
Proof.
  intros Hd. unfold Dict.update, Dict.empty.
  rewrite <- (app_nil_r U) at 1. generalize (@nil (string * V)) as Q.
  induction P as [|[k v] P IH]; intros Q; simpl; auto.
  rewrite set_app_fora.
  - apply IH. intros k' Hk' Hin. apply (Hd k' Hk'). now right.
  - intros Hin. apply (Hd k Hin). now left.
Qed.

Lemma mem_in_keys {V} (d : Dict.t V) (k : string) :
  In k (Dict.keys d) -> Dict.mem d k = true.
Proof.
  unfold Dict.mem. induction d as [|[k' v'] d IH]; simpl; [easy|].
  intros [->|Hin].
  - now rewrite String.eqb_refl.
  - destruct (String.eqb k' k); auto.
Qed.

Lemma mem_in {V} (d : Dict.t V) (k : string) :
  Dict.mem d k = true -> exists v, In (k, v) d.
Proof.
  intros Hm. apply mem_true_iff in Hm. destruct Hm as [v Hv].
  exists v. now apply get_in.
Qed.

(* ===================================================================== *)
(** ** The string and path primitives at work *)
(* ===================================================================== *)

Example rstrip_barras : Str.rstrip "/" "/a/b//" = "/a/b"%string.
Proof. reflexivity. Qed.

Example rstrip_raiz : Str.rstrip "/" "/" = ""%string.
Proof. reflexivity. Qed.

Example lstrip_barras : Str.lstrip "/" "//a/b/" = "a/b/"%string.
Proof. reflexivity. Qed.

(** [replace] goes left to right and does not look at what it wrote. *)
Example replace_barras : Str.replace "//" "/" "a///b//c" = "a//b/c"%string.
Proof. reflexivity. Qed.

Example replace_contrabarra : Str.replace "\" "/" "a\b\c" = "a/b/c"%string.
Proof. reflexivity. Qed.

Example split_barras : Str.split "/" "a/b//c" = ["a"; "b"; ""; "c"]%string.
Proof. reflexivity. Qed.

Example split_vazio : Str.split "/" "" = [""%string].
Proof. reflexivity. Qed.

Example junta_raiz : junta "/" "a.txt" = "/a.txt"%string.
Proof. reflexivity. Qed.

Example relpath_abaixo : Posix.posix_relpath "/job" "/src/a/b.txt" "/src/" = "a/b.txt"%string.
Proof. reflexivity. Qed.

Example relpath_ao_lado : Posix.posix_relpath "/job" "/src/a/b.txt" "/src/c" = "../a/b.txt"%string.
Proof. reflexivity. Qed.

Example dirname_arquivo : Posix.posix_dirname "/home/uploads/a/b.txt" = "/home/uploads/a"%string.
Proof. reflexivity. Qed.

Example dirname_na_raiz : Posix.posix_dirname "/b.txt" = "/"%string.
Proof. reflexivity. Qed.

(** The relative key of a destination file: after the first [/uploads/]
    when there is one, else with the two roots cut out. *)
Example rel_de_uploads :
  Cliente1.rel_de Cenario.cfg1 "/home/uploads/a/uploads/b.txt" = "a/uploads/b.txt"%string.
Proof. reflexivity. Qed.

Example rel_de_processados :
  Cliente1.rel_de Cenario.cfg1 "/home/processados/q/y.txt" = "q/y.txt"%string.
Proof. reflexivity. Qed.

Example ensure_remote_dirs_cria :
  map chamada
    (historico
       (fst (ensure_remote_dirs sftp_envio "/home//uploads/a" (Cenario.responde ["/home"%string])
               {| historico := []; status := StatusContador_init |}))) =
    [sftp_exists sftp_envio "/home/uploads/a";
     sftp_exists sftp_envio "/home";
     sftp_exists sftp_envio "/home/uploads";
     sftp_mkdir sftp_envio "/home/uploads";
     sftp_exists sftp_envio "/home/uploads/a";
     sftp_mkdir sftp_envio "/home/uploads/a"].
Proof. reflexivity. Qed.

(* ===================================================================== *)
(** ** The scenarios of the specification, run *)
(* ===================================================================== *)

Example cenario1_novo :
  let r := @Cliente1.main Cenario.os Cenario.cfg1 Cenario.hoje Cenario.mundo_novo
             (Cenario.responde []) in
  snd r = Ok tt /\
  novos (status (fst r)) = 1 /\
  In {| chamada := sftp_put sftp_envio "/job/CARGAS/cliente1/a/b.txt"
                     "/home/uploads/a/b.txt";
        resultado := Retorna true |} (historico (fst r)).
Proof. vm_compute. intuition. Qed.

Example cenario2_igual :
  @Cliente1.main Cenario.os Cenario.cfg1 Cenario.hoje Cenario.mundo_igual
    (Cenario.responde ["/home/uploads/x.txt"%string; "/home/logs"%string]) =
  ({| historico :=
        [{| chamada := Connection sftp_dest; resultado := Retorna true |};
         {| chamada := listdir_attr sftp_dest "/home/uploads";
            resultado := Retorna true |};
         {| chamada := listdir_attr sftp_dest "/home/processados";
            resultado := Retorna true |};
         {| chamada := Connection sftp_orig; resultado := Retorna true |};
         {| chamada := listdir_attr sftp_orig "/src"; resultado := Retorna true |};
         {| chamada := Connection sftp_log; resultado := Retorna true |};
         {| chamada := sftp_exists sftp_log "/home/logs"; resultado := Retorna true |};
         {| chamada := sftp_chdir sftp_log "/home/logs"; resultado := Retorna true |};
         {| chamada := sftp_put sftp_log "/job/logs/cliente1/run.log" "run.log";
            resultado := Retorna true |}];
      status := inc_iguais StatusContador_init |}, Ok tt).
Proof. vm_compute. reflexivity. Qed.

Example cenario3_diferente :
  let r := @Cliente1.main Cenario.os Cenario.cfg1 Cenario.hoje Cenario.mundo_diferente
             (Cenario.responde ["/home/uploads/y.txt"%string; "/home/uploads"%string]) in
  status (fst r) = inc_reenviados StatusContador_init /\
  filter Cenario.e_staging (historico (fst r)) =
    [{| chamada := Connection sftp_rm; resultado := Retorna true |};
     {| chamada := sftp_exists sftp_rm "/home/uploads/y.txt"; resultado := Retorna true |};
     {| chamada := sftp_remove sftp_rm "/home/uploads/y.txt"; resultado := Retorna true |};
     {| chamada := local_mkdir "/job/CARGAS/cliente1"; resultado := Retorna true |};
     {| chamada := sftp_get sftp_orig "/src/y.txt" "/job/CARGAS/cliente1/y.txt";
        resultado := Retorna true |};
     {| chamada := Connection sftp_envio; resultado := Retorna true |};
     {| chamada := sftp_exists sftp_envio "/home/uploads"; resultado := Retorna true |};
     {| chamada := sftp_put sftp_envio "/job/CARGAS/cliente1/y.txt" "/home/uploads/y.txt";
        resultado := Retorna true |}].
Proof. vm_compute. split; reflexivity. Qed.

(** The same file with another size, in SFTP_Cliente2.py: the stale file
    is removed, the source file is fetched twice (the staging copy and the
    extra local copy), then sent. *)
Example cenario3_cliente2 :
  let r := @Cliente2.main Cenario.os Cenario.cfg2 Cenario.hoje Cenario.mundo2_diferente
             (Cenario.responde ["/dst/y.txt"%string; "/dst"%string]) in
  status (fst r) = inc_reenviados StatusContador_init /\
  map chamada (filter Cenario.e_staging (historico (fst r))) =
    [Connection sftp_rm;
     sftp_exists sftp_rm "/dst/y.txt";
     sftp_remove sftp_rm "/dst/y.txt";
     local_mkdir "/job/CARGAS/cliente2";
     sftp_get sftp_rec "/src/y.txt" "/job/CARGAS/cliente2/y.txt";
     local_mkdir "/job";
     sftp_get sftp_rec "/src/y.txt" "/job/y.txt";
     Connection sftp_envio;
     sftp_exists sftp_envio "/dst";
     sftp_put sftp_envio "/job/CARGAS/cliente2/y.txt" "/dst/y.txt"].
Proof. vm_compute. split; reflexivity. Qed.

(** The same file with the same size, in SFTP_Cliente2.py. *)
Example cenario2_cliente2 :
  let r := @Cliente2.main Cenario.os Cenario.cfg2 Cenario.hoje Cenario.mundo2_igual
             (Cenario.responde ["/dst/x.txt"%string]) in
  status (fst r) = inc_iguais StatusContador_init /\
  filter Cenario.e_staging (historico (fst r)) = [].
Proof. vm_compute. split; reflexivity. Qed.

(** The source session cannot be opened: the run stops there. *)
Example cenario_sem_origem :
  @Cliente1.main Cenario.os Cenario.cfg1 Cenario.hoje Cenario.mundo_misto
    (Cenario.falha_em (Cenario.e_conexao sftp_orig) []) =
  ({| historico :=
        [{| chamada := Connection sftp_dest; resultado := Retorna true |};
         {| chamada := listdir_attr sftp_dest "/home/uploads";
            resultado := Retorna true |};
         {| chamada := listdir_attr sftp_dest "/home/processados";
            resultado := Retorna true |};
         {| chamada := Connection sftp_orig; resultado := Levanta |}];
      status := StatusContador_init |}, Raised).
Proof. vm_compute. reflexivity. Qed.

(* ===================================================================== *)
(** ** Reconciliation *)
(* ===================================================================== *)

Lemma get_map_valores {V W} (g : V -> W) (d : Dict.t V) (k : string) :
  Dict.get (map (fun kv => (fst kv, g (snd kv))) d) k = option_map g (Dict.get d k).
Proof.
  induction d as [|[k' v] d IH]; simpl; auto.
  destruct (String.eqb k' k); auto.
Qed.

Lemma decisao_casos (dest : Dict.t dados) (key : string) (d : dados) :
  (decisao dest key d = Skip <->
   exists dd, Dict.get dest key = Some dd /\ tamanho dd = tamanho d) /\
  (decisao dest key d = Create <-> Dict.get dest key = None) /\
  (decisao dest key d = Replace <->
   exists dd, Dict.get dest key = Some dd /\ tamanho dd <> tamanho d).
Proof.
  unfold decisao. destruct (Dict.get dest key) as [dd|].
  - destruct (Z.eqb_spec (tamanho dd) (tamanho d)) as [E|E].
    + repeat split; try discriminate; eauto.
      intros (dd' & [= <-] & Hn). contradiction.
    + repeat split; try discriminate; eauto.
      intros (dd' & [= <-] & Hn). contradiction.
  - repeat split; try discriminate; auto; intros (dd & Hd & _); discriminate.
Qed.

(** C1. The decision for a source record is Skip exactly when the key is
    in the (merged) destination snapshot with the same [tamanho], Create
    exactly when the key is absent, Replace exactly when it is present
    with another [tamanho]; no modification date changes it; and each
    script counts the entry under that decision. The key is the relative
    path in SFTP_Cliente1.py and the relative path under the destination
    root in SFTP_Cliente2.py. *)
Theorem decisao_por_presenca_e_tamanho :
  forall (os : OsPath),
    (forall (dest : Dict.t dados) (key : string) (d : dados),
       (decisao dest key d = Skip <->
        exists dd, Dict.get dest key = Some dd /\ tamanho dd = tamanho d) /\
       (decisao dest key d = Create <-> Dict.get dest key = None) /\
       (decisao dest key d = Replace <->
        exists dd, Dict.get dest key = Some dd /\ tamanho dd <> tamanho d) /\
       (forall (f : dados -> Z) (x : Z),
          decisao (map (fun kv => (fst kv, redatar (f (snd kv)) (snd kv))) dest)
            key (redatar x d) = decisao dest key d)) /\
    (forall cfg dest item o s,
       let d := decisao dest (Cliente1.rel_path_de cfg (fst item)) (snd item) in
       let s' := fst (Cliente1.processar cfg dest item o s) in
       iguais (status s') = iguais (status s) + um_se (is_skip d) /\
       novos (status s') = novos (status s) + um_se (is_create d) /\
       reenviados (status s') = reenviados (status s) + um_se (is_replace d)) /\
    (forall cfg dest item o s,
       let d := decisao dest (Cliente2.caminho_dest_de cfg (fst item)) (snd item) in
       let s' := fst (Cliente2.processar cfg dest item o s) in
       iguais (status s') = iguais (status s) + um_se (is_skip d) /\
       novos (status s') = novos (status s) + um_se (is_create d) /\
       reenviados (status s') = reenviados (status s) + um_se (is_replace d)).
Proof.
  intros os. split; [|split].
  - intros dest key d.
    destruct (decisao_casos dest key d) as (H1 & H2 & H3).
    repeat split; try apply H1; try apply H2; try apply H3.
    intros f x. unfold decisao.
    rewrite (get_map_valores (fun v => redatar (f v) v)).
    destruct (Dict.get dest key); reflexivity.
  - intros cfg dest item o s d s'.
    destruct (processar1_eventos cfg dest item o s) as (l & _ & Hc & _).
    fold d s' in Hc. tauto.
  - intros cfg dest item o s d s'.
    destruct (processar2_eventos cfg dest item o s) as (l & _ & Hc & _).
    fold d s' in Hc. tauto.
Qed.

(** C7. A source entry whose key is in the destination snapshot with the
    same [tamanho] only counts as unchanged: the iteration makes no call at
    all (no removal, download, remote [mkdir] or upload) and ends by
    [continue]. *)
Theorem igual_nao_toca_em_nada :
  forall (os : OsPath),
    (forall cfg dest item dd o s,
       Dict.get dest (Cliente1.rel_path_de cfg (fst item)) = Some dd ->
       tamanho dd = tamanho (snd item) ->
       Cliente1.processar cfg dest item o s =
         ({| historico := historico s; status := inc_iguais (status s) |}, Continue)) /\
    (forall cfg dest item dd o s,
       Dict.get dest (Cliente2.caminho_dest_de cfg (fst item)) = Some dd ->
       tamanho dd = tamanho (snd item) ->
       Cliente2.processar cfg dest item o s =
         ({| historico := historico s; status := inc_iguais (status s) |}, Continue)).
Proof.
  intros os. split; intros cfg dest item dd o s Hg Ht.
  - unfold Cliente1.processar, decisao. rewrite Hg, Ht, Z.eqb_refl. reflexivity.
  - unfold Cliente2.processar, decisao. rewrite Hg, Ht, Z.eqb_refl. reflexivity.
Qed.

(** An equal file, in a world where every call would raise: nothing is
    called. *)
Lemma igual_nao_toca_em_nada_witness :
  @Cliente1.processar Cenario.os Cenario.cfg1
    [("x.txt"%string, {| tamanho := 5; data := 100 |})]
    ("/src/x.txt"%string, {| tamanho := 5; data := 100 |})
    (Cenario.falha_em (fun _ => true) [])
    {| historico := []; status := StatusContador_init |} =
  ({| historico := []; status := inc_iguais StatusContador_init |}, Continue).
Proof.
  apply (proj1 (igual_nao_toca_em_nada Cenario.os))
    with (dd := {| tamanho := 5; data := 100 |}); reflexivity.
Defined.

(* ===================================================================== *)
(** ** The counters *)
(* ===================================================================== *)

Lemma laco1_decididos `{OsPath} (cfg : Cliente1.cliente1JobConfig)
  (dest : Dict.t dados) (items : list (string * dados)) (o : Oracle) (s : Estado) :
  decididos (status (fst (for_each (Cliente1.processar cfg dest) items o s))) =
    length items + decididos (status s).
Proof.
  rewrite <- (Nat.add_0_r (length items)).
  apply (for_each_inv (Cliente1.processar cfg dest)
           (fun n s' => decididos (status s') = n + decididos (status s)));
    [intros; apply processar1_nao_levanta| |reflexivity].
  intros x o' s1 n Hn.
  destruct (processar1_eventos cfg dest x o' s1) as (l & _ & Hc & _).
  revert Hc Hn. cbv zeta. unfold decididos.
  destruct (decisao dest _ _); simpl; lia.
Qed.

Lemma laco2_decididos `{OsPath} (cfg : Cliente2.Cliente2JobConfig)
  (dest : Dict.t dados) (items : list (string * dados)) (o : Oracle) (s : Estado) :
  decididos (status (fst (for_each (Cliente2.processar cfg dest) items o s))) =
    length items + decididos (status s).
Proof.
  rewrite <- (Nat.add_0_r (length items)).
  apply (for_each_inv (Cliente2.processar cfg dest)
           (fun n s' => decididos (status s') = n + decididos (status s)));
    [intros; apply processar2_nao_levanta| |reflexivity].
  intros x o' s1 n Hn.
  destruct (processar2_eventos cfg dest x o' s1) as (l & _ & Hc & _).
  revert Hc Hn. cbv zeta. unfold decididos.
  destruct (decisao dest _ _); simpl; lia.
Qed.

(** C10. The loop counts every source entry under exactly one of new,
    unchanged and replaced: after the loop the three counters have grown
    by the number of entries, and a run that completes ends with their sum
    equal to the size of the source snapshot. New and replaced are counted
    when the decision is taken, whatever the world answers to the calls
    that follow (a failed download or upload does not undo them). *)
Theorem decididos_somam_a_origem :
  forall (os : OsPath),
    (forall cfg dest items o s,
       let c' := status (fst (for_each (Cliente1.processar cfg dest) items o s)) in
       novos c' + iguais c' + reenviados c' =
         novos (status s) + iguais (status s) + reenviados (status s) + length items) /\
    (forall cfg data_hoje m o,
       snd (Cliente1.main cfg data_hoje m o) = Ok tt ->
       let c := status (fst (Cliente1.main cfg data_hoje m o)) in
       novos c + iguais c + reenviados c =
         Dict.len (Cliente1.snapshot_origem cfg data_hoje m)) /\
    (forall cfg dest item o s,
       let d := decisao dest (Cliente1.rel_path_de cfg (fst item)) (snd item) in
       let c' := status (fst (Cliente1.processar cfg dest item o s)) in
       (d = Create -> novos c' = S (novos (status s))) /\
       (d = Replace -> reenviados c' = S (reenviados (status s)))) /\
    (forall cfg dest items o s,
       let c' := status (fst (for_each (Cliente2.processar cfg dest) items o s)) in
       novos c' + iguais c' + reenviados c' =
         novos (status s) + iguais (status s) + reenviados (status s) + length items) /\
    (forall cfg data_hoje m o,
       snd (Cliente2.main cfg data_hoje m o) = Ok tt ->
       let c := status (fst (Cliente2.main cfg data_hoje m o)) in
       novos c + iguais c + reenviados c =
         Dict.len (Cliente2.snapshot_origem cfg data_hoje m)) /\
    (forall cfg dest item o s,
       let d := decisao dest (Cliente2.caminho_dest_de cfg (fst item)) (snd item) in
       let c' := status (fst (Cliente2.processar cfg dest item o s)) in
       (d = Create -> novos c' = S (novos (status s))) /\
       (d = Replace -> reenviados c' = S (reenviados (status s)))).
Proof.
  intros os. repeat apply conj.
  - intros cfg dest items o s c'. subst c'.
    pose proof (laco1_decididos cfg dest items o s) as Hl.
    unfold decididos in Hl. lia.
  - intros cfg data_hoje m o Hok c. subst c.
    destruct (main1_run cfg data_hoje m o)
      as [(h0 & sf & _ & _ & _ & E) | (h1 & ll & _ & _ & E)].
    + rewrite E in Hok. discriminate.
    + cbv zeta in E. rewrite E. cbn [fst status].
      match goal with |- context [for_each (Cliente1.processar cfg ?d) ?xs o ?s0] =>
        pose proof (laco1_decididos cfg d xs o s0) as Hl end.
      unfold decididos, Dict.items, Dict.len in *. simpl in Hl. lia.
  - intros cfg dest item o s d c'. subst c'.
    destruct (processar1_eventos cfg dest item o s) as (l & _ & Hc & _).
    fold d in Hc. cbv zeta in Hc. split; intros Hd; rewrite Hd in Hc; simpl in Hc; lia.
  - intros cfg dest items o s c'. subst c'.
    pose proof (laco2_decididos cfg dest items o s) as Hl.
    unfold decididos in Hl. lia.
  - intros cfg data_hoje m o Hok c. subst c.
    destruct (main2_run cfg data_hoje m o)
      as [(h0 & sf & _ & _ & _ & E) | (h1 & ll & _ & _ & E)].
    + rewrite E in Hok. discriminate.
    + cbv zeta in E. rewrite E. cbn [fst status].
      match goal with |- context [for_each (Cliente2.processar cfg ?d) ?xs o ?s0] =>
        pose proof (laco2_decididos cfg d xs o s0) as Hl end.
      unfold decididos, Dict.items, Dict.len in *. simpl in Hl. lia.
  - intros cfg dest item o s d c'. subst c'.
    destruct (processar2_eventos cfg dest item o s) as (l & _ & Hc & _).
    fold d in Hc. cbv zeta in Hc. split; intros Hd; rewrite Hd in Hc; simpl in Hc; lia.
Qed.




(* ===================================================================== *)
(** ** The walk *)
(* ===================================================================== *)

(** C8. In the window walk an iteration on a directory (whose date
    converts) leaves everything as it was, without listing the directory,
    exactly when it is at the top level, a threshold is given and the
    directory's date is strictly before it. In every other case (a date at
    or after the threshold, or any depth below the top) the directory is
    listed, one level deeper, and the result of that walk is merged. *)
Theorem poda_so_no_nivel_zero :
  forall (sftp : Sessao) (filtro_data_min : option Z) (nivel : nat)
    (remote_dir nome : string) (dm : Z) (children : listing) (st : Passeio),
    let r := fst (Cliente2.visitar_janela sftp filtro_data_min nivel remote_dir
                    (Dir nome (Some dm) children) st) in
    let sub := Cliente2.listar_arquivos_sftp_recursivo sftp (junta remote_dir nome)
                 (S nivel) filtro_data_min children (listagens st) in
    let antiga := nivel = 0 /\ exists f, filtro_data_min = Some f /\ (dm < f)%Z in
    (antiga -> r = st) /\
    (~ antiga ->
     r = {| listagens := listagens sub;
            arquivos := Dict.update (arquivos st) (arquivos sub) |} /\
     exists l,
       listagens r = listagens st ++ listou sftp (junta remote_dir nome) children :: l) /\
    (listagens r = listagens st <-> antiga).
Proof.
  intros sftp filtro nivel remote_dir nome dm children st r sub antiga.
  assert (Hp : Cliente2.pasta_antiga nivel filtro dm = true <-> antiga).
  { unfold Cliente2.pasta_antiga, antiga. rewrite andb_true_iff, Nat.eqb_eq.
    destruct filtro as [f|].
    - rewrite Z.ltb_lt. split; [intros [? ?]; eauto|].
      intros (? & f' & [= <-] & ?). auto.
    - split; [intros [_ ?]; discriminate | intros (_ & f & ? & _); discriminate]. }
  assert (Hr : r = if Cliente2.pasta_antiga nivel filtro dm then st
                   else {| listagens := listagens sub;
                           arquivos := Dict.update (arquivos st) (arquivos sub) |}).
  { unfold r, Cliente2.visitar_janela. rewrite visitar_Dir.
    destruct (Cliente2.pasta_antiga nivel filtro dm); reflexivity. }
  destruct (percorrer_listagens sftp (fun n d => Cliente2.pasta_antiga n filtro d)
              (Cliente2.passa_filtro filtro) (S nivel) (junta remote_dir nome)
              children (listagens st)) as (l & Hl & _).
  fold (Cliente2.listar_arquivos_sftp_recursivo sftp (junta remote_dir nome) (S nivel)
          filtro children (listagens st)) in Hl. fold sub in Hl.
  clearbody r sub antiga.
  destruct (Cliente2.pasta_antiga nivel filtro dm) eqn:E.
  - assert (Ha : antiga) by now apply Hp.
    subst r. split; [|split]; [auto | intros Hn; contradiction | tauto].
  - assert (Hn : ~ antiga) by (intros Ha; apply Hp in Ha; discriminate).
    split; [|split].
    + intros Ha. contradiction.
    + intros _. split; [exact Hr|]. exists l. rewrite Hr. exact Hl.
    + split; [|intros Ha; contradiction].
      intros Heq. rewrite Hr in Heq. simpl in Heq. rewrite Hl in Heq.
      exfalso. apply (f_equal (@length Evento)) in Heq.
      rewrite length_app in Heq. simpl in Heq. lia.
Qed.




(* ===================================================================== *)
(** ** The merge of uploads and processados *)
(* ===================================================================== *)

(** C9, as the code has it. When no remote path is a key of both
    snapshots (the two roots do not lie one inside the other), a relative
    path that some file of the processados snapshot maps to holds, in the
    merged snapshot, the record of a processados file that maps to it,
    whatever the uploads snapshot holds. *)
Theorem processados_prevalece :
  forall (cfg : Cliente1.cliente1JobConfig) (U P : Dict.t dados)
    (kp : string) (vp : dados),
    (forall k, In k (Dict.keys U) -> ~ In k (Dict.keys P)) ->
    In (kp, vp) (Dict.items P) ->
    exists k v,
      In (k, v) (Dict.items P) /\
      Cliente1.rel_de cfg k = Cliente1.rel_de cfg kp /\
      Dict.get (Cliente1.merge_destino cfg U P) (Cliente1.rel_de cfg kp) = Some v.
Proof.
  intros cfg U P kp vp Hd Hin. unfold Dict.items in *.
  unfold Cliente1.merge_destino, Dict.items.
  rewrite (get_merge (Cliente1.rel_de cfg)), (update_disjuntos U P Hd).
  rewrite rev_app_distr, find_concat.
  set (p := fun kv : string * dados =>
              String.eqb (Cliente1.rel_de cfg (fst kv)) (Cliente1.rel_de cfg kp)).
  set (Q := Dict.update Dict.empty P).
  assert (HQ : exists v, In (kp, v) Q).
  { apply mem_in. unfold Q. rewrite mem_update.
    rewrite (mem_in_keys P kp); [apply orb_true_r|].
    unfold Dict.keys. change kp with (fst (kp, vp)). now apply in_map. }
  destruct HQ as [v' Hv'].
  destruct (find p (rev Q)) as [[k v]|] eqn:E.
  - apply find_some in E. destruct E as [Hk Hp].
    apply in_rev in Hk. unfold Q in Hk. apply in_update in Hk.
    destruct Hk as [[]|Hk].
    exists k, v. repeat split; auto.
    unfold p in Hp. simpl in Hp. now apply String.eqb_eq in Hp.
  - exfalso. apply in_rev in Hv'.
    pose proof (find_none _ _ E (kp, v') Hv') as Hp.
    unfold p in Hp. simpl in Hp. rewrite String.eqb_refl in Hp. discriminate.
Qed.

(** [a.txt] under both roots of the usual configuration: the merged
    snapshot holds the record of processados. *)
Lemma processados_prevalece_witness :
  exists k v,
    In (k, v) (Dict.items (Cenario.processados_de Cenario.cfg1 Cenario.mundo_nos_dois)) /\
    Cliente1.rel_de Cenario.cfg1 k = Cliente1.rel_de Cenario.cfg1 "/home/processados/a.txt" /\
    Dict.get
      (Cliente1.merge_destino Cenario.cfg1
         (Cenario.uploads_de Cenario.cfg1 Cenario.mundo_nos_dois)
         (Cenario.processados_de Cenario.cfg1 Cenario.mundo_nos_dois))
      (Cliente1.rel_de Cenario.cfg1 "/home/processados/a.txt") = Some v.
Proof.
  apply (processados_prevalece Cenario.cfg1
           (Cenario.uploads_de Cenario.cfg1 Cenario.mundo_nos_dois)
           (Cenario.processados_de Cenario.cfg1 Cenario.mundo_nos_dois)
           "/home/processados/a.txt" {| tamanho := 2; data := 100 |}).
  - vm_compute. intros k [<-|[]] [H|[]]. discriminate H.
  - vm_compute. left. reflexivity.
Defined.

(** C9 as stated fails when the processados root lies inside the uploads
    root, here [/d/x] inside [/d]: [a.txt] is the relative path of
    [/d/x/uploads/a.txt], a file of both snapshots, and of
    [/d/y/uploads/a.txt], a file of the uploads snapshot alone that the
    walk, which lists in the order of the names, comes to later; the merged
    snapshot holds the record of the latter, which is not a record of the
    processados snapshot. *)
Lemma processados_prevalece_counterexample :
  Cenario.uploads_de Cenario.cfg1_aninhado Cenario.mundo_aninhado =
    [("/d/x/uploads/a.txt"%string, {| tamanho := 1; data := 100 |});
     ("/d/y/uploads/a.txt"%string, {| tamanho := 2; data := 100 |})] /\
  Cenario.processados_de Cenario.cfg1_aninhado Cenario.mundo_aninhado =
    [("/d/x/uploads/a.txt"%string, {| tamanho := 1; data := 100 |})] /\
  Cliente1.rel_de Cenario.cfg1_aninhado "/d/x/uploads/a.txt" = "a.txt"%string /\
  Cliente1.rel_de Cenario.cfg1_aninhado "/d/y/uploads/a.txt" = "a.txt"%string /\
  Dict.get
    (Cliente1.merge_destino Cenario.cfg1_aninhado
       (Cenario.uploads_de Cenario.cfg1_aninhado Cenario.mundo_aninhado)
       (Cenario.processados_de Cenario.cfg1_aninhado Cenario.mundo_aninhado))
    "a.txt" = Some {| tamanho := 2; data := 100 |} /\
  Cliente1.snapshot_destino Cenario.cfg1_aninhado Cenario.hoje Cenario.mundo_aninhado =
    [("a.txt"%string, {| tamanho := 2; data := 100 |})].
Proof. vm_compute. intuition. Qed.

(* ===================================================================== *)
(** ** The theorems at concrete runs *)
(* ===================================================================== *)

(** Scenario 4 of the specification: of three new files the second cannot
    be downloaded; the other two are sent, one download error is counted,
    and the log is shipped. *)
Example cenario4_falha_parcial :
  let r := @Cliente1.main Cenario.os Cenario.cfg1 Cenario.hoje Cenario.mundo_tres_novos
             (Cenario.falha_em (Cenario.e_get_de "/src/b.txt") []) in
  snd r = Ok tt /\
  status (fst r) =
    {| novos := 3; iguais := 0; reenviados := 0;
       erros_download := 1; erros_upload := 0; erros_remocao := 0 |} /\
  map chamada (filter (fun e => Cenario.e_put (chamada e)) (historico (fst r))) =
    [sftp_put sftp_envio "/job/CARGAS/cliente1/a.txt" "/home/uploads/a.txt";
     sftp_put sftp_envio "/job/CARGAS/cliente1/c.txt" "/home/uploads/c.txt"] /\
  In {| chamada := sftp_put sftp_log "/job/logs/cliente1/run.log" "run.log";
        resultado := Retorna true |} (historico (fst r)).
Proof. vm_compute. intuition. Qed.

(** A run over three source files (one new, one equal, one of another
    size) in which every download raises: it completes, and the three
    decision counters sum to the three entries. *)
Lemma decididos_somam_a_origem_witness :
  let c := status (fst (@Cliente1.main Cenario.os Cenario.cfg1 Cenario.hoje
                          Cenario.mundo_misto
                          (Cenario.falha_em Cenario.e_get ["/home/uploads/y.txt"%string]))) in
  novos c + iguais c + reenviados c =
    Dict.len (Cliente1.snapshot_origem Cenario.cfg1 Cenario.hoje Cenario.mundo_misto).
Proof.
  apply (proj1 (proj2 (decididos_somam_a_origem Cenario.os))).
  vm_compute. reflexivity.
Defined.

(** The same old directory is skipped at the top level and listed one
    level below. *)
Lemma poda_so_no_nivel_zero_witness :
  let st := {| listagens := []; arquivos := Dict.empty |} in
  fst (Cliente2.visitar_janela sftp_pre (Some 98%Z) 0 "/dst" Cenario.pasta_velha st) = st /\
  exists l,
    listagens (fst (Cliente2.visitar_janela sftp_pre (Some 98%Z) 1 "/dst/arquivo"
                      Cenario.pasta_velha st)) =
      listagens st
      ++ listou sftp_pre (junta "/dst/arquivo" "2019")
           (Some [File "z.txt" 7 (Some 100%Z)]) :: l.
Proof.
  intros st. split.
  - apply (proj1 (poda_so_no_nivel_zero sftp_pre (Some 98%Z) 0 "/dst" "2019" 90
                    (Some [File "z.txt" 7 (Some 100%Z)]) st)).
    split; [reflexivity|]. exists 98%Z. split; [reflexivity|lia].
  - apply (proj1 (proj2 (poda_so_no_nivel_zero sftp_pre (Some 98%Z) 1 "/dst/arquivo"
                           "2019" 90 (Some [File "z.txt" 7 (Some 100%Z)]) st))).
    intros [Hn _]. discriminate Hn.
Defined.


(* ===================================================================== *)
(** ** [ensure_remote_dirs]: what it probes and what it makes *)
(* ===================================================================== *)

Lemma ensure_parts_sondagem (sftp : Sessao) (parts : list string) :
  forall (path : string) (o : Oracle) (s : Estado),
  exists l,
    historico (fst (ensure_parts sftp path parts o s)) = historico s ++ l /\
    sondagem sftp (prefixos path parts) l /\
    snd (ensure_parts sftp path parts o s) =
      (if existsb falhou l then Raised else Ok tt).
Proof.
  induction parts as [|part rest IH]; intros path o s.
  - exists []. simpl. rewrite app_nil_r. repeat split. constructor.
  - simpl. unfold bind. rewrite call_run. simpl.
    destruct (o (historico s) (sftp_exists sftp (path ++ "/" ++ part)%string))
      as [[|]|] eqn:E1.
    + simpl.
      match goal with |- context [ensure_parts sftp ?p rest o ?s1] =>
        destruct (IH p o s1) as (l & Hh & Hl & Hr) end.
      eexists (_ :: l). simpl in *. rewrite Hh, Hr, <- app_assoc. simpl.
      split; [reflexivity|]. split; [now constructor|reflexivity].
    + rewrite call__run. simpl.
      destruct (o _ (sftp_mkdir sftp (path ++ "/" ++ part)%string)) as [b|] eqn:E2.
      * match goal with |- context [ensure_parts sftp ?p rest o ?s1] =>
          destruct (IH p o s1) as (l & Hh & Hl & Hr) end.
        eexists (_ :: _ :: l). simpl in *. rewrite Hh, Hr, <- !app_assoc. simpl.
        split; [reflexivity|]. split; [now constructor|reflexivity].
      * eexists [_; _]. simpl. rewrite <- app_assoc. simpl.
        split; [reflexivity|]. split; [constructor|reflexivity].
    + eexists [_]. simpl. split; [reflexivity|]. split; [constructor|reflexivity].
Qed.

(** Every [mkdir] follows at once the [exists] of the same path that
    answered false. *)
Lemma sondagem_mkdir (sftp : Sessao) (ps : list string) (l : list Evento) :
  sondagem sftp ps l ->
  forall l1 e l2 sx q,
    l = l1 ++ e :: l2 -> chamada e = sftp_mkdir sx q ->
    sx = sftp /\ In q ps /\
    exists l0,
      l1 = l0 ++ [{| chamada := sftp_exists sftp q; resultado := Retorna false |}].
Proof.
  induction 1 as [|p ps l Hs IH|p ps b l Hs IH|p ps|p ps]; intros l1 e l2 sx q Hl He.
  - destruct l1; discriminate.
  - destruct l1 as [|x l1]; simpl in Hl; injection Hl as <- Hl.
    + discriminate.
    + destruct (IH _ _ _ _ _ Hl He) as (-> & Hin & l0 & ->).
      split; [reflexivity|]. split; [now right|]. eexists (_ :: l0); reflexivity.
  - destruct l1 as [|x [|y l1]]; simpl in Hl.
    + injection Hl as <- _. discriminate.
    + injection Hl as <- <- _. simpl in He. injection He as <- <-.
      split; [reflexivity|]. split; [now left|]. now exists [].
    + injection Hl as <- <- Hl.
      destruct (IH _ _ _ _ _ Hl He) as (-> & Hin & l0 & ->).
      split; [reflexivity|]. split; [now right|].
      eexists (_ :: _ :: l0); reflexivity.
  - destruct l1 as [|x [|y [|z l1]]]; simpl in Hl.
    + injection Hl as <- _. discriminate.
    + injection Hl as <- <- _. simpl in He. injection He as <- <-.
      split; [reflexivity|]. split; [now left|]. now exists [].
    + discriminate.
    + discriminate.
  - destruct l1 as [|x [|y l1]]; simpl in Hl.
    + injection Hl as <- _. discriminate.
    + discriminate.
    + discriminate.
Qed.

(** Nothing is called after a call that raised. *)
Lemma sondagem_falha (sftp : Sessao) (ps : list string) (l : list Evento) :
  sondagem sftp ps l ->
  forall l1 e l2, l = l1 ++ e :: l2 -> falhou e = true -> l2 = [].
Proof.
  induction 1 as [|p ps l Hs IH|p ps b l Hs IH|p ps|p ps]; intros l1 e l2 Hl He.
  - destruct l1; discriminate.
  - destruct l1 as [|x l1]; simpl in Hl; injection Hl as <- Hl.
    + discriminate.
    + eauto.
  - destruct l1 as [|x [|y l1]]; simpl in Hl.
    + injection Hl as <- _. discriminate.
    + injection Hl as _ <- _. discriminate.
    + injection Hl as _ _ Hl. eauto.
  - destruct l1 as [|x [|y [|z l1]]]; simpl in Hl; try discriminate.
    + injection Hl as <- _. discriminate.
    + injection Hl as _ _ <-. reflexivity.
  - destruct l1 as [|x [|y l1]]; simpl in Hl; try discriminate.
    injection Hl as _ <-. reflexivity.
Qed.

Lemma sondagem_In (sftp : Sessao) (ps : list string) (l : list Evento) :
  sondagem sftp ps l ->
  forall e, In e l ->
    exists q, In q ps /\
      (chamada e = sftp_exists sftp q \/ chamada e = sftp_mkdir sftp q).
Proof.
  induction 1 as [|p ps l Hs IH|p ps b l Hs IH|p ps|p ps]; intros e He; simpl in He.
  - contradiction.
  - destruct He as [<-|He].
    + exists p. simpl. auto.
    + destruct (IH e He) as (q & Hq & Hc). exists q. simpl. auto.
  - destruct He as [<-|[<-|He]].
    + exists p. simpl. auto.
    + exists p. simpl. auto.
    + destruct (IH e He) as (q & Hq & Hc). exists q. simpl. auto.
  - destruct He as [<-|[<-|[]]]; exists p; simpl; auto.
  - destruct He as [<-|[]]; exists p; simpl; auto.
Qed.

Lemma prefix_barra (s : string) : String.prefix "/" (String "/" s) = true.
Proof.
  cbn [String.prefix].
  destruct (Ascii.ascii_dec "/" "/"); [now destruct s|congruence].
Qed.

Lemma prefix_barra_inv (s : string) :
  String.prefix "/" s = true -> exists t, s = String "/" t.
Proof.
  destruct s as [|a t]; [discriminate|]. cbn [String.prefix].
  destruct (Ascii.ascii_dec "/" a) as [<-|]; [|discriminate].
  intros _. now exists t.
Qed.

(** The paths of the loop are absolute, whatever the directory asked for. *)
Lemma prefixos_absolutos (parts : list string) :
  forall path q,
    path = EmptyString \/ String.prefix "/" path = true ->
    In q (prefixos path parts) -> String.prefix "/" q = true.
Proof.
  induction parts as [|part rest IH]; intros path q Hp Hq; simpl in Hq.
  - contradiction.
  - assert (Ha : String.prefix "/" (path ++ "/" ++ part) = true).
    { destruct Hp as [->|Hp].
      - apply prefix_barra.
      - destruct (prefix_barra_inv _ Hp) as (t & ->).
        change (String "/" t ++ "/" ++ part)%string
          with (String "/" (t ++ "/" ++ part)%string).
        apply prefix_barra. }
    destruct Hq as [<-|Hq]; [exact Ha|].
    apply (IH _ q (or_intror Ha) Hq).
Qed.

(** X1. [ensure_remote_dirs] first probes the directory asked for, with
    its doubled slashes collapsed once, and makes no other call when the
    answer is true or the probe raises. Otherwise every call is an [exists]
    or a [mkdir] of the session on one of the successive prefixes of the
    directory, which are absolute paths even when the directory is
    relative; a [mkdir] follows at once the [exists] of the same path that
    answered false, so nothing reported as existing is made again; the
    prefixes are taken parent first, each one probed once; and a call that
    raises is the last one. The counters are left as they were. *)
Theorem ensure_remote_dirs_so_cria_o_que_falta :
  forall (sftp : Sessao) (remote_dir : string) (o : Oracle) (s : Estado),
  let alvo := Str.replace "//" "/" remote_dir in
  let caminhos := prefixos "" (Str.split "/" (Str.strip "/" alvo)) in
  exists r l,
    historico (fst (ensure_remote_dirs sftp remote_dir o s)) =
      historico s ++ {| chamada := sftp_exists sftp alvo; resultado := r |} :: l /\
    status (fst (ensure_remote_dirs sftp remote_dir o s)) = status s /\
    (r <> Retorna false -> l = []) /\
    (r = Retorna false -> sondagem sftp caminhos l) /\
    (forall e, In e l ->
       exists q, In q caminhos /\ String.prefix "/" q = true /\
         (chamada e = sftp_exists sftp q \/ chamada e = sftp_mkdir sftp q)) /\
    (forall l1 e l2 sx q,
       l = l1 ++ e :: l2 -> chamada e = sftp_mkdir sx q ->
       exists l0,
         l1 = l0 ++ [{| chamada := sftp_exists sftp q;
                        resultado := Retorna false |}]) /\
    (forall l1 e l2, l = l1 ++ e :: l2 -> falhou e = true -> l2 = []).
Proof.
  intros sftp remote_dir o s alvo caminhos.
  destruct (ensure_remote_dirs_run sftp remote_dir o s) as (l' & _ & Hst & _).
  rewrite Hst. clear l' Hst.
  unfold ensure_remote_dirs, bind. fold alvo. rewrite call_run.
  destruct (o (historico s) (sftp_exists sftp alvo)) as [[|]|] eqn:E1; cbn [fst snd].
  - exists (Retorna true), []. cbn [historico]. repeat split; auto.
    + discriminate.
    + intros e [].
    + intros l1 e l2 sx q Hl. destruct l1; discriminate.
    + intros l1 e l2 Hl. destruct l1; discriminate.
  - match goal with |- context [ensure_parts sftp ?q ?ps o ?s1] =>
      destruct (ensure_parts_sondagem sftp ps q o s1) as (l & Hh & Hl & _) end.
    fold caminhos in Hl.
    exists (Retorna false), l. cbn [historico] in Hh. rewrite Hh, <- app_assoc.
    split; [reflexivity|]. split; [reflexivity|].
    split; [intros Hn; now contradiction Hn|]. split; [intros _; exact Hl|].
    split; [|split].
    + intros e He. destruct (sondagem_In _ _ _ Hl e He) as (q & Hq & Hc).
      exists q. split; [exact Hq|]. split; [|exact Hc].
      apply (prefixos_absolutos _ "" q (or_introl eq_refl) Hq).
    + intros l1 e l2 sx q Hd He.
      destruct (sondagem_mkdir _ _ _ Hl _ _ _ _ _ Hd He) as (_ & _ & Hx). exact Hx.
    + apply (sondagem_falha _ _ _ Hl).
  - exists Levanta, []. cbn [historico]. repeat split; auto.
    + discriminate.
    + intros e [].
    + intros l1 e l2 sx q Hl. destruct l1; discriminate.
    + intros l1 e l2 Hl. destruct l1; discriminate.
Qed.

Lemma String_eqb_refl (x : string) : String.eqb x x = true.
Proof. apply String.eqb_refl. Qed.

Lemma confirma_exists (sftp : Sessao) (p : string) :
  confirma sftp p {| chamada := sftp_exists sftp p; resultado := Retorna true |} = true.
Proof. unfold confirma. simpl. now rewrite Sessao_eqb_refl, String_eqb_refl. Qed.

Lemma confirma_mkdir (sftp : Sessao) (p : string) (b : bool) :
  confirma sftp p {| chamada := sftp_mkdir sftp p; resultado := Retorna b |} = true.
Proof. unfold confirma. simpl. now rewrite Sessao_eqb_refl, String_eqb_refl. Qed.

(** A loop that ended normally has seen or made every one of its paths. *)
Lemma sondagem_confirma (sftp : Sessao) (ps : list string) (l : list Evento) :
  sondagem sftp ps l ->
  existsb falhou l = false ->
  forall p, In p ps -> existsb (confirma sftp p) l = true.
Proof.
  induction 1 as [|p ps l Hs IH|p ps b l Hs IH|p ps|p ps]; intros Hf q Hq;
    simpl in Hf; try discriminate.
  - contradiction.
  - cbn [existsb]. destruct Hq as [->|Hq].
    + now rewrite confirma_exists.
    + rewrite (IH Hf q Hq). apply orb_true_r.
  - cbn [existsb]. destruct Hq as [->|Hq].
    + rewrite confirma_mkdir. now rewrite ?orb_true_r, ?orb_true_l.
    + rewrite (IH Hf q Hq). now rewrite !orb_true_r.
Qed.

(** On a server that keeps its directories, the loop over paths already
    seen or made only probes them. *)
Lemma ensure_parts_confirmados (sftp : Sessao) (o : Oracle) :
  persistente sftp o ->
  forall (parts : list string) (path : string) (s : Estado),
    (forall p, In p (prefixos path parts) ->
       existsb (confirma sftp p) (historico s) = true) ->
    ensure_parts sftp path parts o s =
      ({| historico :=
            historico s
            ++ map (fun p => {| chamada := sftp_exists sftp p;
                                resultado := Retorna true |})
                 (prefixos path parts);
          status := status s |}, Ok tt).
Proof.
  intros Hper. induction parts as [|part rest IH]; intros path s Hc.
  - simpl. rewrite app_nil_r. destruct s; reflexivity.
  - simpl. unfold bind. rewrite call_run.
    rewrite (Hper _ _ (Hc _ (or_introl eq_refl))). simpl.
    rewrite IH.
    + simpl. rewrite <- app_assoc. reflexivity.
    + intros p Hp. simpl. rewrite existsb_app, (Hc p (or_intror Hp)). reflexivity.
Qed.

(** X2. On a server where a directory that was seen or made is still
    there when probed again, a second [ensure_remote_dirs] of a directory
    that a first one ensured without error makes no [mkdir]: after the
    probe of the directory itself, it only probes prefixes, and each
    answers true. *)
Theorem ensure_remote_dirs_segunda_vez_nao_cria :
  forall (sftp : Sessao) (remote_dir : string) (o : Oracle) (s : Estado),
    persistente sftp o ->
    snd (ensure_remote_dirs sftp remote_dir o s) = Ok tt ->
    let s1 := fst (ensure_remote_dirs sftp remote_dir o s) in
    exists r l,
      historico (fst (ensure_remote_dirs sftp remote_dir o s1)) =
        historico s1
        ++ {| chamada := sftp_exists sftp (Str.replace "//" "/" remote_dir);
              resultado := r |} :: l /\
      Forall (fun e => exists q,
                e = {| chamada := sftp_exists sftp q; resultado := Retorna true |}) l.
Proof.
  intros sftp remote_dir o s Hper Hok s1.
  set (alvo := Str.replace "//" "/" remote_dir).
  assert (H1 :
    existsb (confirma sftp alvo) (historico s1) = true \/
    forall p, In p (prefixos "" (Str.split "/" (Str.strip "/" alvo))) ->
      existsb (confirma sftp p) (historico s1) = true).
  { subst s1. revert Hok. unfold ensure_remote_dirs, bind. fold alvo.
    rewrite call_run.
    destruct (o (historico s) (sftp_exists sftp alvo)) as [[|]|] eqn:E1;
      cbn [fst snd ret].
    - intros _. left. cbn [historico]. rewrite existsb_app. cbn [existsb].
      rewrite confirma_exists. now rewrite ?orb_true_r, ?orb_true_l.
    - match goal with |- context [ensure_parts sftp ?q ?ps o ?s0] =>
        destruct (ensure_parts_sondagem sftp ps q o s0) as (l & Hh & Hl & Hr) end.
      rewrite Hr, Hh. intros Hf. right. intros p Hp.
      destruct (existsb falhou l) eqn:Ef; [discriminate|].
      rewrite existsb_app, (sondagem_confirma _ _ _ Hl Ef p Hp).
      apply orb_true_r.
    - discriminate. }
  unfold ensure_remote_dirs at 1, bind. fold alvo. rewrite call_run.
  destruct H1 as [H1|H1].
  - rewrite (Hper _ _ H1). cbn [fst snd ret historico].
    exists (Retorna true), []. split; [reflexivity|constructor].
  - destruct (o (historico s1) (sftp_exists sftp alvo)) as [[|]|] eqn:E2;
      cbn [fst snd historico].
    + exists (Retorna true), []. split; [reflexivity|constructor].
    + rewrite ensure_parts_confirmados; [|exact Hper|].
      * cbn [fst historico]. rewrite <- app_assoc.
        eexists _, _. split; [reflexivity|].
        apply Forall_forall. intros e He. apply in_map_iff in He.
        destruct He as (q & <- & _). now exists q.
      * intros p Hp. cbn [historico]. rewrite existsb_app, (H1 p Hp). reflexivity.
    + exists Levanta, []. split; [reflexivity|constructor].
Qed.

Lemma pastas_persistente (sftp : Sessao) (iniciais : list string) :
  persistente sftp (Terreno.pastas iniciais).
Proof.
  intros h p Hc. unfold Terreno.pastas. rewrite Hc, orb_true_r. reflexivity.
Qed.

(** With [/a] there and [/a/b] not, the first call makes [/a/b]; the second
    finds it and stops after its first probe. *)
Lemma ensure_remote_dirs_segunda_vez_nao_cria_witness :
  let o := Terreno.pastas ["/a"] in
  let s1 := fst (ensure_remote_dirs sftp_envio "/a/b" o Terreno.inicio) in
  exists r l,
    historico (fst (ensure_remote_dirs sftp_envio "/a/b" o s1)) =
      historico s1
      ++ {| chamada := sftp_exists sftp_envio (Str.replace "//" "/" "/a/b");
            resultado := r |} :: l /\
    Forall (fun e => exists q,
              e = {| chamada := sftp_exists sftp_envio q;
                     resultado := Retorna true |}) l.
Proof.
  intros o s1.
  apply (ensure_remote_dirs_segunda_vez_nao_cria sftp_envio "/a/b" o Terreno.inicio).
  - apply pastas_persistente.
  - reflexivity.
Defined.

Example ensure_remote_dirs_duas_vezes :
  let o := Terreno.pastas ["/a"] in
  let s1 := fst (ensure_remote_dirs sftp_envio "/a/b" o Terreno.inicio) in
  map chamada (historico s1) =
    [sftp_exists sftp_envio "/a/b"; sftp_exists sftp_envio "/a";
     sftp_exists sftp_envio "/a/b"; sftp_mkdir sftp_envio "/a/b"] /\
  map chamada (historico (fst (ensure_remote_dirs sftp_envio "/a/b" o s1))) =
    map chamada (historico s1) ++ [sftp_exists sftp_envio "/a/b"].
Proof. vm_compute. auto. Qed.

(* ===================================================================== *)
(** ** What one entry may call *)
(* ===================================================================== *)

Lemma processar1_corpo `{OsPath} (cfg : Cliente1.cliente1JobConfig)
  (dest : Dict.t dados) (item : string * dados) :
  Cliente1.processar cfg dest item =
    corpo (decisao dest (Cliente1.rel_path_de cfg (fst item)) (snd item))
      (Cliente1.destino_path_de cfg (fst item))
      (Cliente1.baixar (fst item)
         (path_join (Cliente1.temp_dir cfg) (Cliente1.rel_path_de cfg (fst item))))
      (enviar
         (path_join (Cliente1.temp_dir cfg) (Cliente1.rel_path_de cfg (fst item)))
         (Cliente1.destino_path_de cfg (fst item))).
Proof. reflexivity. Qed.

Lemma processar2_corpo `{OsPath} (cfg : Cliente2.Cliente2JobConfig)
  (dest : Dict.t dados) (item : string * dados) :
  Cliente2.processar cfg dest item =
    corpo (decisao dest (Cliente2.caminho_dest_de cfg (fst item)) (snd item))
      (Cliente2.caminho_dest_de cfg (fst item))
      (Cliente2.baixar cfg (fst item) (Cliente2.rel_path_de cfg (fst item))
         (path_join (Cliente2.temp_dir cfg) (Cliente2.rel_path_de cfg (fst item))))
      (enviar
         (path_join (Cliente2.temp_dir cfg) (Cliente2.rel_path_de cfg (fst item)))
         (Cliente2.caminho_dest_de cfg (fst item))).
Proof. reflexivity. Qed.

Lemma segue_In (plano : list Call) (l : list Evento) :
  segue plano l -> forall e, In e l -> In (chamada e) plano.
Proof.
  induction 1 as [|c b cs l Hs IH|c cs]; intros e He; simpl in He.
  - contradiction.
  - destruct He as [<-|He]; [now left|right; auto].
  - destruct He as [<-|[]]. now left.
Qed.

(** Without a failure the whole plan was carried out. *)
Lemma segue_completo (plano : list Call) (l : list Evento) :
  segue plano l -> existsb falhou l = false ->
  map chamada l = plano /\ forallb (fun e => negb (falhou e)) l = true.
Proof.
  induction 1 as [|c b cs l Hs IH|c cs]; intros Hf; simpl in *.
  - auto.
  - destruct (IH Hf) as [-> ->]. auto.
  - discriminate.
Qed.

(** The removal block calls nothing but its session, [exists] and [remove]
    of its path, and [remove] only after [exists] answered true. *)
Lemma remover_destino_forma (p : string) (o : Oracle) (s : Estado) :
  exists l,
    historico (fst (remover_destino p o s)) = historico s ++ l /\
    status (fst (remover_destino p o s)) =
      (if existsb falhou l then inc_erros_remocao (status s) else status s) /\
    snd (remover_destino p o s) = Ok tt /\
    Forall (fun e => In (chamada e) (chamadas_de_remocao p)) l /\
    (forall r, In {| chamada := sftp_remove sftp_rm p; resultado := r |} l ->
       In {| chamada := sftp_exists sftp_rm p; resultado := Retorna true |} l).
Proof.
  unfold remover_destino, try_except, with_connection, bind, chamadas_de_remocao.
  rewrite call__run.
  destruct (o (historico s) (Connection sftp_rm)) as [b0|] eqn:E0; simpl.
  - rewrite call_run. simpl.
    destruct (o _ (sftp_exists sftp_rm p)) as [[|]|] eqn:E1; simpl.
    + rewrite call__run. simpl.
      destruct (o _ (sftp_remove sftp_rm p)) as [b2|] eqn:E2; simpl;
        eexists [_; _; _]; rewrite <- !app_assoc; simpl;
        (split; [reflexivity|]); (split; [reflexivity|]);
        (split; [reflexivity|]);
        (split; [repeat apply Forall_cons; try apply Forall_nil; simpl; auto 6|]);
        intros r _; simpl; auto.
    + eexists [_; _]; rewrite <- !app_assoc; simpl;
        (split; [reflexivity|]); (split; [reflexivity|]);
        (split; [reflexivity|]);
        (split; [repeat apply Forall_cons; try apply Forall_nil; simpl; auto 6|]).
      intros r [Hx|[Hx|[]]]; discriminate.
    + eexists [_; _]; rewrite <- !app_assoc; simpl;
        (split; [reflexivity|]); (split; [reflexivity|]);
        (split; [reflexivity|]);
        (split; [repeat apply Forall_cons; try apply Forall_nil; simpl; auto 6|]).
      intros r [Hx|[Hx|[]]]; discriminate.
  - eexists [_]; (split; [reflexivity|]); (split; [reflexivity|]);
      (split; [reflexivity|]);
      (split; [repeat apply Forall_cons; try apply Forall_nil; simpl; auto 6|]).
    intros r [Hx|[]]; discriminate.
Qed.

(** The download block of SFTP_Cliente1.py carries out its plan until a
    call raises, which counts one download error and ends the iteration. *)
Lemma baixar1_segue `{OsPath} (caminho local_temp : string) (o : Oracle) (s : Estado) :
  exists l,
    historico (fst (Cliente1.baixar caminho local_temp o s)) = historico s ++ l /\
    status (fst (Cliente1.baixar caminho local_temp o s)) =
      (if existsb falhou l then inc_erros_download (status s) else status s) /\
    snd (Cliente1.baixar caminho local_temp o s) =
      (if existsb falhou l then Continue else Ok tt) /\
    segue (plano1 caminho local_temp) l.
Proof.
  unfold Cliente1.baixar, try_except, bind, plano1.
  rewrite call__run.
  destruct (o (historico s) (local_mkdir (path_parent local_temp))) as [b0|];
    simpl.
  - rewrite call__run. simpl.
    destruct (o _ (sftp_get sftp_orig caminho local_temp)) as [b1|]; simpl;
      eexists [_; _]; rewrite <- !app_assoc; simpl;
      (split; [reflexivity|]); simpl; repeat split; repeat constructor.
  - eexists [_]; (split; [reflexivity|]); simpl; repeat split; constructor.
Qed.

(** The download block of SFTP_Cliente2.py, likewise; the calls of the
    second copy are part of its plan when [keep_extra_local_copy] is set. *)
Lemma baixar2_segue `{OsPath} (cfg : Cliente2.Cliente2JobConfig)
  (caminho rel_path local_temp : string) (o : Oracle) (s : Estado) :
  exists l,
    historico (fst (Cliente2.baixar cfg caminho rel_path local_temp o s)) =
      historico s ++ l /\
    status (fst (Cliente2.baixar cfg caminho rel_path local_temp o s)) =
      (if existsb falhou l then inc_erros_download (status s) else status s) /\
    snd (Cliente2.baixar cfg caminho rel_path local_temp o s) =
      (if existsb falhou l then Continue else Ok tt) /\
    segue (plano2 cfg caminho rel_path local_temp) l.
Proof.
  unfold Cliente2.baixar, try_except, bind, plano2.
  rewrite call__run.
  destruct (o (historico s) (local_mkdir (path_parent local_temp))) as [b0|];
    simpl.
  - rewrite call__run. simpl.
    destruct (o _ (sftp_get sftp_rec caminho local_temp)) as [b1|]; simpl.
    + destruct (Cliente2.keep_extra_local_copy cfg); simpl.
      * rewrite call__run. simpl.
        destruct (o _ (local_mkdir _)) as [b2|]; simpl.
        -- rewrite call__run. simpl.
           destruct (o _ (sftp_get sftp_rec caminho _)) as [b3|]; simpl;
             eexists [_; _; _; _]; rewrite <- !app_assoc; simpl;
             (split; [reflexivity|]); simpl; repeat split; repeat constructor.
        -- eexists [_; _; _]; rewrite <- !app_assoc; simpl;
             (split; [reflexivity|]); simpl; repeat split; repeat constructor.
      * eexists [_; _]; rewrite <- !app_assoc; simpl;
          (split; [reflexivity|]); simpl; repeat split; repeat constructor.
    + eexists [_; _]; rewrite <- !app_assoc; simpl;
        (split; [reflexivity|]); simpl; repeat split; repeat constructor.
  - eexists [_]; (split; [reflexivity|]); simpl; repeat split; constructor.
Qed.

Lemma ensure_remote_dirs_sondas (sftp : Sessao) (remote_dir : string) (o : Oracle)
  (s : Estado) :
  exists l,
    historico (fst (ensure_remote_dirs sftp remote_dir o s)) = historico s ++ l /\
    status (fst (ensure_remote_dirs sftp remote_dir o s)) = status s /\
    snd (ensure_remote_dirs sftp remote_dir o s) =
      (if existsb falhou l then Raised else Ok tt) /\
    Forall (fun e => sonda sftp (chamada e)) l.
Proof.
  destruct (ensure_remote_dirs_run sftp remote_dir o s) as (l' & _ & Hst & _).
  rewrite Hst. clear l' Hst.
  unfold ensure_remote_dirs, bind. rewrite call_run.
  set (p := Str.replace "//" "/" remote_dir).
  assert (H0 : forall r, sonda sftp (chamada {| chamada := sftp_exists sftp p;
                                                resultado := r |})).
  { intros r. exists p. now left. }
  destruct (o (historico s) (sftp_exists sftp p)) as [[|]|] eqn:E1;
    cbn [fst snd ret historico].
  - eexists [_]. repeat split; auto.
  - match goal with |- context [ensure_parts sftp ?q ?ps o ?s1] =>
      destruct (ensure_parts_sondagem sftp ps q o s1) as (l & Hh & Hl & Hr) end.
    eexists (_ :: l). cbn [historico] in Hh. rewrite Hh, Hr, <- app_assoc.
    repeat split; auto. constructor; [apply H0|].
    apply Forall_forall. intros e He.
    destruct (sondagem_In _ _ _ Hl e He) as (q & _ & Hq). now exists q.
  - eexists [_]. repeat split; auto.
Qed.

Lemma sondas_sem_entrega (sftp : Sessao) (l : list Evento) :
  Forall (fun e => sonda sftp (chamada e)) l -> filter entregue l = [].
Proof.
  induction 1 as [|e l He Hl IH]; simpl; auto.
  rewrite IH. destruct He as (q & [Hq|Hq]); unfold entregue; rewrite Hq; reflexivity.
Qed.

Lemma enviar_forma `{OsPath} (local_temp p : string) (o : Oracle) (s : Estado) :
  exists l,
    historico (fst (enviar local_temp p o s)) = historico s ++ l /\
    status (fst (enviar local_temp p o s)) =
      (if existsb falhou l then inc_erros_upload (status s) else status s) /\
    snd (enviar local_temp p o s) = Ok tt /\
    envio_de local_temp p l.
Proof.
  unfold enviar, try_except, with_connection, bind, envio_de.
  rewrite call__run.
  destruct (o (historico s) (Connection sftp_envio)) as [b0|] eqn:E0; simpl.
  - match goal with |- context [ensure_remote_dirs ?f ?d o ?s1] =>
      destruct (ensure_remote_dirs_sondas f d o s1) as (l & Hh & Hs & Hr & Hf);
      destruct (ensure_remote_dirs f d o s1) as [s2 r2] end.
    simpl in *. subst r2.
    assert (Hw : Forall (fun e =>
                   In (chamada e) [Connection sftp_envio;
                                   sftp_put sftp_envio local_temp p]
                   \/ sonda sftp_envio (chamada e)) l).
    { eapply Forall_impl; [|exact Hf]. intros e He. now right. }
    destruct (existsb falhou l) eqn:Ef.
    + eexists (_ :: l). simpl. rewrite Hh, Hs, <- app_assoc. simpl.
      rewrite Ef, (sondas_sem_entrega _ _ Hf). simpl.
      split; [reflexivity|]. split; [reflexivity|]. split; [reflexivity|].
      split; [|split; [reflexivity|discriminate]].
      constructor; [left; simpl; auto|exact Hw].
    + rewrite call__run. rewrite Hh, Hs.
      destruct (o _ (sftp_put sftp_envio local_temp p)) as [b2|] eqn:E2; simpl;
        eexists (_ :: l ++ [_]); rewrite <- !app_assoc; simpl;
        (split; [reflexivity|]); rewrite existsb_app, Ef, filter_app,
          (sondas_sem_entrega _ _ Hf); simpl;
        (split; [reflexivity|]); (split; [reflexivity|]);
        (split; [|split; [reflexivity|discriminate]]);
        (constructor; [left; simpl; auto|]);
        (apply Forall_app; split; [exact Hw|]);
        (constructor; [left; simpl; auto|constructor]).
  - eexists [_]. simpl.
    split; [reflexivity|]. split; [reflexivity|]. split; [reflexivity|].
    split; [|split; [reflexivity|discriminate]].
    constructor; [left; simpl; auto|constructor].
Qed.

(** One iteration of either loop, stage by stage: what each stage called
    and how the counters and the outcome follow. *)
Lemma corpo_partes (d : Decisao) (p : string) (B E : Job unit)
  (PB PE : list Evento -> Prop) (o : Oracle) (s : Estado) :
  (forall s1, exists lb,
     historico (fst (B o s1)) = historico s1 ++ lb /\
     status (fst (B o s1)) =
       (if existsb falhou lb then inc_erros_download (status s1) else status s1) /\
     snd (B o s1) = (if existsb falhou lb then Continue else Ok tt) /\
     PB lb) ->
  (forall s1, exists lp,
     historico (fst (E o s1)) = historico s1 ++ lp /\
     status (fst (E o s1)) =
       (if existsb falhou lp then inc_erros_upload (status s1) else status s1) /\
     snd (E o s1) = Ok tt /\
     PE lp) ->
  exists lr lb lp,
    historico (fst (corpo d p B E o s)) = historico s ++ lr ++ lb ++ lp /\
    status (fst (corpo d p B E o s)) = conta d lr lb lp (status s) /\
    snd (corpo d p B E o s) =
      (if is_skip d || existsb falhou lb then Continue else Ok tt) /\
    match d with
    | Skip => lr = [] /\ lb = [] /\ lp = []
    | _ =>
        (if is_replace d
         then Forall (fun e => In (chamada e) (chamadas_de_remocao p)) lr /\
              (forall r, In {| chamada := sftp_remove sftp_rm p; resultado := r |} lr ->
                 In {| chamada := sftp_exists sftp_rm p;
                       resultado := Retorna true |} lr)
         else lr = []) /\
        PB lb /\
        (if existsb falhou lb then lp = [] else PE lp)
    end.
Proof.
  intros HB HE. unfold corpo. destruct d.
  - exists [], [], []. simpl. rewrite app_nil_r. auto 10.
  - rewrite bind_run. simpl.
    destruct (HB {| historico := historico s; status := inc_novos (status s) |})
      as (lb & Hh & Hs & Hr & Hp).
    rewrite bind_run, Hr.
    destruct (existsb falhou lb) eqn:Ef.
    + exists [], lb, []. simpl in *. rewrite Hh, Hs, app_nil_r.
      unfold conta. simpl. rewrite Ef. auto 10.
    + match goal with |- context [E o ?s1] =>
        destruct (HE s1) as (lp & Hh2 & Hs2 & Hr2 & Hp2) end.
      exists [], lb, lp. simpl in *. rewrite Hh2, Hs2, Hr2, Hh, Hs.
      rewrite <- app_assoc. unfold conta. simpl. rewrite Ef. auto 10.
  - rewrite bind_run.
    destruct (remover_destino_forma p o s) as (lr & Hh0 & Hs0 & Hr0 & Hf0 & Hx0).
    rewrite bind_run, Hr0. cbv iota beta.
    change (status_update inc_reenviados o (fst (remover_destino p o s)))
      with ({| historico := historico (fst (remover_destino p o s));
               status := inc_reenviados (status (fst (remover_destino p o s))) |},
            @Ok unit tt).
    cbv iota beta. simpl fst. simpl snd. cbv iota beta.
    rewrite bind_run.
    match goal with |- context [B o ?s1] =>
      destruct (HB s1) as (lb & Hh & Hs & Hr & Hp) end.
    rewrite Hr.
    destruct (existsb falhou lb) eqn:Ef.
    + exists lr, lb, []. simpl in Hh, Hs. cbn [fst snd].
      rewrite Hh, Hs, Hh0, Hs0, app_nil_r, <- app_assoc.
      unfold conta. simpl existsb. rewrite Ef. simpl. auto 10.
    + match goal with |- context [E o ?s1] =>
        destruct (HE s1) as (lp & Hh2 & Hs2 & Hr2 & Hp2) end.
      exists lr, lb, lp. simpl in Hh, Hs.
      rewrite Hh2, Hs2, Hr2, Hh, Hs, Hh0, Hs0, <- !app_assoc.
      unfold conta. simpl existsb. rewrite Ef. simpl. auto 10.
Qed.

Lemma processar1_partes `{OsPath} (cfg : Cliente1.cliente1JobConfig)
  (dest : Dict.t dados) (item : string * dados) (o : Oracle) (s : Estado) :
  let d := decisao dest (Cliente1.rel_path_de cfg (fst item)) (snd item) in
  let p := Cliente1.destino_path_de cfg (fst item) in
  let local_temp :=
    path_join (Cliente1.temp_dir cfg) (Cliente1.rel_path_de cfg (fst item)) in
  exists lr lb lp,
    historico (fst (Cliente1.processar cfg dest item o s)) =
      historico s ++ lr ++ lb ++ lp /\
    status (fst (Cliente1.processar cfg dest item o s)) =
      conta d lr lb lp (status s) /\
    snd (Cliente1.processar cfg dest item o s) =
      (if is_skip d || existsb falhou lb then Continue else Ok tt) /\
    match d with
    | Skip => lr = [] /\ lb = [] /\ lp = []
    | _ =>
        (if is_replace d
         then Forall (fun e => In (chamada e) (chamadas_de_remocao p)) lr /\
              (forall r, In {| chamada := sftp_remove sftp_rm p; resultado := r |} lr ->
                 In {| chamada := sftp_exists sftp_rm p;
                       resultado := Retorna true |} lr)
         else lr = []) /\
        segue (plano1 (fst item) local_temp) lb /\
        (if existsb falhou lb then lp = [] else envio_de local_temp p lp)
    end.
Proof.
  intros d p local_temp. rewrite processar1_corpo. fold d p local_temp.
  apply corpo_partes; intros s1.
  - apply baixar1_segue.
  - apply enviar_forma.
Qed.

Lemma processar2_partes `{OsPath} (cfg : Cliente2.Cliente2JobConfig)
  (dest : Dict.t dados) (item : string * dados) (o : Oracle) (s : Estado) :
  let d := decisao dest (Cliente2.caminho_dest_de cfg (fst item)) (snd item) in
  let p := Cliente2.caminho_dest_de cfg (fst item) in
  let rel_path := Cliente2.rel_path_de cfg (fst item) in
  let local_temp := path_join (Cliente2.temp_dir cfg) rel_path in
  exists lr lb lp,
    historico (fst (Cliente2.processar cfg dest item o s)) =
      historico s ++ lr ++ lb ++ lp /\
    status (fst (Cliente2.processar cfg dest item o s)) =
      conta d lr lb lp (status s) /\
    snd (Cliente2.processar cfg dest item o s) =
      (if is_skip d || existsb falhou lb then Continue else Ok tt) /\
    match d with
    | Skip => lr = [] /\ lb = [] /\ lp = []
    | _ =>
        (if is_replace d
         then Forall (fun e => In (chamada e) (chamadas_de_remocao p)) lr /\
              (forall r, In {| chamada := sftp_remove sftp_rm p; resultado := r |} lr ->
                 In {| chamada := sftp_exists sftp_rm p;
                       resultado := Retorna true |} lr)
         else lr = []) /\
        segue (plano2 cfg (fst item) rel_path local_temp) lb /\
        (if existsb falhou lb then lp = [] else envio_de local_temp p lp)
    end.
Proof.
  intros d p rel_path local_temp. rewrite processar2_corpo.
  fold d p rel_path local_temp.
  apply corpo_partes; intros s1.
  - apply baixar2_segue.
  - apply enviar_forma.
Qed.

(** X3. The anatomy of one entry, in both scripts. Its calls come in three
    runs: removal calls (the [sftp_rm] session, [exists] and [remove] of
    the destination path; none for an entry that is not replaced), then the
    staging calls in the order of the download block up to the first that
    raises, then the upload. A skipped entry makes no call. Otherwise the
    upload block is entered exactly when every staging call was made and
    returned, which in SFTP_Cliente2.py includes the two calls of the extra
    local copy when [keep_extra_local_copy] is set; it calls only its
    session, the probes of [ensure_remote_dirs] and the one [put] of the
    staged file to the destination path, and delivers once if none of its
    calls raises and not at all otherwise. *)
Theorem envio_so_com_o_plano_cumprido : forall (os : OsPath),
  (forall (cfg : Cliente1.cliente1JobConfig) (dest : Dict.t dados)
          (item : string * dados) (o : Oracle) (s : Estado),
     let d := decisao dest (Cliente1.rel_path_de cfg (fst item)) (snd item) in
     let p := Cliente1.destino_path_de cfg (fst item) in
     let local_temp :=
       path_join (Cliente1.temp_dir cfg) (Cliente1.rel_path_de cfg (fst item)) in
     exists lr lb lp,
       historico (fst (Cliente1.processar cfg dest item o s)) =
         historico s ++ lr ++ lb ++ lp /\
       Forall (fun e => In (chamada e) (chamadas_de_remocao p)) lr /\
       (d <> Replace -> lr = []) /\
       match d with
       | Skip => lb = [] /\ lp = []
       | _ =>
           segue (plano1 (fst item) local_temp) lb /\
           if existsb falhou lb then lp = []
           else map chamada lb = plano1 (fst item) local_temp /\
                envio_de local_temp p lp
       end) /\
  (forall (cfg : Cliente2.Cliente2JobConfig) (dest : Dict.t dados)
          (item : string * dados) (o : Oracle) (s : Estado),
     let d := decisao dest (Cliente2.caminho_dest_de cfg (fst item)) (snd item) in
     let p := Cliente2.caminho_dest_de cfg (fst item) in
     let rel_path := Cliente2.rel_path_de cfg (fst item) in
     let local_temp := path_join (Cliente2.temp_dir cfg) rel_path in
     exists lr lb lp,
       historico (fst (Cliente2.processar cfg dest item o s)) =
         historico s ++ lr ++ lb ++ lp /\
       Forall (fun e => In (chamada e) (chamadas_de_remocao p)) lr /\
       (d <> Replace -> lr = []) /\
       match d with
       | Skip => lb = [] /\ lp = []
       | _ =>
           segue (plano2 cfg (fst item) rel_path local_temp) lb /\
           if existsb falhou lb then lp = []
           else map chamada lb = plano2 cfg (fst item) rel_path local_temp /\
                envio_de local_temp p lp
       end).
Proof.
  intros os. split.
  - intros cfg dest item o s d p local_temp.
    destruct (processar1_partes cfg dest item o s)
      as (lr & lb & lp & Hh & _ & _ & Hd).
    fold d p local_temp in Hh, Hd.
    exists lr, lb, lp. split; [exact Hh|].
    destruct d eqn:Ed.
    + destruct Hd as (-> & -> & ->). repeat split; auto.
    + destruct Hd as (Hr & Hb & Hp). simpl in Hr. subst lr.
      repeat split; auto.
      destruct (existsb falhou lb) eqn:Ef; [exact Hp|].
      destruct (segue_completo _ _ Hb Ef) as [Hm _]. auto.
    + destruct Hd as ((Hr & _) & Hb & Hp).
      repeat split; auto; try congruence.
      destruct (existsb falhou lb) eqn:Ef; [exact Hp|].
      destruct (segue_completo _ _ Hb Ef) as [Hm _]. auto.
  - intros cfg dest item o s d p rel_path local_temp.
    destruct (processar2_partes cfg dest item o s)
      as (lr & lb & lp & Hh & _ & _ & Hd).
    fold d p rel_path local_temp in Hh, Hd.
    exists lr, lb, lp. split; [exact Hh|].
    destruct d eqn:Ed.
    + destruct Hd as (-> & -> & ->). repeat split; auto.
    + destruct Hd as (Hr & Hb & Hp). simpl in Hr. subst lr.
      repeat split; auto.
      destruct (existsb falhou lb) eqn:Ef; [exact Hp|].
      destruct (segue_completo _ _ Hb Ef) as [Hm _]. auto.
    + destruct Hd as ((Hr & _) & Hb & Hp).
      repeat split; auto; try congruence.
      destruct (existsb falhou lb) eqn:Ef; [exact Hp|].
      destruct (segue_completo _ _ Hb Ef) as [Hm _]. auto.
Qed.

(* ===================================================================== *)
(** ** The calls of each block, exactly *)
(* ===================================================================== *)

(** The removal block: it never raises nor ends the iteration, it counts
    one removal error when one of its calls raised, and its calls are
    exactly those of [remocao_de]. *)
Lemma remover_destino_exato (p : string) (o : Oracle) (s : Estado) :
  exists l,
    historico (fst (remover_destino p o s)) = historico s ++ l /\
    status (fst (remover_destino p o s)) =
      (if existsb falhou l then inc_erros_remocao (status s) else status s) /\
    snd (remover_destino p o s) = Ok tt /\
    remocao_de p l.
Proof.
  unfold remover_destino, try_except, with_connection, bind.
  rewrite call__run.
  destruct (o (historico s) (Connection sftp_rm)) as [b0|] eqn:E0; simpl.
  - rewrite call_run. simpl.
    destruct (o _ (sftp_exists sftp_rm p)) as [[|]|] eqn:E1; simpl.
    + rewrite call__run. simpl.
      destruct (o _ (sftp_remove sftp_rm p)) as [b2|] eqn:E2; simpl;
        eexists [_; _; _]; rewrite <- !app_assoc; simpl;
        (split; [reflexivity|]); (split; [reflexivity|]);
        (split; [reflexivity|]); constructor.
    + eexists [_; _]; rewrite <- !app_assoc; simpl;
        (split; [reflexivity|]); (split; [reflexivity|]);
        (split; [reflexivity|]); constructor.
    + eexists [_; _]; rewrite <- !app_assoc; simpl;
        (split; [reflexivity|]); (split; [reflexivity|]);
        (split; [reflexivity|]); constructor.
  - eexists [_]; (split; [reflexivity|]); (split; [reflexivity|]);
      (split; [reflexivity|]); constructor.
Qed.

(** The calls of the removal block come from its plan, a [remove] only
    after the probe that answered true. *)
Lemma remocao_de_forma (p : string) (l : list Evento) :
  remocao_de p l ->
  Forall (fun e => In (chamada e) (chamadas_de_remocao p)) l /\
  (forall r, In {| chamada := sftp_remove sftp_rm p; resultado := r |} l ->
     In {| chamada := sftp_exists sftp_rm p; resultado := Retorna true |} l) /\
  forallb removendo l = true /\
  l <> [].
Proof.
  unfold chamadas_de_remocao.
  destruct 1; (split; [repeat constructor; simpl; auto|]);
    (split; [intros r0 Hin; simpl in Hin; simpl; intuition discriminate|]);
    (split; [reflexivity|discriminate]).
Qed.

Lemma ensure_remote_dirs_garantia (sftp : Sessao) (remote_dir : string) (o : Oracle)
  (s : Estado) :
  exists l,
    historico (fst (ensure_remote_dirs sftp remote_dir o s)) = historico s ++ l /\
    status (fst (ensure_remote_dirs sftp remote_dir o s)) = status s /\
    snd (ensure_remote_dirs sftp remote_dir o s) =
      (if existsb falhou l then Raised else Ok tt) /\
    garantia sftp remote_dir l.
Proof.
  destruct (ensure_remote_dirs_run sftp remote_dir o s) as (l' & _ & Hst & _).
  rewrite Hst. clear l' Hst.
  unfold ensure_remote_dirs, bind, garantia. rewrite call_run.
  set (p := Str.replace "//" "/" remote_dir).
  destruct (o (historico s) (sftp_exists sftp p)) as [[|]|] eqn:E1;
    cbn [fst snd ret historico].
  - eexists [_]. repeat split; auto. eexists _, []. split; reflexivity.
  - match goal with |- context [ensure_parts sftp ?q ?ps o ?s1] =>
      destruct (ensure_parts_sondagem sftp ps q o s1) as (l & Hh & Hl & Hr) end.
    eexists (_ :: l). cbn [historico] in Hh. rewrite Hh, Hr, <- app_assoc.
    repeat split; auto. eexists _, l. split; [reflexivity|exact Hl].
  - eexists [_]. repeat split; auto. eexists _, []. split; reflexivity.
Qed.

(** The upload block: it never raises nor ends the iteration, it counts
    one upload error when one of its calls raised, and its calls are
    exactly those of its session, of [ensure_remote_dirs] on the directory
    of the destination path, and the one [put]. *)
Lemma enviar_exato `{OsPath} (local_temp p : string) (o : Oracle) (s : Estado) :
  exists l,
    historico (fst (enviar local_temp p o s)) = historico s ++ l /\
    status (fst (enviar local_temp p o s)) =
      (if existsb falhou l then inc_erros_upload (status s) else status s) /\
    snd (enviar local_temp p o s) = Ok tt /\
    bloco_remoto sftp_envio (dirname p) [sftp_put sftp_envio local_temp p] l.
Proof.
  unfold enviar, try_except, with_connection, bind, bloco_remoto.
  rewrite call__run.
  destruct (o (historico s) (Connection sftp_envio)) as [b0|] eqn:E0; simpl.
  - match goal with |- context [ensure_remote_dirs ?f ?d o ?s1] =>
      destruct (ensure_remote_dirs_garantia f d o s1) as (l & Hh & Hs & Hr & Hg);
      destruct (ensure_remote_dirs f d o s1) as [s2 r2] end.
    simpl in *. subst r2.
    destruct (existsb falhou l) eqn:Ef.
    + eexists (_ :: l). simpl. rewrite Hh, Hs, <- app_assoc. simpl. rewrite Ef.
      split; [reflexivity|]. split; [reflexivity|]. split; [reflexivity|].
      eexists _, l. split; [reflexivity|]. exists l, [].
      rewrite app_nil_r, Ef. auto.
    + rewrite call__run. rewrite Hh, Hs.
      destruct (o _ (sftp_put sftp_envio local_temp p)) as [b2|] eqn:E2; simpl;
        eexists (_ :: l ++ [_]); rewrite <- !app_assoc; simpl;
        (split; [reflexivity|]); rewrite existsb_app, Ef; simpl;
        (split; [reflexivity|]); (split; [reflexivity|]);
        eexists _, (l ++ [_]); (split; [reflexivity|]);
        eexists l, [_]; rewrite Ef;
        (split; [reflexivity|]); (split; [exact Hg|]); repeat constructor.
  - eexists [_]. simpl.
    split; [reflexivity|]. split; [reflexivity|]. split; [reflexivity|].
    eexists _, []. split; reflexivity.
Qed.

(** The step that ships the log: it neither raises nor counts, and its
    calls are exactly those of its session, of [ensure_remote_dirs] on the
    log directory, [chdir] and [put]. *)
Lemma enviar_log_exato (d lp lf : string) (o : Oracle) (s : Estado) :
  exists l,
    historico (fst (enviar_log d lp lf o s)) = historico s ++ l /\
    status (fst (enviar_log d lp lf o s)) = status s /\
    snd (enviar_log d lp lf o s) = Ok tt /\
    bloco_remoto sftp_log d (chamadas_do_log d lp lf) l.
Proof.
  unfold enviar_log, try_except, with_connection, bind, bloco_remoto, chamadas_do_log.
  rewrite call__run.
  destruct (o (historico s) (Connection sftp_log)) as [b0|] eqn:E0; simpl.
  - match goal with |- context [ensure_remote_dirs ?f ?d o ?s1] =>
      destruct (ensure_remote_dirs_garantia f d o s1) as (l & Hh & Hs & Hr & Hg);
      destruct (ensure_remote_dirs f d o s1) as [s2 r2] end.
    simpl in *. subst r2.
    destruct (existsb falhou l) eqn:Ef.
    + eexists (_ :: l). simpl. rewrite Hh, Hs, <- app_assoc. simpl.
      split; [reflexivity|]. split; [reflexivity|]. split; [reflexivity|].
      eexists _, l. split; [reflexivity|]. exists l, [].
      rewrite app_nil_r, Ef. auto.
    + rewrite call__run. rewrite Hh, Hs.
      destruct (o _ (sftp_chdir sftp_log d)) as [b2|] eqn:E2; simpl.
      * rewrite call__run. simpl.
        destruct (o _ (sftp_put sftp_log lp lf)) as [b3|] eqn:E3; simpl;
          eexists (_ :: l ++ [_; _]); rewrite <- !app_assoc; simpl;
          (split; [reflexivity|]); (split; [reflexivity|]);
          (split; [reflexivity|]);
          eexists _, (l ++ [_; _]); (split; [reflexivity|]);
          eexists l, [_; _]; rewrite Ef;
          (split; [reflexivity|]); (split; [exact Hg|]); repeat constructor.
      * eexists (_ :: l ++ [_]); rewrite <- !app_assoc; simpl;
          (split; [reflexivity|]); (split; [reflexivity|]);
          (split; [reflexivity|]);
          eexists _, (l ++ [_]); (split; [reflexivity|]);
          eexists l, [_]; rewrite Ef;
          (split; [reflexivity|]); (split; [exact Hg|]); repeat constructor.
  - eexists [_]. simpl.
    split; [reflexivity|]. split; [reflexivity|]. split; [reflexivity|].
    eexists _, []. split; reflexivity.
Qed.

(** One iteration of either loop, stage by stage, with the calls of the
    removal exactly. *)
Lemma corpo_exato (d : Decisao) (p : string) (B E : Job unit)
  (PB PE : list Evento -> Prop) (o : Oracle) (s : Estado) :
  (forall s1, exists lb,
     historico (fst (B o s1)) = historico s1 ++ lb /\
     status (fst (B o s1)) =
       (if existsb falhou lb then inc_erros_download (status s1) else status s1) /\
     snd (B o s1) = (if existsb falhou lb then Continue else Ok tt) /\
     PB lb) ->
  (forall s1, exists lp,
     historico (fst (E o s1)) = historico s1 ++ lp /\
     status (fst (E o s1)) =
       (if existsb falhou lp then inc_erros_upload (status s1) else status s1) /\
     snd (E o s1) = Ok tt /\
     PE lp) ->
  exists lr lb lp,
    historico (fst (corpo d p B E o s)) = historico s ++ lr ++ lb ++ lp /\
    status (fst (corpo d p B E o s)) = conta d lr lb lp (status s) /\
    snd (corpo d p B E o s) =
      (if is_skip d || existsb falhou lb then Continue else Ok tt) /\
    match d with
    | Skip => lr = [] /\ lb = [] /\ lp = []
    | _ =>
        (if is_replace d then remocao_de p lr else lr = []) /\
        PB lb /\
        (if existsb falhou lb then lp = [] else PE lp)
    end.
Proof.
  intros HB HE. unfold corpo. destruct d.
  - exists [], [], []. simpl. rewrite app_nil_r. auto 10.
  - rewrite bind_run. simpl.
    destruct (HB {| historico := historico s; status := inc_novos (status s) |})
      as (lb & Hh & Hs & Hr & Hp).
    rewrite bind_run, Hr.
    destruct (existsb falhou lb) eqn:Ef.
    + exists [], lb, []. simpl in *. rewrite Hh, Hs, app_nil_r.
      unfold conta. simpl. rewrite Ef. auto 10.
    + match goal with |- context [E o ?s1] =>
        destruct (HE s1) as (lp & Hh2 & Hs2 & Hr2 & Hp2) end.
      exists [], lb, lp. simpl in *. rewrite Hh2, Hs2, Hr2, Hh, Hs.
      rewrite <- app_assoc. unfold conta. simpl. rewrite Ef. auto 10.
  - rewrite bind_run.
    destruct (remover_destino_exato p o s) as (lr & Hh0 & Hs0 & Hr0 & Hf0).
    rewrite bind_run, Hr0. cbv iota beta.
    change (status_update inc_reenviados o (fst (remover_destino p o s)))
      with ({| historico := historico (fst (remover_destino p o s));
               status := inc_reenviados (status (fst (remover_destino p o s))) |},
            @Ok unit tt).
    cbv iota beta. simpl fst. simpl snd. cbv iota beta.
    rewrite bind_run.
    match goal with |- context [B o ?s1] =>
      destruct (HB s1) as (lb & Hh & Hs & Hr & Hp) end.
    rewrite Hr.
    destruct (existsb falhou lb) eqn:Ef.
    + exists lr, lb, []. simpl in Hh, Hs. cbn [fst snd].
      rewrite Hh, Hs, Hh0, Hs0, app_nil_r, <- app_assoc.
      unfold conta. simpl existsb. rewrite Ef. simpl. auto 10.
    + match goal with |- context [E o ?s1] =>
        destruct (HE s1) as (lp & Hh2 & Hs2 & Hr2 & Hp2) end.
      exists lr, lb, lp. simpl in Hh, Hs.
      rewrite Hh2, Hs2, Hr2, Hh, Hs, Hh0, Hs0, <- !app_assoc.
      unfold conta. simpl existsb. rewrite Ef. simpl. auto 10.
Qed.

(** What the stages of one entry add up to, as the claims about the
    pipeline state it: the removal is attempted for a replaced entry and
    for no other, the staging follows whatever the removal did, and the
    upload follows exactly the staging in which nothing raised. *)
Lemma corpo_pipeline (d : Decisao) (p : string) (B E : Job unit)
  (plano : list Call) (PE : list Evento -> Prop) (o : Oracle) (s : Estado) :
  (forall c, In c plano -> sessao_de c <> Some sftp_envio) ->
  (forall s1, exists lb,
     historico (fst (B o s1)) = historico s1 ++ lb /\
     status (fst (B o s1)) =
       (if existsb falhou lb then inc_erros_download (status s1) else status s1) /\
     snd (B o s1) = (if existsb falhou lb then Continue else Ok tt) /\
     segue plano lb) ->
  (forall s1, exists lp,
     historico (fst (E o s1)) = historico s1 ++ lp /\
     status (fst (E o s1)) =
       (if existsb falhou lp then inc_erros_upload (status s1) else status s1) /\
     snd (E o s1) = Ok tt /\
     PE lp) ->
  let r := corpo d p B E o s in
  exists lr lb lp,
    historico (fst r) = historico s ++ lr ++ lb ++ lp /\
    (d = Skip -> lr = [] /\ lb = [] /\ lp = []) /\
    (d = Create -> lr = []) /\
    (d = Replace ->
     remocao_de p lr /\
     erros_remocao (status (fst r)) =
       erros_remocao (status s) + um_se (existsb falhou lr) /\
     reenviados (status (fst r)) = S (reenviados (status s))) /\
    (d <> Skip ->
     segue plano lb /\
     (existsb falhou lb = true ->
      lp = [] /\
      existsb publicando (lr ++ lb ++ lp) = false /\
      erros_download (status (fst r)) = S (erros_download (status s)) /\
      snd r = Continue) /\
     (existsb falhou lb = false ->
      PE lp /\
      erros_download (status (fst r)) = erros_download (status s) /\
      snd r = Ok tt)).
Proof.
  intros Hplano HB HE r. subst r.
  destruct (corpo_exato d p B E (segue plano) PE o s HB HE)
    as (lr & lb & lp & Hh & Hs & Hr & Hd).
  exists lr, lb, lp. split; [exact Hh|].
  assert (Hlr : d <> Replace -> lr = []).
  { intros Hn. destruct d; try tauto; contradiction. }
  destruct (conta_campos d lr lb lp (status s) Hlr) as (_ & _ & C3 & C4 & C5 & _).
  rewrite <- Hs in C3, C4, C5.
  split; [intros ->; exact Hd|].
  split; [intros ->; tauto|].
  split.
  { intros ->. simpl in Hd, C3. repeat split; try tauto. rewrite C3. simpl. lia. }
  intros Hn.
  assert (Hx : (if is_replace d then remocao_de p lr else lr = []) /\
               segue plano lb /\
               (if existsb falhou lb then lp = [] else PE lp)).
  { destruct d; [contradiction|exact Hd|exact Hd]. }
  destruct Hx as (Hrem & Hseg & Hlp).
  assert (Hsk : is_skip d = false) by (destruct d; [contradiction|reflexivity..]).
  rewrite Hsk in Hr. simpl in Hr.
  split; [exact Hseg|]. split.
  - intros Ef. rewrite Ef in Hlp, Hr, C5. subst lp.
    repeat split; auto; [|simpl in C5; lia].
    rewrite app_nil_r, existsb_app.
    assert (H1 : existsb publicando lr = false).
    { destruct (is_replace d); [|subst lr; reflexivity].
      apply (existsb_outro removendo publicando).
      - intros e He. apply (estagios_disjuntos e) in He. tauto.
      - apply remocao_de_forma in Hrem. tauto. }
    rewrite H1. simpl.
    clear - Hplano Hseg. induction Hseg as [|c b cs l Hs IH|c cs]; simpl; auto.
    + rewrite IH by (intros c' Hc'; apply Hplano; now right).
      rewrite orb_false_r. unfold publicando, na_sessao. simpl.
      specialize (Hplano c (or_introl eq_refl)).
      destruct (sessao_de c) as [[]|]; try reflexivity. congruence.
    + rewrite orb_false_r. unfold publicando, na_sessao. simpl.
      specialize (Hplano c (or_introl eq_refl)).
      destruct (sessao_de c) as [[]|]; try reflexivity. congruence.
  - intros Ef. rewrite Ef in Hlp, Hr, C5. simpl in C5.
    repeat split; auto. lia.
Qed.

Lemma plano1_fora_do_envio `{OsPath} (caminho local_temp : string) (c : Call) :
  In c (plano1 caminho local_temp) -> sessao_de c <> Some sftp_envio.
Proof. intros [<-|[<-|[]]]; discriminate. Qed.

Lemma plano2_fora_do_envio `{OsPath} (cfg : Cliente2.Cliente2JobConfig)
  (caminho rel_path local_temp : string) (c : Call) :
  In c (plano2 cfg caminho rel_path local_temp) -> sessao_de c <> Some sftp_envio.
Proof.
  unfold plano2. destruct (Cliente2.keep_extra_local_copy cfg); simpl;
    intuition (subst; discriminate).
Qed.

(* ===================================================================== *)
(** ** [main], session by session *)
(* ===================================================================== *)








(* ===================================================================== *)
(** ** More about the walk: its keys and its calls *)
(* ===================================================================== *)

Section WalkMore.
Variable sftp : Sessao.
Variable pula_pasta : nat -> Z -> bool.
Variable inclui : Z -> bool.

(** An iteration raises exactly on an entry whose date does not convert,
    and then leaves the walk as it was. *)
Lemma visitar_levanta (nivel : nat) (remote_dir : string) (e : node) (st : Passeio) :
  snd (visitar sftp pula_pasta inclui nivel remote_dir e st) = negb (legivel e).
Proof.
  destruct e as [nome size [dm|] | nome [dm|] children]; try reflexivity.
  - simpl. destruct (inclui dm); reflexivity.
  - rewrite visitar_Dir. destruct (pula_pasta nivel dm); reflexivity.
Qed.

Lemma visitar_ilegivel (nivel : nat) (remote_dir : string) (e : node) (st : Passeio) :
  legivel e = false ->
  visitar sftp pula_pasta inclui nivel remote_dir e st = (st, true).
Proof.
  destruct e as [nome size [dm|] | nome [dm|] children]; try discriminate;
    reflexivity.
Qed.

Lemma alcanca_cons (nivel : nat) (remote_dir : string) (e : node)
  (entries : list node) (k : string) :
  legivel e = true ->
  alcanca pula_pasta inclui nivel remote_dir entries k ->
  alcanca pula_pasta inclui nivel remote_dir (e :: entries) k.
Proof.
  intros Hl Ha. inversion Ha; subst.
  - apply (alcanca_arquivo _ _ nivel remote_dir (e :: pre) nome size dm post); auto.
    simpl. now rewrite Hl.
  - apply (alcanca_pasta _ _ nivel remote_dir (e :: pre) nome dm sub post k); auto.
    simpl. now rewrite Hl.
Qed.

Lemma alcanca_app (nivel : nat) (remote_dir : string) (entries depois : list node)
  (k : string) :
  alcanca pula_pasta inclui nivel remote_dir entries k ->
  alcanca pula_pasta inclui nivel remote_dir (entries ++ depois) k.
Proof.
  intros Ha. inversion Ha; subst; rewrite <- app_assoc, <- app_comm_cons.
  - now apply alcanca_arquivo.
  - now apply alcanca_pasta.
Qed.

Lemma alcanca_nada (nivel : nat) (remote_dir : string) (k : string) :
  ~ alcanca pula_pasta inclui nivel remote_dir [] k.
Proof.
  intros Ha. inversion Ha as [? ? pre ? ? ? ? ? ? Heq|? ? pre ? ? ? ? ? ? ? ? Heq];
    destruct pre; discriminate.
Qed.

(** A key of [arquivos] after the loop was there before it, or is a file
    the loop came to. *)
Lemma for_entries_mem_alcanca (entries : list node) :
  Forall (fun e => forall nivel remote_dir st k,
            Dict.mem (arquivos (fst (visitar sftp pula_pasta inclui nivel remote_dir
                                       e st))) k = true ->
            Dict.mem (arquivos st) k = true \/
            alcanca pula_pasta inclui nivel remote_dir [e] k) entries ->
  forall nivel remote_dir st k,
    Dict.mem (arquivos (fst (for_entries (visitar sftp pula_pasta inclui nivel remote_dir)
                               entries st))) k = true ->
    Dict.mem (arquivos st) k = true \/
    alcanca pula_pasta inclui nivel remote_dir entries k.
Proof.
  induction 1 as [|e es He Hes IH]; intros nivel remote_dir st k Hm.
  - now left.
  - simpl in Hm.
    pose proof (visitar_levanta nivel remote_dir e st) as Hr.
    specialize (He nivel remote_dir st k).
    destruct (visitar sftp pula_pasta inclui nivel remote_dir e st) as [st1 raised].
    simpl in Hr, He. subst raised.
    destruct (legivel e) eqn:El; simpl in Hm.
    + destruct (IH _ _ _ _ Hm) as [H1|H1].
      * destruct (He H1) as [H0|H0]; [now left|right].
        apply (alcanca_app nivel remote_dir [e] es k H0).
      * right. now apply alcanca_cons.
    + destruct (He Hm) as [H0|H0]; [now left|right].
      apply (alcanca_app nivel remote_dir [e] es k H0).
Qed.

Lemma visitar_mem_alcanca (e : node) :
  forall nivel remote_dir st k,
    Dict.mem (arquivos (fst (visitar sftp pula_pasta inclui nivel remote_dir e st))) k
      = true ->
    Dict.mem (arquivos st) k = true \/
    alcanca pula_pasta inclui nivel remote_dir [e] k.
Proof.
  induction e as [nome size dm | nome dm children IH] using node_induction;
    intros nivel remote_dir st k.
  - destruct dm as [dm|]; simpl; [|now left].
    destruct (inclui dm) eqn:Ei; simpl; [|now left].
    rewrite mem_set. intros Hm. apply orb_true_iff in Hm.
    destruct Hm as [Hm|Hm]; [right|now left].
    apply String.eqb_eq in Hm. subst k.
    now apply (alcanca_arquivo _ _ nivel remote_dir [] nome size dm []).
  - destruct dm as [dm|]; [|simpl; now left].
    rewrite visitar_Dir. destruct (pula_pasta nivel dm) eqn:Ep; [now left|].
    simpl. rewrite mem_update. intros Hm. apply orb_true_iff in Hm.
    destruct Hm as [Hm|Hm]; [now left|right].
    destruct children as [sub|]; [|discriminate Hm].
    rewrite percorrer_fst in Hm.
    destruct (for_entries_mem_alcanca sub IH _ _ _ _ Hm) as [H0|H0];
      [discriminate H0|].
    now apply (alcanca_pasta _ _ nivel remote_dir [] nome dm sub [] k).
Qed.

(** The keys of a walk are files that it came to. *)
Lemma percorrer_mem_alcanca (nivel : nat) (remote_dir : string) (r : listing)
  (feitas : list Evento) (k : string) :
  Dict.mem (arquivos (percorrer sftp pula_pasta inclui nivel remote_dir r feitas)) k
    = true ->
  alcanca pula_pasta inclui nivel remote_dir (filhos r) k.
Proof.
  destruct r as [entries|]; [|discriminate].
  rewrite percorrer_fst. intros Hm.
  destruct (for_entries_mem_alcanca entries
              (proj2 (Forall_forall _ _) (fun e _ => visitar_mem_alcanca e))
              _ _ _ _ Hm) as [H0|H0]; [discriminate H0|exact H0].
Qed.

Lemma alcanca_percorrer_mem (nivel : nat) (remote_dir : string) (r : listing)
  (feitas : list Evento) (k : string) :
  alcanca pula_pasta inclui nivel remote_dir (filhos r) k ->
  Dict.mem (arquivos (percorrer sftp pula_pasta inclui nivel remote_dir r feitas)) k
    = true.
Proof.
  destruct r as [entries|]; simpl filhos.
  - intros Ha. rewrite percorrer_fst. now apply alcanca_mem.
  - intros Ha. now apply alcanca_nada in Ha.
Qed.

(** An entry whose date does not convert ends the loop of its directory:
    what is listed after it is never looked at. *)
Lemma percorrer_ate_ilegivel (nivel : nat) (remote_dir : string)
  (pre post : list node) (ruim : node) (feitas : list Evento) :
  legivel ruim = false ->
  percorrer sftp pula_pasta inclui nivel remote_dir (Some (pre ++ ruim :: post)) feitas =
  percorrer sftp pula_pasta inclui nivel remote_dir (Some pre) feitas.
Proof.
  intros Hl. rewrite !percorrer_fst, for_entries_app.
  destruct (snd (for_entries _ pre _)); [reflexivity|].
  simpl. now rewrite (visitar_ilegivel _ _ _ _ Hl).
Qed.

(** A walk calls nothing but [listdir_attr] of its session. *)
Lemma visitar_so_lista (e : node) :
  forall nivel remote_dir st,
    exists l,
      listagens (fst (visitar sftp pula_pasta inclui nivel remote_dir e st)) =
        listagens st ++ l /\
      Forall (fun ev => exists d x, ev = listou sftp d x) l.
Proof.
  induction e as [nome size dm | nome dm children IH] using node_induction;
    intros nivel remote_dir st.
  - simpl. destruct dm as [dm|]; simpl; [|exists []; now rewrite app_nil_r].
    destruct (inclui dm); simpl; exists []; now rewrite app_nil_r.
  - destruct dm as [dm|]; [|simpl; exists []; now rewrite app_nil_r].
    simpl. destruct (pula_pasta nivel dm); simpl;
      [exists []; now rewrite app_nil_r|].
    set (st0 := {| listagens := listagens st ++ [listou sftp (junta remote_dir nome) children];
                   arquivos := Dict.empty |}).
    assert (Hsub : exists l,
      listagens (fst (for_entries
                        (visitar sftp pula_pasta inclui (S nivel) (junta remote_dir nome))
                        (filhos children) st0)) = listagens st0 ++ l /\
      Forall (fun ev => exists d x, ev = listou sftp d x) l).
    { apply (for_entries_inv _
               (fun st' => exists l, listagens st' = listagens st0 ++ l /\
                             Forall (fun ev => exists d x, ev = listou sftp d x) l)).
      - eapply Forall_impl; [|exact IH]. simpl.
        intros e He st' (l & Hl & Hf).
        destruct (He (S nivel) (junta remote_dir nome) st') as (l' & Hl' & Hf').
        exists (l ++ l'). rewrite Hl', Hl, app_assoc. split; [reflexivity|].
        apply Forall_app. auto.
      - exists []. now rewrite app_nil_r. }
    destruct Hsub as (l & Hl & Hf).
    exists (listou sftp (junta remote_dir nome) children :: l).
    split; [|constructor; [now eexists _, _|exact Hf]].
    destruct children as [entries|]; simpl in *.
    + fold st0. destruct (for_entries _ entries st0) as [sub raised].
      simpl in *. rewrite Hl. now rewrite <- app_assoc.
    + rewrite <- app_assoc in Hl. simpl in Hl. exact Hl.
Qed.

Lemma percorrer_so_lista (nivel : nat) (remote_dir : string) (r : listing)
  (feitas : list Evento) :
  exists l,
    listagens (percorrer sftp pula_pasta inclui nivel remote_dir r feitas) =
      feitas ++ l /\
    Forall (fun ev => exists d x, ev = listou sftp d x) l.
Proof.
  set (st0 := {| listagens := feitas ++ [listou sftp remote_dir r];
                 arquivos := Dict.empty |}).
  assert (Hsub : exists l,
    listagens (fst (for_entries (visitar sftp pula_pasta inclui nivel remote_dir)
                      (filhos r) st0)) = listagens st0 ++ l /\
    Forall (fun ev => exists d x, ev = listou sftp d x) l).
  { apply (for_entries_inv _
             (fun st' => exists l, listagens st' = listagens st0 ++ l /\
                           Forall (fun ev => exists d x, ev = listou sftp d x) l)).
    - apply Forall_forall. intros e _ st' (l & Hl & Hf).
      destruct (visitar_so_lista e nivel remote_dir st') as (l' & Hl' & Hf').
      exists (l ++ l'). rewrite Hl', Hl, app_assoc. split; [reflexivity|].
      apply Forall_app. auto.
    - exists []. now rewrite app_nil_r. }
  destruct Hsub as (l & Hl & Hf). exists (listou sftp remote_dir r :: l).
  split; [|constructor; [now eexists _, _|exact Hf]].
  simpl in Hl. rewrite <- app_assoc in Hl. simpl in Hl.
  destruct r as [entries|]; [rewrite percorrer_fst|]; exact Hl.
Qed.

End WalkMore.

(** Skipping fewer directories and passing more files loses no file. *)
Lemma alcanca_mono (pula pula' : nat -> Z -> bool) (inclui inclui' : Z -> bool) :
  (forall n d, pula' n d = true -> pula n d = true) ->
  (forall d, inclui d = true -> inclui' d = true) ->
  forall nivel remote_dir entries k,
    alcanca pula inclui nivel remote_dir entries k ->
    alcanca pula' inclui' nivel remote_dir entries k.
Proof.
  intros Hp Hi nivel remote_dir entries k Ha.
  induction Ha as [nivel remote_dir pre nome size dm post Hpre Hinc
                  |nivel remote_dir pre nome dm sub post k Hpre Hpula Hsub IH].
  - apply alcanca_arquivo; auto.
  - apply alcanca_pasta; auto.
    destruct (pula' nivel dm) eqn:E; [|reflexivity].
    apply Hp in E. congruence.
Qed.

(** X4. Which keys a snapshot has, in both scripts. At any depth, a key
    of what [listar_arquivos_sftp_recursivo] returns is the path of a file
    that the walk comes to and that passes the date test: no entry listed
    before it in its directory has a date that fails to convert, and every
    directory above it has a date that converts, is not skipped, and can
    be listed. In a tree of at most [niveis_seguros] levels, which the
    recursion takes, the converse holds: every such file is a key. *)
Theorem chaves_sao_os_arquivos_alcancados :
  (forall (sftp : Sessao) (remote_dir : string) (filtro_data : option Z)
          (r : listing) (feitas : list Evento) (k : string),
     (Dict.mem (arquivos (Cliente1.listar_arquivos_sftp_recursivo sftp remote_dir
                            filtro_data r feitas)) k = true ->
      alcanca (fun _ _ => false) (Cliente1.passa_filtro filtro_data) 0 remote_dir
        (filhos r) k) /\
     (altura_de (filhos r) <= niveis_seguros ->
      alcanca (fun _ _ => false) (Cliente1.passa_filtro filtro_data) 0 remote_dir
        (filhos r) k ->
      Dict.mem (arquivos (Cliente1.listar_arquivos_sftp_recursivo sftp remote_dir
                            filtro_data r feitas)) k = true)) /\
  (forall (sftp : Sessao) (remote_dir : string) (nivel : nat)
          (filtro_data_min : option Z) (r : listing) (feitas : list Evento)
          (k : string),
     (Dict.mem (arquivos (Cliente2.listar_arquivos_sftp_recursivo sftp remote_dir
                            nivel filtro_data_min r feitas)) k = true ->
      alcanca (fun n d => Cliente2.pasta_antiga n filtro_data_min d)
        (Cliente2.passa_filtro filtro_data_min) nivel remote_dir (filhos r) k) /\
     (altura_de (filhos r) <= niveis_seguros ->
      alcanca (fun n d => Cliente2.pasta_antiga n filtro_data_min d)
        (Cliente2.passa_filtro filtro_data_min) nivel remote_dir (filhos r) k ->
      Dict.mem (arquivos (Cliente2.listar_arquivos_sftp_recursivo sftp remote_dir
                            nivel filtro_data_min r feitas)) k = true)).
Proof.
  split; intros; split;
    first [apply percorrer_mem_alcanca | intros _; apply alcanca_percorrer_mem].
Qed.

(** A tree of two levels, in the order of the names: the file under the
    directory is a key of the snapshot, and every key is a file of the
    tree. *)
Lemma chaves_sao_os_arquivos_alcancados_witness :
  let r := Some [Dir "a" (Some 100%Z) (Some [File "b.txt" 10 (Some 100%Z)]);
                 File "c.txt" 5 (Some 99%Z)] in
  Dict.mem (arquivos (Cliente1.listar_arquivos_sftp_recursivo sftp_orig "/src"
                        (Some 100%Z) r [])) "/src/a/b.txt" = true /\
  alcanca (fun _ _ => false) (Cliente1.passa_filtro (Some 100%Z)) 0 "/src"
    (filhos r) "/src/a/b.txt".
Proof.
  intros r.
  destruct (proj1 chaves_sao_os_arquivos_alcancados sftp_orig "/src"%string (Some 100%Z)
              r [] "/src/a/b.txt"%string) as [H1 H2].
  assert (Hm : Dict.mem (arquivos (Cliente1.listar_arquivos_sftp_recursivo sftp_orig
                                     "/src" (Some 100%Z) r [])) "/src/a/b.txt" = true).
  { apply H2.
    - apply Nat.leb_le. reflexivity.
    - apply (alcanca_pasta _ _ 0 "/src" [] "a" 100 [File "b.txt" 10 (Some 100%Z)]
               [File "c.txt" 5 (Some 99%Z)] "/src/a/b.txt"); try reflexivity.
      apply (alcanca_arquivo _ _ 1 "/src/a" [] "b.txt" 10 100 []); reflexivity. }
  split; [exact Hm|exact (H1 Hm)].
Defined.

(** X5. An entry whose modification date does not convert ends the loop
    over its directory in both scripts: the walk returns what it had
    gathered from the entries listed before it, and the entries listed
    after it, files and whole sub-directories, are never looked at. In a
    sub-directory this is not an error of the directory above, whose loop
    goes on. *)
Theorem entrada_sem_data_encerra_a_pasta :
  (forall (sftp : Sessao) (remote_dir : string) (filtro_data : option Z)
          (pre post : list node) (ruim : node) (feitas : list Evento),
     legivel ruim = false ->
     Cliente1.listar_arquivos_sftp_recursivo sftp remote_dir filtro_data
       (Some (pre ++ ruim :: post)) feitas =
     Cliente1.listar_arquivos_sftp_recursivo sftp remote_dir filtro_data
       (Some pre) feitas) /\
  (forall (sftp : Sessao) (remote_dir : string) (nivel : nat)
          (filtro_data_min : option Z) (pre post : list node) (ruim : node)
          (feitas : list Evento),
     legivel ruim = false ->
     Cliente2.listar_arquivos_sftp_recursivo sftp remote_dir nivel filtro_data_min
       (Some (pre ++ ruim :: post)) feitas =
     Cliente2.listar_arquivos_sftp_recursivo sftp remote_dir nivel filtro_data_min
       (Some pre) feitas) /\
  (forall (sftp : Sessao) (filtro_data_min : option Z) (nivel : nat)
          (remote_dir nome : string) (dm : Z) (pre post : list node) (ruim : node)
          (st : Passeio),
     legivel ruim = false ->
     Cliente2.visitar_janela sftp filtro_data_min nivel remote_dir
       (Dir nome (Some dm) (Some (pre ++ ruim :: post))) st =
     Cliente2.visitar_janela sftp filtro_data_min nivel remote_dir
       (Dir nome (Some dm) (Some pre)) st /\
     snd (Cliente2.visitar_janela sftp filtro_data_min nivel remote_dir
            (Dir nome (Some dm) (Some (pre ++ ruim :: post))) st) = false).
Proof.
  split; [|split].
  - intros. now apply percorrer_ate_ilegivel.
  - intros. now apply percorrer_ate_ilegivel.
  - intros sftp f nivel remote_dir nome dm pre post ruim st Hl.
    unfold Cliente2.visitar_janela. rewrite !visitar_Dir.
    destruct (Cliente2.pasta_antiga nivel f dm); [split; reflexivity|].
    cbv zeta. rewrite (percorrer_ate_ilegivel _ _ _ _ _ _ _ _ _ Hl).
    split; reflexivity.
Qed.

(** A file without a date hides the file listed after it. *)
Lemma entrada_sem_data_encerra_a_pasta_witness :
  Cliente1.listar_arquivos_sftp_recursivo sftp_orig "/src" (Some 100%Z)
    (Some ([File "a.txt" 1 (Some 100%Z)]
           ++ File "b.txt" 2 None :: [File "c.txt" 3 (Some 100%Z)])) [] =
  Cliente1.listar_arquivos_sftp_recursivo sftp_orig "/src" (Some 100%Z)
    (Some [File "a.txt" 1 (Some 100%Z)]) [].
Proof.
  apply (proj1 entrada_sem_data_encerra_a_pasta). reflexivity.
Defined.

(** X6. In SFTP_Cliente2.py an older threshold loses no file: every key
    of the snapshot taken with the threshold [f] is a key of the snapshot
    of the same tree taken with an earlier threshold [f'], and of the one
    taken with no threshold. *)
Theorem janela_maior_nao_perde_arquivo :
  forall (sftp : Sessao) (remote_dir : string) (nivel : nat) (f f' : Z)
         (r : listing) (feitas feitas' : list Evento) (k : string),
    (f' <= f)%Z ->
    Dict.mem (arquivos (Cliente2.listar_arquivos_sftp_recursivo sftp remote_dir nivel
                          (Some f) r feitas)) k = true ->
    Dict.mem (arquivos (Cliente2.listar_arquivos_sftp_recursivo sftp remote_dir nivel
                          (Some f') r feitas')) k = true /\
    Dict.mem (arquivos (Cliente2.listar_arquivos_sftp_recursivo sftp remote_dir nivel
                          None r feitas')) k = true.
Proof.
  intros sftp remote_dir nivel f f' r feitas feitas' k Hle Hm.
  apply percorrer_mem_alcanca in Hm.
  split; apply alcanca_percorrer_mem; revert Hm; apply alcanca_mono.
  - intros n d. unfold Cliente2.pasta_antiga.
    destruct (Nat.eqb n 0); simpl; [|discriminate].
    intros H. apply Z.ltb_lt in H. apply Z.ltb_lt. lia.
  - intros d. unfold Cliente2.passa_filtro.
    intros H. apply Z.leb_le in H. apply Z.leb_le. lia.
  - intros n d. unfold Cliente2.pasta_antiga. rewrite andb_false_r. discriminate.
  - reflexivity.
Qed.

(** A file dated one day before the threshold [99] is kept when the
    threshold moves one day back, and when there is none. *)
Lemma janela_maior_nao_perde_arquivo_witness :
  Dict.mem (arquivos (Cliente2.listar_arquivos_sftp_recursivo sftp_rec "/src" 0
                        (Some 98%Z) (Some [File "a.txt" 1 (Some 99%Z)]) []))
    (junta "/src" "a.txt") = true /\
  Dict.mem (arquivos (Cliente2.listar_arquivos_sftp_recursivo sftp_rec "/src" 0
                        None (Some [File "a.txt" 1 (Some 99%Z)]) []))
    (junta "/src" "a.txt") = true.
Proof.
  apply (janela_maior_nao_perde_arquivo sftp_rec "/src" 0 99 98
           (Some [File "a.txt" 1 (Some 99%Z)]) [] [] (junta "/src" "a.txt")).
  - lia.
  - reflexivity.
Defined.

Lemma listar1_lista (sftp : Sessao) (dir : string) (filtro : option Z) (r : listing)
  (o : Oracle) (s : Estado) :
  exists l,
    Forall (fun ev => exists d x, ev = listou sftp d x) l /\
    Cliente1.listar sftp dir filtro r o s =
      ({| historico := historico s ++ l; status := status s |},
       Ok (arquivos (Cliente1.listar_arquivos_sftp_recursivo sftp dir filtro r []))).
Proof.
  unfold Cliente1.listar, Cliente1.listar_arquivos_sftp_recursivo.
  destruct (percorrer_so_lista sftp (fun _ _ => false) (Cliente1.passa_filtro filtro)
              0 dir r (historico s)) as (l & Hl & Hf).
  exists l. split; [exact Hf|].
  rewrite Hl. f_equal. f_equal. apply percorrer_feitas.
Qed.

Lemma listar2_lista (sftp : Sessao) (dir : string) (filtro : option Z) (r : listing)
  (o : Oracle) (s : Estado) :
  exists l,
    Forall (fun ev => exists d x, ev = listou sftp d x) l /\
    Cliente2.listar sftp dir filtro r o s =
      ({| historico := historico s ++ l; status := status s |},
       Ok (arquivos (Cliente2.listar_arquivos_sftp_recursivo sftp dir 0 filtro r []))).
Proof.
  unfold Cliente2.listar, Cliente2.listar_arquivos_sftp_recursivo.
  destruct (percorrer_so_lista sftp (fun n d => Cliente2.pasta_antiga n filtro d)
              (Cliente2.passa_filtro filtro) 0 dir r (historico s)) as (l & Hl & Hf).
  exists l. split; [exact Hf|].
  rewrite Hl. f_equal. f_equal. apply percorrer_feitas.
Qed.

(* ===================================================================== *)
(** ** A directory that cannot be listed, among its siblings *)
(* ===================================================================== *)

Section PastaFalha.
Variable sftp : Sessao.
Variable pula_pasta : nat -> Z -> bool.
Variable inclui : Z -> bool.

Lemma alcanca_depois (nivel : nat) (remote_dir : string) (pre entries : list node)
  (k : string) :
  forallb legivel pre = true ->
  alcanca pula_pasta inclui nivel remote_dir entries k ->
  alcanca pula_pasta inclui nivel remote_dir (pre ++ entries) k.
Proof.
  induction pre as [|e pre IH]; simpl; intros Hl Ha; [exact Ha|].
  apply andb_true_iff in Hl. destruct Hl as [He Hp].
  apply alcanca_cons; auto.
Qed.

(** The listing calls of a loop are kept by what follows. *)
Lemma for_entries_listagens_mono (nivel : nat) (remote_dir : string)
  (entries : list node) (st : Passeio) (e : Evento) :
  In e (listagens st) ->
  In e (listagens (fst (for_entries (visitar sftp pula_pasta inclui nivel remote_dir)
                          entries st))).
Proof.
  apply (for_entries_inv _ (fun st' => In e (listagens st'))).
  apply Forall_forall. intros x _ st' Hst'.
  destruct (visitar_listagens sftp pula_pasta inclui x nivel remote_dir st')
    as (l & -> & _).
  apply in_or_app. now left.
Qed.

(** Where every entry before it has a date that converts, a directory
    that is not skipped is listed, also when listing it raises. *)
Lemma percorrer_lista_a_pasta (nivel : nat) (remote_dir : string)
  (pre post : list node) (nome : string) (dm : Z) (children : listing)
  (feitas : list Evento) :
  forallb legivel pre = true ->
  pula_pasta nivel dm = false ->
  In (listou sftp (junta remote_dir nome) children)
     (listagens (percorrer sftp pula_pasta inclui nivel remote_dir
                   (Some (pre ++ Dir nome (Some dm) children :: post)) feitas)).
Proof.
  intros Hl Hp. rewrite percorrer_fst, for_entries_app.
  rewrite (for_entries_legivel _ _ _ _ _ _ _ Hl).
  change (for_entries ?b (?e :: post) ?s)
    with (let (s1, raised) := b e s in
          if raised then (s1, true) else for_entries b post s1).
  rewrite visitar_Dir, Hp. cbv zeta iota beta.
  apply for_entries_listagens_mono. cbn [listagens].
  destruct (percorrer_listagens sftp pula_pasta inclui (S nivel) (junta remote_dir nome)
              children
              (listagens (fst (for_entries
                                 (visitar sftp pula_pasta inclui nivel remote_dir) pre
                                 {| listagens :=
                                      feitas ++ [listou sftp remote_dir
                                                   (Some (pre ++ Dir nome (Some dm) children
                                                          :: post))];
                                    arquivos := Dict.empty |}))))
    as (l & Hl' & _).
  rewrite Hl'. apply in_or_app. right. now left.
Qed.

(** What the walk comes to before and after a directory whose listing
    raises is in the snapshot. *)
Lemma percorrer_ao_lado_da_falha (nivel : nat) (remote_dir : string)
  (pre post : list node) (nome : string) (dm : Z) (feitas : list Evento) (k : string) :
  alcanca pula_pasta inclui nivel remote_dir pre k \/
  (forallb legivel pre = true /\
   alcanca pula_pasta inclui nivel remote_dir post k) ->
  Dict.mem
    (arquivos (percorrer sftp pula_pasta inclui nivel remote_dir
                 (Some (pre ++ Dir nome (Some dm) None :: post)) feitas)) k = true.
Proof.
  intros Hk. apply alcanca_percorrer_mem. simpl filhos.
  destruct Hk as [Hk|[Hl Hk]].
  - now apply alcanca_app.
  - apply alcanca_depois; [exact Hl|]. now apply alcanca_cons.
Qed.

End PastaFalha.

(* ===================================================================== *)
(** ** What a whole run may call *)
(* ===================================================================== *)

(** The calls of a loop are those of its iterations. *)
Lemma for_each_eventos {A} (body : A -> Job unit) (Q : list Evento -> Prop)
  (xs : list A) :
  Q [] ->
  (forall l1 l2, Q l1 -> Q l2 -> Q (l1 ++ l2)) ->
  (forall x, In x xs -> forall o s, exists l,
     historico (fst (body x o s)) = historico s ++ l /\ Q l) ->
  forall o s, exists l,
    historico (fst (for_each body xs o s)) = historico s ++ l /\ Q l.
Proof.
  intros Hnil Happ. induction xs as [|x xs IH]; intros Hb o s.
  - exists []. simpl. now rewrite app_nil_r.
  - destruct (Hb x (or_introl eq_refl) o s) as (l1 & Hh1 & Hq1).
    simpl. destruct (body x o s) as [s' r] eqn:Eb. simpl in Hh1.
    assert (Hrest : exists l,
              historico (fst (for_each body xs o s')) = historico s' ++ l /\ Q l).
    { apply IH. intros y Hy. apply Hb. now right. }
    destruct Hrest as (l2 & Hh2 & Hq2).
    destruct r as [[]| |].
    + exists (l1 ++ l2). rewrite Hh2, Hh1, app_assoc. auto.
    + exists (l1 ++ l2). rewrite Hh2, Hh1, app_assoc. auto.
    + exists l1. simpl. auto.
Qed.

Ltac fecha_forall :=
  simpl;
  repeat first [ assumption
               | apply Forall_nil
               | apply Forall_cons
               | apply Forall_app; split
               | solve [auto] ].

Lemma preparando_lista (a b sftp : Sessao) (l : list Evento) :
  sftp = a \/ sftp = b ->
  Forall (fun ev => exists d x, ev = listou sftp d x) l ->
  Forall (preparando a b) l.
Proof.
  intros Hs. apply Forall_impl. intros e (d & x & ->).
  right. right. exists d, x. destruct Hs as [->| ->]; auto.
Qed.

(** [main] of SFTP_Cliente1.py: it stops at a session that does not open,
    having only opened sessions and listed; otherwise it is the listing
    calls, the loop, and then the step that ships the log. *)
Lemma main1_seq `{OsPath} (cfg : Cliente1.cliente1JobConfig) (data_hoje : Z)
  (m : Cliente1.Mundo) (o : Oracle) :
  (exists h0,
     Forall (preparando sftp_dest sftp_orig) h0 /\
     Cliente1.main cfg data_hoje m o =
       ({| historico := h0; status := StatusContador_init |}, Raised))
  \/
  (exists h1,
     Forall (preparando sftp_dest sftp_orig) h1 /\
     Cliente1.main cfg data_hoje m o =
       enviar_log (Cliente1.destino_log_dir cfg) (Cliente1.log_path cfg)
         (Cliente1.log_filename cfg) o
         (fst (for_each
                 (Cliente1.processar cfg (Cliente1.snapshot_destino cfg data_hoje m))
                 (Dict.items (Cliente1.snapshot_origem cfg data_hoje m)) o
                 {| historico := h1; status := StatusContador_init |}))).
Proof.
  assert (Hc1 : forall r, preparando sftp_dest sftp_orig
                  {| chamada := Connection sftp_dest; resultado := r |}).
  { intros r. now left. }
  assert (Hc2 : forall r, preparando sftp_dest sftp_orig
                  {| chamada := Connection sftp_orig; resultado := r |}).
  { intros r. right. now left. }
  unfold Cliente1.main, Cliente1.main_job, with_connection.
  rewrite bind_run, bind_run, call__run. simpl historico.
  destruct (o [] (Connection sftp_dest)) as [b0|] eqn:E0; cbn [fst snd].
  2:{ left. eexists. split; [|reflexivity]. fecha_forall. }
  unfold Cliente1.listar_destino. rewrite bind_run.
  match goal with |- context [Cliente1.listar ?a ?b ?c ?d o ?s1] =>
    destruct (listar1_lista a b c d o s1) as (l1 & Hf1 & ->) end.
  cbn [fst snd]. rewrite bind_run.
  match goal with |- context [Cliente1.listar ?a ?b ?c ?d o ?s1] =>
    destruct (listar1_lista a b c d o s1) as (l2 & Hf2 & ->) end.
  cbn [fst snd ret historico status]. fold (Cliente1.snapshot_destino cfg data_hoje m).
  rewrite bind_run, bind_run, call__run. cbn [historico status].
  apply (preparando_lista sftp_dest sftp_orig) in Hf1, Hf2; auto.
  match goal with |- context [o ?h' (Connection sftp_orig)] => set (h := h') end.
  assert (Hh : Forall (preparando sftp_dest sftp_orig) h).
  { subst h. fecha_forall. }
  destruct (o h (Connection sftp_orig)) as [b1|] eqn:E1; cbn [fst snd].
  2:{ left. eexists. split; [|reflexivity]. subst h. fecha_forall. }
  rewrite bind_run.
  match goal with |- context [Cliente1.listar ?a ?b ?c ?d o ?s1] =>
    destruct (listar1_lista a b c d o s1) as (l3 & Hf3 & ->) end.
  cbn [fst snd historico status]. fold (Cliente1.snapshot_origem cfg data_hoje m).
  apply (preparando_lista sftp_dest sftp_orig) in Hf3; auto.
  right.
  match goal with |- context [for_each ?body ?xs o ?s1] =>
    set (s0 := s1);
    pose proof (for_each_completes body
                  (fun x o s => processar1_nao_levanta cfg _ x o s) xs o s0) as Hc
  end.
  rewrite Hc.
  exists (historico s0). split; [|reflexivity].
  subst s0 h. fecha_forall.
Qed.

Lemma main2_seq `{OsPath} (cfg : Cliente2.Cliente2JobConfig) (data_hoje : Z)
  (m : Cliente2.Mundo) (o : Oracle) :
  (exists h0,
     Forall (preparando sftp_pre sftp_rec) h0 /\
     Cliente2.main cfg data_hoje m o =
       ({| historico := h0; status := StatusContador_init |}, Raised))
  \/
  (exists h1,
     Forall (preparando sftp_pre sftp_rec) h1 /\
     Cliente2.main cfg data_hoje m o =
       enviar_log (Cliente2.destino_log_dir cfg) (Cliente2.log_path cfg)
         (Cliente2.log_filename cfg) o
         (fst (for_each
                 (Cliente2.processar cfg (Cliente2.snapshot_destino cfg data_hoje m))
                 (Dict.items (Cliente2.snapshot_origem cfg data_hoje m)) o
                 {| historico := h1; status := StatusContador_init |}))).
Proof.
  assert (Hc1 : forall r, preparando sftp_pre sftp_rec
                  {| chamada := Connection sftp_pre; resultado := r |}).
  { intros r. now left. }
  assert (Hc2 : forall r, preparando sftp_pre sftp_rec
                  {| chamada := Connection sftp_rec; resultado := r |}).
  { intros r. right. now left. }
  unfold Cliente2.main, Cliente2.main_job, with_connection.
  rewrite bind_run, bind_run, call__run. simpl historico.
  destruct (o [] (Connection sftp_pre)) as [b0|] eqn:E0; cbn [fst snd].
  2:{ left. eexists. split; [|reflexivity]. fecha_forall. }
  match goal with |- context [Cliente2.listar ?a ?b ?c ?d o ?s1] =>
    destruct (listar2_lista a b c d o s1) as (l1 & Hf1 & ->) end.
  cbn [fst snd ret historico status]. fold (Cliente2.snapshot_destino cfg data_hoje m).
  rewrite bind_run, bind_run, call__run. cbn [historico status].
  apply (preparando_lista sftp_pre sftp_rec) in Hf1; auto.
  match goal with |- context [o ?h' (Connection sftp_rec)] => set (h := h') end.
  assert (Hh : Forall (preparando sftp_pre sftp_rec) h).
  { subst h. fecha_forall. }
  destruct (o h (Connection sftp_rec)) as [b1|] eqn:E1; cbn [fst snd].
  2:{ left. eexists. split; [|reflexivity]. subst h. fecha_forall. }
  rewrite bind_run.
  match goal with |- context [Cliente2.listar ?a ?b ?c ?d o ?s1] =>
    destruct (listar2_lista a b c d o s1) as (l3 & Hf3 & ->) end.
  cbn [fst snd historico status]. fold (Cliente2.snapshot_origem cfg data_hoje m).
  apply (preparando_lista sftp_pre sftp_rec) in Hf3; auto.
  right.
  match goal with |- context [for_each ?body ?xs o ?s1] =>
    set (s0 := s1);
    pose proof (for_each_completes body
                  (fun x o s => processar2_nao_levanta cfg _ x o s) xs o s0) as Hc
  end.
  rewrite Hc.
  exists (historico s0). split; [|reflexivity].
  subst s0 h. fecha_forall.
Qed.

(** The step that ships the log: its session, then the probes of
    [ensure_remote_dirs], then [chdir] and [put]; it stops at the first
    call that raises, and neither raises nor counts. *)
Lemma enviar_log_forma (d lp lf : string) (o : Oracle) (s : Estado) :
  exists r le resto,
    historico (fst (enviar_log d lp lf o s)) =
      historico s ++ {| chamada := Connection sftp_log; resultado := r |}
                     :: le ++ resto /\
    status (fst (enviar_log d lp lf o s)) = status s /\
    snd (enviar_log d lp lf o s) = Ok tt /\
    Forall (fun e => sonda sftp_log (chamada e)) le /\
    (resto = [] \/
     r <> Levanta /\ existsb falhou le = false /\
     segue (chamadas_do_log d lp lf) resto).
Proof.
  unfold enviar_log, try_except, with_connection, bind, chamadas_do_log.
  rewrite call__run.
  destruct (o (historico s) (Connection sftp_log)) as [b0|] eqn:E0; simpl.
  - match goal with |- context [ensure_remote_dirs ?f ?d o ?s1] =>
      destruct (ensure_remote_dirs_sondas f d o s1) as (l & Hh & Hs & Hr & Hf);
      destruct (ensure_remote_dirs f d o s1) as [s2 r2] end.
    simpl in *. subst r2.
    destruct (existsb falhou l) eqn:Ef.
    + exists (Retorna b0), l, []. simpl. rewrite Hh, Hs, <- app_assoc, app_nil_r.
      simpl. auto 10.
    + rewrite call__run. rewrite Hh, Hs.
      destruct (o _ (sftp_chdir sftp_log d)) as [b2|] eqn:E2; simpl.
      * rewrite call__run. simpl.
        destruct (o _ (sftp_put sftp_log lp lf)) as [b3|] eqn:E3; simpl;
          eexists (Retorna b0), l, [_; _]; rewrite <- !app_assoc; simpl;
          (split; [reflexivity|]); (split; [reflexivity|]);
          (split; [reflexivity|]); (split; [exact Hf|]); right;
          (split; [discriminate|]); (split; [exact Ef|]);
          repeat constructor.
      * eexists (Retorna b0), l, [_]; rewrite <- !app_assoc; simpl;
          (split; [reflexivity|]); (split; [reflexivity|]);
          (split; [reflexivity|]); (split; [exact Hf|]); right;
          (split; [discriminate|]); (split; [exact Ef|]);
          repeat constructor.
  - exists Levanta, [], []. simpl. auto 10.
Qed.

Lemma remocao_conferida_app (l1 l2 : list Evento) :
  remocao_conferida l1 -> remocao_conferida l2 -> remocao_conferida (l1 ++ l2).
Proof.
  intros H1 H2 sx q r Hin. apply in_app_or in Hin. apply in_or_app.
  destruct Hin as [Hin|Hin]; [left; eapply H1|right; eapply H2]; eauto.
Qed.

Lemma remocao_conferida_sem (l : list Evento) :
  (forall e, In e l -> forall sx q, chamada e <> sftp_remove sx q) ->
  remocao_conferida l.
Proof.
  intros Hn sx q r Hin. exfalso. apply (Hn _ Hin sx q). reflexivity.
Qed.

(** The three runs of calls of one entry are calls it may make. *)
Lemma partes_previsto (d : Decisao) (p local_temp : string) (plano : list Call)
  (lr lb lp : list Evento) :
  d <> Skip ->
  (if is_replace d
   then Forall (fun e => In (chamada e) (chamadas_de_remocao p)) lr /\
        (forall r, In {| chamada := sftp_remove sftp_rm p; resultado := r |} lr ->
           In {| chamada := sftp_exists sftp_rm p; resultado := Retorna true |} lr)
   else lr = []) ->
  (forall e, In e lb -> In (chamada e) plano) ->
  (forall sx q, ~ In (sftp_remove sx q) plano) ->
  (lp = [] \/ envio_de local_temp p lp) ->
  Forall (fun e => previsto d p local_temp plano (chamada e)) (lr ++ lb ++ lp) /\
  remocao_conferida (lr ++ lb ++ lp).
Proof.
  intros Hd Hr Hb Hplano Hp.
  assert (Hlr : Forall (fun e => previsto d p local_temp plano (chamada e)) lr /\
                remocao_conferida lr).
  { destruct d; simpl in Hr; try (subst lr; split; [constructor|intros ? ? ? []]).
    destruct Hr as [Hf Hg]. split.
    - eapply Forall_impl; [|exact Hf]. intros e He. split; [exact Hd|]. left. auto.
    - intros sx q r Hin.
      pose proof (proj1 (Forall_forall _ _) Hf _ Hin) as Hc. simpl in Hc.
      destruct Hc as [Hc|[Hc|[Hc|[]]]]; try discriminate.
      injection Hc as <- <-. now apply (Hg r). }
  assert (Hlb : Forall (fun e => previsto d p local_temp plano (chamada e)) lb /\
                remocao_conferida lb).
  { split.
    - apply Forall_forall. intros e He. split; [exact Hd|]. right. left. auto.
    - apply remocao_conferida_sem. intros e He sx q Hc.
      apply (Hplano sx q). rewrite <- Hc. auto. }
  assert (Hlp : Forall (fun e => previsto d p local_temp plano (chamada e)) lp /\
                remocao_conferida lp).
  { destruct Hp as [->|(Hf & _)]; [split; [constructor|intros ? ? ? []]|].
    split.
    - eapply Forall_impl; [|exact Hf]. intros e He. split; [exact Hd|].
      right. right. exact He.
    - apply remocao_conferida_sem. intros e He sx q Hc.
      pose proof (proj1 (Forall_forall _ _) Hf _ He) as Hx. cbv beta in Hx.
      rewrite Hc in Hx.
      destruct Hx as [[Hx|[Hx|[]]]|(q' & [Hx|Hx])]; discriminate. }
  split.
  - repeat (apply Forall_app; split); tauto.
  - repeat apply remocao_conferida_app; tauto.
Qed.

Lemma processar1_previsto `{OsPath} (cfg : Cliente1.cliente1JobConfig)
  (dest : Dict.t dados) (item : string * dados) (o : Oracle) (s : Estado) :
  let local_temp :=
    path_join (Cliente1.temp_dir cfg) (Cliente1.rel_path_de cfg (fst item)) in
  exists l,
    historico (fst (Cliente1.processar cfg dest item o s)) = historico s ++ l /\
    Forall (fun e =>
              previsto (decisao dest (Cliente1.rel_path_de cfg (fst item)) (snd item))
                (Cliente1.destino_path_de cfg (fst item)) local_temp
                (plano1 (fst item) local_temp) (chamada e)) l /\
    remocao_conferida l.
Proof.
  intros local_temp.
  destruct (processar1_partes cfg dest item o s)
    as (lr & lb & lp & Hh & _ & _ & Hd).
  fold local_temp in Hd.
  exists (lr ++ lb ++ lp). split; [exact Hh|].
  destruct (decisao dest (Cliente1.rel_path_de cfg (fst item)) (snd item)) eqn:Ed.
  - destruct Hd as (-> & -> & ->). split; [constructor|intros ? ? ? []].
  - destruct Hd as (Hr & Hb & Hp).
    apply partes_previsto; auto; try discriminate.
    + apply (segue_In _ _ Hb).
    + intros sx q [Hx|[Hx|[]]]; discriminate.
    + destruct (existsb falhou lb); auto.
  - destruct Hd as (Hr & Hb & Hp).
    apply partes_previsto; auto; try discriminate.
    + apply (segue_In _ _ Hb).
    + intros sx q [Hx|[Hx|[]]]; discriminate.
    + destruct (existsb falhou lb); auto.
Qed.

Lemma processar2_previsto `{OsPath} (cfg : Cliente2.Cliente2JobConfig)
  (dest : Dict.t dados) (item : string * dados) (o : Oracle) (s : Estado) :
  let rel_path := Cliente2.rel_path_de cfg (fst item) in
  let local_temp := path_join (Cliente2.temp_dir cfg) rel_path in
  exists l,
    historico (fst (Cliente2.processar cfg dest item o s)) = historico s ++ l /\
    Forall (fun e =>
              previsto (decisao dest (Cliente2.caminho_dest_de cfg (fst item)) (snd item))
                (Cliente2.caminho_dest_de cfg (fst item)) local_temp
                (plano2 cfg (fst item) rel_path local_temp) (chamada e)) l /\
    remocao_conferida l.
Proof.
  intros rel_path local_temp.
  destruct (processar2_partes cfg dest item o s)
    as (lr & lb & lp & Hh & _ & _ & Hd).
  fold rel_path local_temp in Hd.
  assert (Hplano : forall sx q,
            ~ In (sftp_remove sx q) (plano2 cfg (fst item) rel_path local_temp)).
  { intros sx q. unfold plano2.
    destruct (Cliente2.keep_extra_local_copy cfg); simpl; intuition discriminate. }
  exists (lr ++ lb ++ lp). split; [exact Hh|].
  destruct (decisao dest (Cliente2.caminho_dest_de cfg (fst item)) (snd item)) eqn:Ed.
  - destruct Hd as (-> & -> & ->). split; [constructor|intros ? ? ? []].
  - destruct Hd as (Hr & Hb & Hp).
    apply partes_previsto; auto; try discriminate.
    + apply (segue_In _ _ Hb).
    + destruct (existsb falhou lb); auto.
  - destruct Hd as (Hr & Hb & Hp).
    apply partes_previsto; auto; try discriminate.
    + apply (segue_In _ _ Hb).
    + destruct (existsb falhou lb); auto.
Qed.

Lemma preparando_sem_remocao (a b : Sessao) (l : list Evento) :
  Forall (preparando a b) l -> remocao_conferida l.
Proof.
  intros Hf. apply remocao_conferida_sem. intros e He sx q Hc.
  pose proof (proj1 (Forall_forall _ _) Hf _ He) as Hx. unfold preparando in Hx.
  rewrite Hc in Hx.
  destruct Hx as [Hx|[Hx|(d & x & [Hx|Hx])]]; try discriminate;
    subst e; discriminate.
Qed.

(** The calls of a run of either script, given how its [main] unfolds and
    what its entries may call. *)
Lemma corrida_eventos {A} (a b : Sessao) (body : A -> Job unit) (xs : list A)
  (R : A -> Call -> Prop) (d lp lf : string) (o : Oracle)
  (res : Estado * Outcome unit) :
  ((exists h0,
      Forall (preparando a b) h0 /\
      res = ({| historico := h0; status := StatusContador_init |}, Raised)) \/
   (exists h1,
      Forall (preparando a b) h1 /\
      res = enviar_log d lp lf o
              (fst (for_each body xs o
                      {| historico := h1; status := StatusContador_init |})))) ->
  (forall x o s, exists l,
     historico (fst (body x o s)) = historico s ++ l /\
     Forall (fun e => R x (chamada e)) l /\
     remocao_conferida l) ->
  (forall e, In e (historico (fst res)) ->
     preparando a b e \/
     (exists x, In x xs /\ R x (chamada e)) \/
     chamada e = Connection sftp_log \/
     In (chamada e) (chamadas_do_log d lp lf) \/
     sonda sftp_log (chamada e)) /\
  remocao_conferida (historico (fst res)).
Proof.
  intros Hres Hbody. destruct Hres as [(h0 & Hf0 & ->)|(h1 & Hf1 & ->)].
  - simpl. split.
    + intros e He. left. apply (proj1 (Forall_forall _ _) Hf0 _ He).
    + apply (preparando_sem_remocao a b _ Hf0).
  - set (s0 := {| historico := h1; status := StatusContador_init |}).
    destruct (for_each_eventos body
                (fun l => Forall (fun e => exists x, In x xs /\ R x (chamada e)) l /\
                          remocao_conferida l) xs) with (o := o) (s := s0)
      as (ll & Hll & Hq & Hg).
    { split; [constructor|intros ? ? ? []]. }
    { intros l1 l2 [H1 G1] [H2 G2]. split.
      - apply Forall_app. auto.
      - now apply remocao_conferida_app. }
    { intros x Hx o' s'. destruct (Hbody x o' s') as (l & Hl & Hf & Hg).
      exists l. split; [exact Hl|]. split; [|exact Hg].
      eapply Forall_impl; [|exact Hf]. intros e He. now exists x. }
    destruct (enviar_log_forma d lp lf o (fst (for_each body xs o s0)))
      as (r & le & resto & Hh & _ & _ & Hle & Hresto).
    rewrite Hh, Hll. subst s0. cbn [historico].
    assert (Hlog : Forall (fun e => chamada e = Connection sftp_log \/
                                    In (chamada e) (chamadas_do_log d lp lf) \/
                                    sonda sftp_log (chamada e))
                     ({| chamada := Connection sftp_log; resultado := r |}
                      :: le ++ resto)).
    { constructor; [now left|]. apply Forall_app. split.
      - eapply Forall_impl; [|exact Hle]. intros e He. auto.
      - destruct Hresto as [->|(_ & _ & Hs)]; [constructor|].
        apply Forall_forall. intros e He. right. left.
        apply (segue_In _ _ Hs e He). }
    split.
    + intros e He. apply in_app_or in He. destruct He as [He|He].
      * apply in_app_or in He. destruct He as [He|He].
        -- left. apply (proj1 (Forall_forall _ _) Hf1 _ He).
        -- right. left. apply (proj1 (Forall_forall _ _) Hq _ He).
      * right. right. apply (proj1 (Forall_forall _ _) Hlog _ He).
    + apply remocao_conferida_app.
      * apply remocao_conferida_app; [|exact Hg].
        apply (preparando_sem_remocao a b _ Hf1).
      * apply remocao_conferida_sem. intros e He sx q Hc.
        pose proof (proj1 (Forall_forall _ _) Hlog _ He) as Hx. cbv beta in Hx.
        rewrite Hc in Hx. unfold chamadas_do_log in Hx.
        destruct Hx as [Hx|[[Hx|[Hx|[]]]|(q' & [Hx|Hx])]]; discriminate.
Qed.

(** X7. What a whole run may call, in both scripts, whatever the servers
    answer. Every call is one of: opening one of the two sessions of [main]
    or listing through it; a call of a source entry that is not skipped,
    namely the removal calls on its destination path if it is replaced,
    its staging calls, and its upload (the session, the probes of
    [ensure_remote_dirs], and the [put] of its staged file to its
    destination path); or a call of the step that ships the log. So a run
    removes nothing but destination paths of entries it replaces, and it
    removes a path only if [exists] answered true for it in the same run;
    it never removes or writes on a source server. *)
Theorem corrida_so_faz_o_previsto : forall (os : OsPath),
  (forall (cfg : Cliente1.cliente1JobConfig) (data_hoje : Z) (m : Cliente1.Mundo)
          (o : Oracle),
     let h := historico (fst (Cliente1.main cfg data_hoje m o)) in
     let dest := Cliente1.snapshot_destino cfg data_hoje m in
     (forall e, In e h ->
        preparando sftp_dest sftp_orig e \/
        (exists item,
           In item (Dict.items (Cliente1.snapshot_origem cfg data_hoje m)) /\
           let local_temp :=
             path_join (Cliente1.temp_dir cfg) (Cliente1.rel_path_de cfg (fst item)) in
           previsto (decisao dest (Cliente1.rel_path_de cfg (fst item)) (snd item))
             (Cliente1.destino_path_de cfg (fst item)) local_temp
             (plano1 (fst item) local_temp) (chamada e)) \/
        chamada e = Connection sftp_log \/
        In (chamada e)
          (chamadas_do_log (Cliente1.destino_log_dir cfg) (Cliente1.log_path cfg)
             (Cliente1.log_filename cfg)) \/
        sonda sftp_log (chamada e)) /\
     remocao_conferida h) /\
  (forall (cfg : Cliente2.Cliente2JobConfig) (data_hoje : Z) (m : Cliente2.Mundo)
          (o : Oracle),
     let h := historico (fst (Cliente2.main cfg data_hoje m o)) in
     let dest := Cliente2.snapshot_destino cfg data_hoje m in
     (forall e, In e h ->
        preparando sftp_pre sftp_rec e \/
        (exists item,
           In item (Dict.items (Cliente2.snapshot_origem cfg data_hoje m)) /\
           let rel_path := Cliente2.rel_path_de cfg (fst item) in
           let local_temp := path_join (Cliente2.temp_dir cfg) rel_path in
           previsto (decisao dest (Cliente2.caminho_dest_de cfg (fst item)) (snd item))
             (Cliente2.caminho_dest_de cfg (fst item)) local_temp
             (plano2 cfg (fst item) rel_path local_temp) (chamada e)) \/
        chamada e = Connection sftp_log \/
        In (chamada e)
          (chamadas_do_log (Cliente2.destino_log_dir cfg) (Cliente2.log_path cfg)
             (Cliente2.log_filename cfg)) \/
        sonda sftp_log (chamada e)) /\
     remocao_conferida h).
Proof.
  intros os. split.
  - intros cfg data_hoje m o h dest. subst h.
    apply (corrida_eventos sftp_dest sftp_orig
             (Cliente1.processar cfg dest)
             (Dict.items (Cliente1.snapshot_origem cfg data_hoje m))
             (fun item c =>
                let local_temp :=
                  path_join (Cliente1.temp_dir cfg)
                    (Cliente1.rel_path_de cfg (fst item)) in
                previsto (decisao dest (Cliente1.rel_path_de cfg (fst item)) (snd item))
                  (Cliente1.destino_path_de cfg (fst item)) local_temp
                  (plano1 (fst item) local_temp) c)
             _ _ _ o).
    + apply main1_seq.
    + intros x o' s'. apply processar1_previsto.
  - intros cfg data_hoje m o h dest. subst h.
    apply (corrida_eventos sftp_pre sftp_rec
             (Cliente2.processar cfg dest)
             (Dict.items (Cliente2.snapshot_origem cfg data_hoje m))
             (fun item c =>
                let rel_path := Cliente2.rel_path_de cfg (fst item) in
                let local_temp := path_join (Cliente2.temp_dir cfg) rel_path in
                previsto (decisao dest (Cliente2.caminho_dest_de cfg (fst item)) (snd item))
                  (Cliente2.caminho_dest_de cfg (fst item)) local_temp
                  (plano2 cfg (fst item) rel_path local_temp) c)
             _ _ _ o).
    + apply main2_seq.
    + intros x o' s'. apply processar2_previsto.
Qed.

(* ===================================================================== *)
(** ** Deliveries and counters, and the log at the end *)
(* ===================================================================== *)

Lemma filter_nenhum {A} (f : A -> bool) (l : list A) :
  (forall x, In x l -> f x = false) -> filter f l = [].
Proof.
  induction l as [|x l IH]; simpl; intros H; auto.
  rewrite (H x (or_introl eq_refl)). apply IH. intros y Hy. apply H. now right.
Qed.

Lemma entregue_chamada (e : Evento) :
  entregue e = true -> exists a b, chamada e = sftp_put sftp_envio a b.
Proof.
  unfold entregue. destruct e as [c r]. simpl.
  destruct c as [s|s ?|s ?|s ?|s ?|s ?|s ? ?|s a b|?]; try discriminate.
  destruct r; try discriminate. destruct s; try discriminate. intros _. eauto.
Qed.

Lemma sem_entrega (l : list Evento) :
  (forall e, In e l -> forall a b, chamada e <> sftp_put sftp_envio a b) ->
  filter entregue l = [].
Proof.
  intros H. apply filter_nenhum. intros e He.
  destruct (entregue e) eqn:E; [|reflexivity].
  destruct (entregue_chamada e E) as (a & b & Hc). now apply H in Hc.
Qed.

(** What one entry adds to the deliveries and to the counters. *)
Lemma partes_saldo (d : Decisao) (p local_temp : string) (plano : list Call)
  (lr lb lp : list Evento) (c : StatusContador) :
  match d with
  | Skip => lr = [] /\ lb = [] /\ lp = []
  | _ =>
      (if is_replace d
       then Forall (fun e => In (chamada e) (chamadas_de_remocao p)) lr /\
            (forall r, In {| chamada := sftp_remove sftp_rm p; resultado := r |} lr ->
               In {| chamada := sftp_exists sftp_rm p;
                     resultado := Retorna true |} lr)
       else lr = []) /\
      segue plano lb /\
      (if existsb falhou lb then lp = [] else envio_de local_temp p lp)
  end ->
  (forall a b, ~ In (sftp_put sftp_envio a b) plano) ->
  let c' := conta d lr lb lp c in
  length (filter entregue (lr ++ lb ++ lp)) + erros_download c' + erros_upload c' =
    erros_download c + erros_upload c + um_se (negb (is_skip d)) /\
  novos c' + reenviados c' = novos c + reenviados c + um_se (negb (is_skip d)) /\
  reenviados c' = reenviados c + um_se (is_replace d) /\
  erros_remocao c' <= erros_remocao c + um_se (is_replace d).
Proof.
  intros Hd Hplano c'.
  assert (Hlr : d <> Replace -> lr = []).
  { intros Hn. destruct d; [apply Hd|destruct Hd as (Hx & _); exact Hx|congruence]. }
  destruct (conta_campos d lr lb lp c Hlr) as (F1 & F2 & F3 & F4 & F5 & F6).
  fold c' in F1, F2, F3, F4, F5, F6.
  assert (Hn : length (filter entregue (lr ++ lb ++ lp)) + um_se (existsb falhou lb)
                 + um_se (existsb falhou lp) = um_se (negb (is_skip d))).
  { destruct d.
    - destruct Hd as (-> & -> & ->). reflexivity.
    - destruct Hd as (Hr & Hb & Hp). simpl in Hr. subst lr. simpl app.
      rewrite filter_app, (sem_entrega lb).
      2:{ intros e He a b Hc. apply (Hplano a b). rewrite <- Hc.
          apply (segue_In _ _ Hb e He). }
      cbn [app].
      destruct (existsb falhou lb); [subst lp; reflexivity|].
      destruct Hp as (_ & -> & _). simpl. destruct (existsb falhou lp); reflexivity.
    - destruct Hd as ((Hr & _) & Hb & Hp).
      rewrite !filter_app, (sem_entrega lr), (sem_entrega lb).
      2:{ intros e He a b Hc. apply (Hplano a b). rewrite <- Hc.
          apply (segue_In _ _ Hb e He). }
      2:{ intros e He a b Hc.
          pose proof (proj1 (Forall_forall _ _) Hr _ He) as Hx. cbv beta in Hx.
          rewrite Hc in Hx. destruct Hx as [Hx|[Hx|[Hx|[]]]]; discriminate. }
      cbn [app].
      destruct (existsb falhou lb); [subst lp; reflexivity|].
      destruct Hp as (_ & -> & _). simpl. destruct (existsb falhou lp); reflexivity. }
  assert (Hr : um_se (existsb falhou lr) <= um_se (is_replace d)).
  { destruct d; try (rewrite Hlr by discriminate; simpl; lia).
    simpl. destruct (existsb falhou lr); simpl; lia. }
  destruct d; simpl in *; repeat split; lia.
Qed.


Lemma saldo_passo (d : Decisao) (p local_temp : string) (plano : list Call)
  (lr lb lp : list Evento) (s s' : Estado) :
  match d with
  | Skip => lr = [] /\ lb = [] /\ lp = []
  | _ =>
      (if is_replace d
       then Forall (fun e => In (chamada e) (chamadas_de_remocao p)) lr /\
            (forall r, In {| chamada := sftp_remove sftp_rm p; resultado := r |} lr ->
               In {| chamada := sftp_exists sftp_rm p;
                     resultado := Retorna true |} lr)
       else lr = []) /\
      segue plano lb /\
      (if existsb falhou lb then lp = [] else envio_de local_temp p lp)
  end ->
  (forall a b, ~ In (sftp_put sftp_envio a b) plano) ->
  historico s' = historico s ++ lr ++ lb ++ lp ->
  status s' = conta d lr lb lp (status s) ->
  saldo_certo s -> saldo_certo s'.
Proof.
  intros Hd Hplano Hh Hs [I1 I2]. unfold saldo_certo.
  destruct (partes_saldo d p local_temp plano lr lb lp (status s) Hd Hplano)
    as (S1 & S2 & S3 & S4).
  rewrite Hh, Hs, filter_app, length_app. split; lia.
Qed.

Lemma processar1_saldo `{OsPath} (cfg : Cliente1.cliente1JobConfig)
  (dest : Dict.t dados) (item : string * dados) (o : Oracle) (s : Estado) :
  saldo_certo s -> saldo_certo (fst (Cliente1.processar cfg dest item o s)).
Proof.
  destruct (processar1_partes cfg dest item o s)
    as (lr & lb & lp & Hh & Hs & _ & Hd).
  eapply saldo_passo; eauto.
  intros a b [Hx|[Hx|[]]]; discriminate.
Qed.

Lemma processar2_saldo `{OsPath} (cfg : Cliente2.Cliente2JobConfig)
  (dest : Dict.t dados) (item : string * dados) (o : Oracle) (s : Estado) :
  saldo_certo s -> saldo_certo (fst (Cliente2.processar cfg dest item o s)).
Proof.
  destruct (processar2_partes cfg dest item o s)
    as (lr & lb & lp & Hh & Hs & _ & Hd).
  eapply saldo_passo; eauto.
  intros a b. unfold plano2.
  destruct (Cliente2.keep_extra_local_copy cfg); simpl; intuition discriminate.
Qed.

Lemma for_each_preserva {A} (body : A -> Job unit) (Q : Estado -> Prop) :
  (forall x o s, Q s -> Q (fst (body x o s))) ->
  forall xs o s, Q s -> Q (fst (for_each body xs o s)).
Proof.
  intros Hb xs o. induction xs as [|x xs IH]; intros s HQ; simpl; auto.
  specialize (Hb x o s HQ). destruct (body x o s) as [s' [[]| |]]; simpl in *; auto.
Qed.

Lemma preparando_sem_entrega (a b : Sessao) (l : list Evento) :
  Forall (preparando a b) l -> filter entregue l = [].
Proof.
  intros Hf. apply sem_entrega. intros e He x y Hc.
  pose proof (proj1 (Forall_forall _ _) Hf _ He) as Hx. unfold preparando in Hx.
  rewrite Hc in Hx.
  destruct Hx as [Hx|[Hx|(d & z & [Hx|Hx])]]; try discriminate;
    subst e; discriminate.
Qed.

Lemma corrida_saldo {A} (a b : Sessao) (body : A -> Job unit) (xs : list A)
  (d lp lf : string) (o : Oracle) (res : Estado * Outcome unit) :
  ((exists h0,
      Forall (preparando a b) h0 /\
      res = ({| historico := h0; status := StatusContador_init |}, Raised)) \/
   (exists h1,
      Forall (preparando a b) h1 /\
      res = enviar_log d lp lf o
              (fst (for_each body xs o
                      {| historico := h1; status := StatusContador_init |})))) ->
  (forall x o s, saldo_certo s -> saldo_certo (fst (body x o s))) ->
  saldo_certo (fst res).
Proof.
  intros Hres Hbody.
  assert (H0 : forall h, Forall (preparando a b) h ->
                 saldo_certo {| historico := h; status := StatusContador_init |}).
  { intros h Hh. unfold saldo_certo. simpl.
    rewrite (preparando_sem_entrega a b h Hh). simpl. lia. }
  destruct Hres as [(h0 & Hf0 & ->)|(h1 & Hf1 & ->)].
  - apply H0, Hf0.
  - pose proof (for_each_preserva body saldo_certo Hbody xs o _ (H0 h1 Hf1)) as Hl.
    destruct (enviar_log_forma d lp lf o
                (fst (for_each body xs o
                        {| historico := h1; status := StatusContador_init |})))
      as (r & le & resto & Hh & Hs & _ & Hle & Hresto).
    unfold saldo_certo in *. rewrite Hh, Hs, filter_app, length_app.
    rewrite (sem_entrega (_ :: le ++ resto)); [simpl; lia|].
    intros e He x y Hc. destruct He as [<-|He]; [discriminate|].
    apply in_app_or in He. destruct He as [He|He].
    + pose proof (proj1 (Forall_forall _ _) Hle _ He) as Hx. cbv beta in Hx.
      rewrite Hc in Hx. destruct Hx as (q & [Hx|Hx]); discriminate.
    + destruct Hresto as [->|(_ & _ & Hsg)]; [contradiction|].
      pose proof (segue_In _ _ Hsg e He) as Hx. rewrite Hc in Hx.
      unfold chamadas_do_log in Hx. destruct Hx as [Hx|[Hx|[]]]; discriminate.
Qed.

(** X8. The counters of a run agree with what it delivered, in both
    scripts and whatever the servers answer, also when the run is aborted:
    the number of [put] calls through [sftp_envio] that returned, plus
    [erros_download] plus [erros_upload], is [novos] plus [reenviados];
    and [erros_remocao] is at most [reenviados]. So [novos + reenviados]
    counts the entries decided for transfer, not the files delivered. *)
Theorem entregas_conferem_com_os_contadores : forall (os : OsPath),
  (forall (cfg : Cliente1.cliente1JobConfig) (data_hoje : Z) (m : Cliente1.Mundo)
          (o : Oracle),
     let r := Cliente1.main cfg data_hoje m o in
     length (filter entregue (historico (fst r)))
     + erros_download (status (fst r)) + erros_upload (status (fst r)) =
       novos (status (fst r)) + reenviados (status (fst r)) /\
     erros_remocao (status (fst r)) <= reenviados (status (fst r))) /\
  (forall (cfg : Cliente2.Cliente2JobConfig) (data_hoje : Z) (m : Cliente2.Mundo)
          (o : Oracle),
     let r := Cliente2.main cfg data_hoje m o in
     length (filter entregue (historico (fst r)))
     + erros_download (status (fst r)) + erros_upload (status (fst r)) =
       novos (status (fst r)) + reenviados (status (fst r)) /\
     erros_remocao (status (fst r)) <= reenviados (status (fst r))).
Proof.
  intros os. split; intros cfg data_hoje m o r; subst r.
  - apply (corrida_saldo sftp_dest sftp_orig
             (Cliente1.processar cfg (Cliente1.snapshot_destino cfg data_hoje m))
             (Dict.items (Cliente1.snapshot_origem cfg data_hoje m))
             (Cliente1.destino_log_dir cfg) (Cliente1.log_path cfg)
             (Cliente1.log_filename cfg) o).
    + apply main1_seq.
    + intros x o' s'. apply processar1_saldo.
  - apply (corrida_saldo sftp_pre sftp_rec
             (Cliente2.processar cfg (Cliente2.snapshot_destino cfg data_hoje m))
             (Dict.items (Cliente2.snapshot_origem cfg data_hoje m))
             (Cliente2.destino_log_dir cfg) (Cliente2.log_path cfg)
             (Cliente2.log_filename cfg) o).
    + apply main2_seq.
    + intros x o' s'. apply processar2_saldo.
Qed.

Lemma previsto_fora_do_log (d : Decisao) (p local_temp : string) (plano : list Call)
  (e : Evento) :
  (forall c, In c plano -> sessao_de c <> Some sftp_log) ->
  previsto d p local_temp plano (chamada e) -> fora_do_log e.
Proof.
  intros Hplano [_ Hp]. unfold fora_do_log.
  destruct Hp as [[_ Hp]|[Hp|[Hp|(q & [-> | ->])]]]; try discriminate.
  - destruct Hp as [<-|[<-|[<-|[]]]]; discriminate.
  - now apply Hplano.
  - destruct Hp as [<-|[<-|[]]]; discriminate.
Qed.

Lemma preparando_fora_do_log (a b : Sessao) (l : list Evento) :
  a <> sftp_log -> b <> sftp_log ->
  Forall (preparando a b) l -> Forall fora_do_log l.
Proof.
  intros Ha Hb. apply Forall_impl. intros e He. unfold fora_do_log.
  destruct He as [->|[->|(d & x & [->| ->])]]; simpl; congruence.
Qed.

Lemma corrida_registro {A} (a b : Sessao) (body : A -> Job unit) (xs : list A)
  (d lp lf : string) (o : Oracle) (res : Estado * Outcome unit) :
  a <> sftp_log -> b <> sftp_log ->
  ((exists h0,
      Forall (preparando a b) h0 /\
      res = ({| historico := h0; status := StatusContador_init |}, Raised)) \/
   (exists h1,
      Forall (preparando a b) h1 /\
      res = enviar_log d lp lf o
              (fst (for_each body xs o
                      {| historico := h1; status := StatusContador_init |})))) ->
  (forall x o s, exists l,
     historico (fst (body x o s)) = historico s ++ l /\ Forall fora_do_log l) ->
  (snd res = Raised /\ Forall fora_do_log (historico (fst res))) \/
  (snd res = Ok tt /\
   exists h1 ll,
     let sl := fst (for_each body xs o
                      {| historico := h1; status := StatusContador_init |}) in
     historico (fst res) = historico sl ++ ll /\
     status (fst res) = status sl /\
     Forall fora_do_log (historico sl) /\
     bloco_remoto sftp_log d (chamadas_do_log d lp lf) ll).
Proof.
  intros Ha Hb Hres Hbody. destruct Hres as [(h0 & Hf0 & ->)|(h1 & Hf1 & ->)].
  - left. split; [reflexivity|]. apply (preparando_fora_do_log a b); auto.
  - right.
    set (s0 := {| historico := h1; status := StatusContador_init |}).
    destruct (for_each_eventos body (Forall fora_do_log) xs) with (o := o) (s := s0)
      as (ll & Hll & Hq).
    { constructor. }
    { intros l1 l2 H1 H2. apply Forall_app. auto. }
    { intros x _ o' s'. apply Hbody. }
    destruct (enviar_log_exato d lp lf o (fst (for_each body xs o s0)))
      as (l & Hh & Hs & Hr & Hl).
    split; [exact Hr|].
    exists h1, l. fold s0. cbv zeta.
    split; [exact Hh|]. split; [exact Hs|]. split; [|exact Hl].
    rewrite Hll. apply Forall_app. split; [|exact Hq].
    apply (preparando_fora_do_log a b); auto.
Qed.

(** X9. The log is shipped last, and only by a run that was not aborted,
    in both scripts. A run ends either by an exception, and then no call
    went through [sftp_log]; or normally, and then its calls are those up
    to the end of the loop, none through [sftp_log], followed by the step
    that ships the log, which is exactly this: the session [sftp_log] is
    opened; if it opens, [ensure_remote_dirs] probes the log directory and,
    when the answer is false, probes and makes its parts one by one; if
    none of these calls raises, [chdir] to the log directory and then the
    [put] of the log file under its bare name are called, the [put] only if
    [chdir] returned. Nothing else is called, and nothing is left out short
    of a call that raises. Whatever these calls answer, the run still ends
    normally and its counters are those at the end of the loop. *)
Theorem registro_so_no_fim : forall (os : OsPath),
  (forall (cfg : Cliente1.cliente1JobConfig) (data_hoje : Z) (m : Cliente1.Mundo)
          (o : Oracle),
     let res := Cliente1.main cfg data_hoje m o in
     (snd res = Raised /\ Forall fora_do_log (historico (fst res))) \/
     (snd res = Ok tt /\
      exists h1 ll,
        let sl :=
          fst (for_each
                 (Cliente1.processar cfg (Cliente1.snapshot_destino cfg data_hoje m))
                 (Dict.items (Cliente1.snapshot_origem cfg data_hoje m)) o
                 {| historico := h1; status := StatusContador_init |}) in
        historico (fst res) = historico sl ++ ll /\
        status (fst res) = status sl /\
        Forall fora_do_log (historico sl) /\
        bloco_remoto sftp_log (Cliente1.destino_log_dir cfg)
          (chamadas_do_log (Cliente1.destino_log_dir cfg) (Cliente1.log_path cfg)
             (Cliente1.log_filename cfg)) ll)) /\
  (forall (cfg : Cliente2.Cliente2JobConfig) (data_hoje : Z) (m : Cliente2.Mundo)
          (o : Oracle),
     let res := Cliente2.main cfg data_hoje m o in
     (snd res = Raised /\ Forall fora_do_log (historico (fst res))) \/
     (snd res = Ok tt /\
      exists h1 ll,
        let sl :=
          fst (for_each
                 (Cliente2.processar cfg (Cliente2.snapshot_destino cfg data_hoje m))
                 (Dict.items (Cliente2.snapshot_origem cfg data_hoje m)) o
                 {| historico := h1; status := StatusContador_init |}) in
        historico (fst res) = historico sl ++ ll /\
        status (fst res) = status sl /\
        Forall fora_do_log (historico sl) /\
        bloco_remoto sftp_log (Cliente2.destino_log_dir cfg)
          (chamadas_do_log (Cliente2.destino_log_dir cfg) (Cliente2.log_path cfg)
             (Cliente2.log_filename cfg)) ll)).
Proof.
  intros os. split; intros cfg data_hoje m o res; subst res.
  - apply (corrida_registro sftp_dest sftp_orig); try discriminate.
    + apply main1_seq.
    + intros x o' s'.
      destruct (processar1_previsto cfg (Cliente1.snapshot_destino cfg data_hoje m)
                  x o' s') as (l & Hl & Hf & _).
      exists l. split; [exact Hl|].
      eapply Forall_impl; [|exact Hf]. intros e. apply previsto_fora_do_log.
      intros c [<-|[<-|[]]]; discriminate.
  - apply (corrida_registro sftp_pre sftp_rec); try discriminate.
    + apply main2_seq.
    + intros x o' s'.
      destruct (processar2_previsto cfg (Cliente2.snapshot_destino cfg data_hoje m)
                  x o' s') as (l & Hl & Hf & _).
      exists l. split; [exact Hl|].
      eapply Forall_impl; [|exact Hf]. intros e. apply previsto_fora_do_log.
      intros c. unfold plano2.
      destruct (Cliente2.keep_extra_local_copy cfg); simpl;
        intuition (subst; discriminate).
Qed.

(** In SFTP_Cliente2.py with [keep_extra_local_copy], the stale file is
    removed and the staging copy fetched, but the [get] of the extra copy
    raises: nothing is uploaded, and the entry counts as replaced and as a
    download error. *)
Example copia_extra_falha :
  let r := @Cliente2.main Cenario.os Cenario.cfg2 Cenario.hoje Cenario.mundo2_diferente
             (Cenario.falha_em Terreno.e_copia ["/dst/y.txt"%string; "/dst"%string]) in
  status (fst r) = inc_erros_download (inc_reenviados StatusContador_init) /\
  filter Cenario.e_staging (historico (fst r)) =
    [{| chamada := Connection sftp_rm; resultado := Retorna true |};
     {| chamada := sftp_exists sftp_rm "/dst/y.txt"; resultado := Retorna true |};
     {| chamada := sftp_remove sftp_rm "/dst/y.txt"; resultado := Retorna true |};
     {| chamada := local_mkdir "/job/CARGAS/cliente2"; resultado := Retorna true |};
     {| chamada := sftp_get sftp_rec "/src/y.txt" "/job/CARGAS/cliente2/y.txt";
        resultado := Retorna true |};
     {| chamada := local_mkdir "/job"; resultado := Retorna true |};
     {| chamada := sftp_get sftp_rec "/src/y.txt" "/job/y.txt";
        resultado := Levanta |}] /\
  filter entregue (historico (fst r)) = [].
Proof. vm_compute. repeat split; reflexivity. Qed.

(** The log of a run that completed: the directory is probed and made,
    entered, and the file is put under its bare name. *)
Example registro_enviado :
  let r := @Cliente1.main Cenario.os Cenario.cfg1 Cenario.hoje Cenario.mundo_igual
             (Cenario.responde ["/home"%string]) in
  snd r = Ok tt /\
  map chamada (filter (na_sessao sftp_log) (historico (fst r))) =
    [Connection sftp_log;
     sftp_exists sftp_log "/home/logs";
     sftp_exists sftp_log "/home";
     sftp_exists sftp_log "/home/logs";
     sftp_mkdir sftp_log "/home/logs";
     sftp_chdir sftp_log "/home/logs";
     sftp_put sftp_log "/job/logs/cliente1/run.log" "run.log"].
Proof. vm_compute. split; reflexivity. Qed.

(* ===================================================================== *)
(** ** The [.env] file and the environment *)
(* ===================================================================== *)

Section EnvFacts.
Context `{OsEnviron}.

Lemma load_linhas_cons (raw : string) (rest : list string) (env : Env.environ) :
  Env.load_linhas (raw :: rest) env =
    match Env.atribuicao raw with
    | None => Env.load_linhas rest env
    | Some (k, v) =>
        if snd (Env.setdefault env k v) then (fst (Env.setdefault env k v), true)
        else Env.load_linhas rest (fst (Env.setdefault env k v))
    end.
Proof.
  unfold Env.atribuicao. simpl.
  destruct (Str.is_empty (Texto.strip raw) || String.prefix "#" (Texto.strip raw)
            || negb (Str.contains "=" (Texto.strip raw))); [reflexivity|].
  destruct (Env.setdefault env _ _) as [env' raised]. reflexivity.
Qed.

Lemma atribuicoes_cons (raw : string) (rest : list string) :
  Env.atribuicoes (raw :: rest) =
    match Env.atribuicao raw with
    | Some kv => kv :: Env.atribuicoes rest
    | None => Env.atribuicoes rest
    end.
Proof.
  unfold Env.atribuicoes. simpl. destruct (Env.atribuicao raw); reflexivity.
Qed.

(** [setdefault] keeps what is set. *)
Lemma setdefault_get (env : Env.environ) (k v ek x : string) :
  Dict.get env ek = Some x ->
  Dict.get (fst (Env.setdefault env k v)) ek = Some x.
Proof.
  intros Hg. unfold Env.setdefault.
  destruct (Dict.mem env (encodekey k)) eqn:Em; [exact Hg|].
  destruct (putenv (encodekey k) v); [|exact Hg].
  simpl. rewrite get_set_neq; [exact Hg|].
  intros Heq. unfold Dict.mem in Em. rewrite Heq, Hg in Em. discriminate.
Qed.

Lemma load_linhas_get (ls : list string) :
  forall (env : Env.environ) (ek x : string),
    Dict.get env ek = Some x ->
    Dict.get (fst (Env.load_linhas ls env)) ek = Some x.
Proof.
  induction ls as [|raw rest IH]; intros env ek x Hg; [exact Hg|].
  rewrite load_linhas_cons.
  destruct (Env.atribuicao raw) as [[k v]|]; [|now apply IH].
  pose proof (setdefault_get env k v ek x Hg) as Hs.
  destruct (snd (Env.setdefault env k v)); [exact Hs|now apply IH].
Qed.

Lemma load_linhas_mem (ls : list string) (env : Env.environ) (ek : string) :
  Dict.mem env ek = true -> Dict.mem (fst (Env.load_linhas ls env)) ek = true.
Proof.
  unfold Dict.mem. destruct (Dict.get env ek) as [x|] eqn:Hg; [|discriminate].
  intros _. now rewrite (load_linhas_get ls env ek x Hg).
Qed.

Lemma setdefault_presente (env : Env.environ) (k v : string) :
  Dict.mem env (encodekey k) = true -> Env.setdefault env k v = (env, false).
Proof. intros Hm. unfold Env.setdefault. now rewrite Hm. Qed.

Lemma setdefault_levanta (env : Env.environ) (k v : string) :
  snd (Env.setdefault env k v) = true -> Env.setdefault env k v = (env, true).
Proof.
  unfold Env.setdefault. destruct (Dict.mem env (encodekey k)); [discriminate|].
  destruct (putenv (encodekey k) v); [discriminate|reflexivity].
Qed.

Lemma setdefault_define (env : Env.environ) (k v : string) :
  snd (Env.setdefault env k v) = false ->
  Dict.mem (fst (Env.setdefault env k v)) (encodekey k) = true.
Proof.
  unfold Env.setdefault. destruct (Dict.mem env (encodekey k)) eqn:Em; [auto|].
  destruct (putenv (encodekey k) v); [|discriminate].
  intros _. simpl. rewrite mem_set, String_eqb_refl. reflexivity.
Qed.

(** Loading the same lines again changes nothing, and ends as the first
    time. *)
Lemma load_linhas_de_novo (ls : list string) :
  forall env : Env.environ,
    Env.load_linhas ls (fst (Env.load_linhas ls env)) = Env.load_linhas ls env.
Proof.
  induction ls as [|raw rest IH]; intros env; [reflexivity|].
  rewrite (load_linhas_cons raw rest (fst _)), (load_linhas_cons raw rest env).
  destruct (Env.atribuicao raw) as [[k v]|] eqn:Ea; [|apply IH].
  destruct (snd (Env.setdefault env k v)) eqn:Er.
  - rewrite (setdefault_levanta env k v Er). cbn [fst snd].
    now rewrite (setdefault_levanta env k v Er).
  - pose proof (setdefault_define env k v Er) as Hm.
    apply (load_linhas_mem rest) in Hm.
    rewrite (setdefault_presente _ k v Hm). cbn [fst snd]. apply IH.
Qed.

(** After a load that did not raise, a variable has the value it had, or
    else the first one the file assigns to it. *)
Lemma load_linhas_primeira (ls : list string) :
  forall (env : Env.environ) (name : string),
    snd (Env.load_linhas ls env) = false ->
    Dict.get (fst (Env.load_linhas ls env)) (encodekey name) =
      match Dict.get env (encodekey name) with
      | Some x => Some x
      | None => Env.primeira ls name
      end.
Proof.
  induction ls as [|raw rest IH]; intros env name Hr.
  - simpl. unfold Env.primeira. simpl. now destruct (Dict.get env (encodekey name)).
  - revert Hr. rewrite load_linhas_cons. unfold Env.primeira.
    rewrite atribuicoes_cons.
    destruct (Env.atribuicao raw) as [[k v]|] eqn:Ea.
    2:{ intros Hr. apply (IH env name Hr). }
    unfold Env.setdefault.
    destruct (Dict.mem env (encodekey k)) eqn:Em; simpl.
    + intros Hr. rewrite (IH env name Hr).
      destruct (Dict.get env (encodekey name)) as [x|] eqn:Hg; [reflexivity|].
      destruct (String.eqb (encodekey k) (encodekey name)) eqn:Ek; [|reflexivity].
      apply String.eqb_eq in Ek. unfold Dict.mem in Em. rewrite Ek, Hg in Em.
      discriminate.
    + destruct (putenv (encodekey k) v) eqn:Ep; simpl; [|discriminate].
      intros Hr. rewrite (IH _ name Hr).
      destruct (String.eqb (encodekey k) (encodekey name)) eqn:Ek.
      * apply String.eqb_eq in Ek. rewrite <- Ek, get_set_eq.
        unfold Dict.mem in Em. destruct (Dict.get env (encodekey k)); [discriminate|].
        reflexivity.
      * apply String.eqb_neq in Ek. rewrite get_set_neq by exact Ek. reflexivity.
Qed.

End EnvFacts.

(** [strip] leaves nothing to strip. *)
Lemma rstrip_rstrip (s : string) : Texto.rstrip (Texto.rstrip s) = Texto.rstrip s.
Proof.
  induction s as [|a s IH]; [reflexivity|].
  simpl. destruct (Str.is_empty (Texto.rstrip s) && Texto.isspace a) eqn:E;
    [reflexivity|].
  simpl. rewrite IH, E. reflexivity.
Qed.

Lemma lstrip_cabeca (s : string) :
  Texto.lstrip s = EmptyString \/
  exists a t, Texto.lstrip s = String a t /\ Texto.isspace a = false.
Proof.
  induction s as [|a s IH]; [now left|].
  simpl. destruct (Texto.isspace a) eqn:E; [exact IH|].
  right. now exists a, s.
Qed.

Lemma strip_strip (s : string) : Texto.strip (Texto.strip s) = Texto.strip s.
Proof.
  unfold Texto.strip.
  destruct (lstrip_cabeca s) as [->|(a & t & -> & Ha)]; [reflexivity|].
  simpl. rewrite Ha, andb_false_r. simpl. rewrite Ha.
  rewrite <- (rstrip_rstrip t) at 2. simpl. now rewrite Ha, andb_false_r.
Qed.

Section CargaFacts.
Context `{OsEnviron}.

Lemma getenv_required_preenchido (env : Env.environ) (name v : string) :
  Env.getenv_required env name = Some v -> preenchido v.
Proof.
  unfold Env.getenv_required.
  destruct (Str.is_empty (Texto.strip (Env.getenv env name ""))) eqn:E;
    [discriminate|].
  intros Hv. injection Hv as <-. split.
  - intros Hx. rewrite Hx in E. discriminate.
  - apply strip_strip.
Qed.

Lemma getenv_opcional_preenchido (env : Env.environ) (name v : string) :
  Env.getenv_opcional env name = Some v -> preenchido v.
Proof. apply getenv_required_preenchido. Qed.

(** A variable that the process has set to a blank is missing, whatever
    the file assigns to it. *)
Lemma getenv_required_em_branco (env_file : arquivo_env) (env : Env.environ)
  (name v : string) :
  Dict.get env (encodekey name) = Some v ->
  Texto.strip v = EmptyString ->
  Env.getenv_required (fst (Env.load_env_file env_file env)) name = None.
Proof.
  intros Hg Hv. unfold Env.getenv_required, Env.getenv.
  assert (Hl : Dict.get (fst (Env.load_env_file env_file env)) (encodekey name)
               = Some v).
  { destruct env_file as [| |ls]; simpl; auto. now apply load_linhas_get. }
  rewrite Hl, Hv. reflexivity.
Qed.

End CargaFacts.

(** X10. [load_env_file] never changes a variable that the process has:
    whatever the file holds, and also when the load raises, a variable
    that was set keeps its value, a blank one too. *)
Theorem load_env_file_nao_sobrescreve :
  forall (amb : OsEnviron) (env_path : arquivo_env) (env : Env.environ)
         (name : string),
    Dict.mem env (encodekey name) = true ->
    forall default : string,
      Env.getenv (fst (Env.load_env_file env_path env)) name default =
      Env.getenv env name default.
Proof.
  intros amb env_path env name Hm default. unfold Env.getenv.
  unfold Dict.mem in Hm.
  destruct (Dict.get env (encodekey name)) as [x|] eqn:Hg; [|discriminate].
  destruct env_path as [| |ls]; simpl; rewrite ?Hg; auto.
  now rewrite (load_linhas_get ls env _ x Hg).
Qed.

(** The process has [CLIENTE1_SFTP_PASS] set to a blank; the file assigns
    it, and it stays blank. *)
Lemma load_env_file_nao_sobrescreve_witness :
  Env.getenv (H := Terreno.posix_environ)
    (fst (Env.load_env_file (H := Terreno.posix_environ)
            (Linhas Terreno.dotenv) Terreno.ambiente))
    "CLIENTE1_SFTP_PASS" "" = " ".
Proof.
  apply (load_env_file_nao_sobrescreve Terreno.posix_environ
           (Linhas Terreno.dotenv) Terreno.ambiente "CLIENTE1_SFTP_PASS").
  reflexivity.
Defined.

(** X11. After a [load_env_file] that did not raise, every variable has
    the value the process had for it, or else the one that the first line
    of the file assigning it gives, or else none: later assignments to the
    same variable, blank lines, lines starting with [#] and lines without
    [=] change nothing. A line assigns the text before its first [=] to
    the text after it, both stripped of spaces, the value then of double
    quotes and then of single quotes at its ends. *)
Theorem load_env_file_primeira_atribuicao :
  forall (amb : OsEnviron) (ls : list string) (env : Env.environ)
         (name default : string),
    snd (Env.load_env_file (Linhas ls) env) = false ->
    Env.getenv (fst (Env.load_env_file (Linhas ls) env)) name default =
      match Dict.get env (encodekey name) with
      | Some x => x
      | None =>
          match Env.primeira ls name with
          | Some x => x
          | None => default
          end
      end.
Proof.
  intros amb ls env name default Hr. unfold Env.getenv. simpl in *.
  rewrite (load_linhas_primeira ls env name Hr).
  destruct (Dict.get env (encodekey name)); reflexivity.
Qed.

(** In the sample file the user is the first one assigned, without its
    quotes, and the host has lost the spaces around it. *)
Lemma load_env_file_primeira_atribuicao_witness :
  Env.getenv (H := Terreno.posix_environ)
    (fst (Env.load_env_file (H := Terreno.posix_environ)
            (Linhas Terreno.dotenv) Terreno.ambiente))
    "CLIENTE1_SFTP_USER" "" = "job" /\
  Env.getenv (H := Terreno.posix_environ)
    (fst (Env.load_env_file (H := Terreno.posix_environ)
            (Linhas Terreno.dotenv) Terreno.ambiente))
    "CLIENTE1_SFTP_HOST" "" = "src.example.org".
Proof.
  split.
  - apply (load_env_file_primeira_atribuicao Terreno.posix_environ
             Terreno.dotenv Terreno.ambiente "CLIENTE1_SFTP_USER" "").
    reflexivity.
  - apply (load_env_file_primeira_atribuicao Terreno.posix_environ
             Terreno.dotenv Terreno.ambiente "CLIENTE1_SFTP_HOST" "").
    reflexivity.
Defined.

(** X12. Loading the same file a second time changes nothing: the
    environment after the second [load_env_file] is the one after the
    first, and the second raises exactly when the first did. *)
Theorem load_env_file_idempotente :
  forall (amb : OsEnviron) (env_path : arquivo_env) (env : Env.environ),
    Env.load_env_file env_path (fst (Env.load_env_file env_path env)) =
    Env.load_env_file env_path env.
Proof.
  intros amb [| |ls] env; simpl; try reflexivity. apply load_linhas_de_novo.
Qed.

Example atribuicao_com_espacos :
  Env.atribuicao "  CLIENTE1_SFTP_HOST = src.example.org  " =
    Some ("CLIENTE1_SFTP_HOST", "src.example.org").
Proof. reflexivity. Qed.

Example atribuicao_comentario : Env.atribuicao "  # A=1" = None.
Proof. reflexivity. Qed.

Example atribuicao_export :
  Env.atribuicao "export A='1=2'" = Some ("export A", "1=2").
Proof. reflexivity. Qed.

Example load_env_file_amostra :
  Env.load_env_file (H := Terreno.posix_environ) (Linhas Terreno.dotenv)
    Terreno.ambiente =
    ([("HOME", "/root"); ("CLIENTE1_SFTP_PASS", " ");
      ("CLIENTE1_SFTP_HOST", "src.example.org"); ("CLIENTE1_SFTP_USER", "job")],
     false).
Proof. reflexivity. Qed.

(** A line whose key is empty makes [putenv] raise on POSIX, and the load
    stops there. *)
Example load_env_file_levanta :
  Env.load_env_file (H := Terreno.posix_environ)
    (Linhas ["A=1"; "=2"; "B=3"]) [] = ([("A", "1")], true).
Proof. reflexivity. Qed.

(* ===================================================================== *)
(** ** [load_job_config] *)
(* ===================================================================== *)

Ltac abre_carga :=
  repeat match goal with
         | |- e_entao ?m _ = Some _ -> _ =>
             let E := fresh "E" in
             destruct m eqn:E; cbn [e_entao]; [|discriminate]
         end.

(** X13. A configuration that [load_job_config] returns has every
    required text filled in: the hosts, users, passwords and directories
    are not blank and have no space around them, in both scripts; so is
    the known-hosts path when there is one. The destination root of
    SFTP_Cliente1.py is always [/]. *)
Theorem load_job_config_campos_preenchidos :
  forall (os : OsPath) (amb : OsEnviron) (int_de : string -> option Z)
         (base_dir dt_exec : string) (env_file : arquivo_env) (env : Env.environ),
  (forall cfg,
     Config1.load_job_config int_de base_dir dt_exec env_file env = Some cfg ->
     Forall preenchido
       [host (Cliente1.origem cfg); username (Cliente1.origem cfg);
        password (Cliente1.origem cfg); remote_dir (Cliente1.origem cfg);
        host (Cliente1.destino cfg); username (Cliente1.destino cfg);
        password (Cliente1.destino cfg); Cliente1.destino_uploads_dir cfg;
        Cliente1.destino_processados_dir cfg; Cliente1.destino_log_dir cfg] /\
     remote_dir (Cliente1.destino cfg) = "/" /\
     match Cliente1.known_hosts_path cfg with
     | Some p => preenchido p
     | None => True
     end) /\
  (forall cfg,
     Config2.load_job_config int_de base_dir dt_exec env_file env = Some cfg ->
     Forall preenchido
       [host (Cliente2.origem cfg); username (Cliente2.origem cfg);
        password (Cliente2.origem cfg); remote_dir (Cliente2.origem cfg);
        host (Cliente2.destino cfg); username (Cliente2.destino cfg);
        password (Cliente2.destino cfg); remote_dir (Cliente2.destino cfg);
        Cliente2.destino_log_dir cfg] /\
     match Cliente2.known_hosts_path cfg with
     | Some p => preenchido p
     | None => True
     end).
Proof.
  intros os amb int_de base_dir dt_exec env_file env. split; intros cfg.
  - unfold Config1.load_job_config.
    destruct (Env.load_env_file env_file env) as [env' [|]]; [discriminate|].
    cbv zeta. abre_carga. intros Hc. injection Hc as <-. simpl.
    split; [|split; [reflexivity|]].
    + repeat constructor; eapply getenv_required_preenchido; eassumption.
    + destruct (Env.getenv_opcional env' "SFTP_KNOWN_HOSTS") eqn:Ek; [|exact I].
      eapply getenv_opcional_preenchido; eassumption.
  - unfold Config2.load_job_config.
    destruct (Env.load_env_file env_file env) as [env' [|]]; [discriminate|].
    cbv zeta. abre_carga. intros Hc. injection Hc as <-. simpl.
    split.
    + repeat constructor; eapply getenv_required_preenchido; eassumption.
    + destruct (Env.getenv_opcional env' "SFTP_KNOWN_HOSTS") eqn:Ek; [|exact I].
      eapply getenv_opcional_preenchido; eassumption.
Qed.

Example load_job_config_amostra :
  Config1.load_job_config (H := Cenario.os) (H0 := Terreno.posix_environ)
    Terreno.sem_int "/job" "20240102_0304" (Linhas Terreno.dotenv_completo)
    [("HOME", "/root")] = Some Terreno.cfg_carregada.
Proof. reflexivity. Qed.

(** The configuration loaded from the sample file. *)
Lemma load_job_config_campos_preenchidos_witness :
  Forall preenchido
    [host (Cliente1.origem Terreno.cfg_carregada);
     username (Cliente1.origem Terreno.cfg_carregada);
     password (Cliente1.origem Terreno.cfg_carregada);
     remote_dir (Cliente1.origem Terreno.cfg_carregada);
     host (Cliente1.destino Terreno.cfg_carregada);
     username (Cliente1.destino Terreno.cfg_carregada);
     password (Cliente1.destino Terreno.cfg_carregada);
     Cliente1.destino_uploads_dir Terreno.cfg_carregada;
     Cliente1.destino_processados_dir Terreno.cfg_carregada;
     Cliente1.destino_log_dir Terreno.cfg_carregada] /\
  remote_dir (Cliente1.destino Terreno.cfg_carregada) = "/" /\
  match Cliente1.known_hosts_path Terreno.cfg_carregada with
  | Some p => preenchido p
  | None => True
  end.
Proof.
  apply (proj1 (load_job_config_campos_preenchidos Cenario.os Terreno.posix_environ
                  Terreno.sem_int "/job" "20240102_0304"
                  (Linhas Terreno.dotenv_completo) [("HOME", "/root")])).
  reflexivity.
Defined.

Ltac fecha_carga Hn :=
  repeat match goal with
         | |- e_entao ?m _ = None =>
             first [ rewrite Hn; reflexivity
                   | destruct m; [cbn [e_entao]|reflexivity] ]
         end.

(** X14. A required variable that the process has set to a blank is not
    supplied by the [.env] file: [load_job_config] raises, in both scripts,
    whatever the file assigns to it. *)
Theorem variavel_em_branco_nao_vem_do_env :
  forall (os : OsPath) (amb : OsEnviron) (int_de : string -> option Z)
         (base_dir dt_exec : string) (env_file : arquivo_env) (env : Env.environ)
         (name v : string),
    Dict.get env (encodekey name) = Some v ->
    Texto.strip v = EmptyString ->
    (In name Config1.obrigatorias ->
     Config1.load_job_config int_de base_dir dt_exec env_file env = None) /\
    (In name Config2.obrigatorias ->
     Config2.load_job_config int_de base_dir dt_exec env_file env = None).
Proof.
  intros os amb int_de base_dir dt_exec env_file env name v Hg Hv.
  pose proof (getenv_required_em_branco env_file env name v Hg Hv) as Hn.
  split; intros Hin.
  - unfold Config1.load_job_config.
    destruct (Env.load_env_file env_file env) as [env' [|]]; [reflexivity|].
    cbv zeta. simpl fst in Hn. unfold Config1.obrigatorias in Hin. simpl in Hin.
    repeat (destruct Hin as [<-|Hin]; [fecha_carga Hn|]). contradiction.
  - unfold Config2.load_job_config.
    destruct (Env.load_env_file env_file env) as [env' [|]]; [reflexivity|].
    cbv zeta. simpl fst in Hn. unfold Config2.obrigatorias in Hin. simpl in Hin.
    repeat (destruct Hin as [<-|Hin]; [fecha_carga Hn|]). contradiction.
Qed.

(** The file assigns the password, but the process has it set to a
    blank: the configuration is refused. *)
Lemma variavel_em_branco_nao_vem_do_env_witness :
  Config1.load_job_config (H := Cenario.os) (H0 := Terreno.posix_environ)
    Terreno.sem_int "/job" "20240102_0304" (Linhas Terreno.dotenv_completo)
    Terreno.ambiente = None.
Proof.
  apply (proj1 (variavel_em_branco_nao_vem_do_env Cenario.os Terreno.posix_environ
                  Terreno.sem_int "/job" "20240102_0304"
                  (Linhas Terreno.dotenv_completo) Terreno.ambiente
                  "CLIENTE1_SFTP_PASS" " " eq_refl eq_refl)).
  simpl. tauto.
Defined.

(* ===================================================================== *)
(** ** From a source path to its destination path and back to its key *)
(* ===================================================================== *)

Lemma append_String (a : ascii) (s t : string) :
  (String a s ++ t)%string = String a (s ++ t)%string.
Proof. reflexivity. Qed.

Lemma append_assoc (s t u : string) :
  ((s ++ t) ++ u)%string = (s ++ t ++ u)%string.
Proof.
  induction s as [|a s IH]; [reflexivity|].
  rewrite !append_String. now rewrite IH.
Qed.

Lemma length_append (s t : string) :
  String.length (s ++ t) = String.length s + String.length t.
Proof.
  induction s as [|a s IH]; [reflexivity|].
  rewrite append_String. simpl. now rewrite IH.
Qed.

Lemma prefix_vazio (s : string) : String.prefix "" s = true.
Proof. now destruct s. Qed.

Lemma prefix_de_si (S y : string) : String.prefix S (S ++ y) = true.
Proof.
  induction S as [|c S IH]; [apply prefix_vazio|].
  rewrite append_String. cbn [String.prefix].
  destruct (Ascii.ascii_dec c c); [exact IH|congruence].
Qed.

(** A prefix no longer than [x] is looked for in [x] alone. *)
Lemma prefix_app_longo (S : string) :
  forall x y : string,
    String.length S <= String.length x ->
    String.prefix S (x ++ y) = String.prefix S x.
Proof.
  induction S as [|c S IH]; intros x y Hl.
  - now rewrite !prefix_vazio.
  - destruct x as [|a x]; [simpl in Hl; lia|].
    rewrite append_String. cbn [String.prefix].
    destruct (Ascii.ascii_dec c a); [|reflexivity].
    apply IH. simpl in Hl. lia.
Qed.

Lemma contains_String (S : string) (a : ascii) (s : string) :
  Str.contains S (String a s) = String.prefix S (String a s) || Str.contains S s.
Proof. reflexivity. Qed.

Lemma contains_prefix (S s : string) :
  String.prefix S s = true -> Str.contains S s = true.
Proof. intros Hp. destruct s; cbn [Str.contains]; now rewrite Hp. Qed.

Lemma contains_no_meio (S x y : string) : Str.contains S (x ++ S ++ y) = true.
Proof.
  induction x as [|a x IH].
  - apply contains_prefix. exact (prefix_de_si S y).
  - rewrite append_String, contains_String, IH. apply orb_true_r.
Qed.

Lemma drop_append (S y : string) : Str.drop (String.length S) (S ++ y) = y.
Proof.
  induction S as [|c S IH]; [reflexivity|].
  rewrite append_String. simpl. exact IH.
Qed.

Lemma after_first_prefix (S s : string) :
  String.prefix S s = true -> Str.after_first S s = Str.drop (String.length S) s.
Proof. intros Hp. destruct s; cbn [Str.after_first]; now rewrite Hp. Qed.

(** When the separator [T ++ c] does not occur in [B ++ T], its first
    occurrence in [B ++ T ++ c ++ r] is the one written there. *)
Lemma after_first_no_fim (T : string) (c : ascii) (r : string) :
  forall B : string,
    Str.contains (T ++ String c "") (B ++ T) = false ->
    Str.after_first (T ++ String c "") (B ++ (T ++ String c "") ++ r) = r.
Proof.
  set (S := (T ++ String c "")%string).
  induction B as [|a B IH]; intros Hc.
  - change ("" ++ S ++ r)%string with (S ++ r)%string.
    rewrite after_first_prefix by apply prefix_de_si. apply drop_append.
  - rewrite append_String in Hc. rewrite contains_String in Hc.
    apply orb_false_iff in Hc. destruct Hc as [Hp Hc].
    rewrite append_String.
    assert (Hn : String.prefix S (String a (B ++ S ++ r)) = false).
    { rewrite <- Hp. rewrite <- !append_String. unfold S.
      rewrite (append_assoc T), <- (append_assoc (String a B) T).
      apply prefix_app_longo.
      rewrite !length_append. simpl. lia. }
    cbn [Str.after_first]. rewrite Hn. now apply IH.
Qed.

Lemma replace_go_sem (old new : string) (s : string) :
  Str.contains old s = false -> Str.replace_go old new 0 s = s.
Proof.
  induction s as [|a s IH]; intros Hc; [reflexivity|].
  rewrite contains_String in Hc. apply orb_false_iff in Hc.
  destruct Hc as [Hp Hc]. cbn [Str.replace_go]. rewrite Hp. now rewrite IH.
Qed.

(** Nothing to replace, nothing replaced. *)
Lemma replace_sem (old new s : string) :
  Str.is_empty old = false -> Str.contains old s = false ->
  Str.replace old new s = s.
Proof.
  intros He Hc. unfold Str.replace. rewrite He. now apply replace_go_sem.
Qed.

Lemma sem_contrabarra (x : string) :
  Str.contains "\" (Str.replace "\" "/" x) = false.
Proof.
  unfold Str.replace. cbn [Str.is_empty].
  induction x as [|a x IH]; [reflexivity|].
  cbn [Str.replace_go String.length Nat.sub].
  destruct (String.prefix "\" (String a x)) eqn:Hp.
  - change ("/" ++ Str.replace_go "\" "/" 0 x)%string
      with (String "/" (Str.replace_go "\" "/" 0 x)).
    rewrite contains_String, IH, orb_false_r. cbn [String.prefix].
    destruct (Ascii.ascii_dec "\" "/") as [E|]; [discriminate E|reflexivity].
  - rewrite contains_String, IH, orb_false_r.
    revert Hp. cbn [String.prefix].
    destruct (Ascii.ascii_dec "\" a); [|reflexivity].
    now rewrite !prefix_vazio.
Qed.

Lemma lstrip_sem (r : string) :
  String.prefix "/" r = false -> Str.lstrip "/" r = r.
Proof.
  destruct r as [|a r]; [reflexivity|]. cbn [String.prefix Str.lstrip].
  destruct (Ascii.ascii_dec "/" a) as [<-|Hn].
  - now rewrite prefix_vazio.
  - intros _. destruct (Ascii.eqb a "/") eqn:E; [|reflexivity].
    apply Ascii.eqb_eq in E. congruence.
Qed.

Lemma rstrip_append (c : ascii) (y : string) :
  Str.rstrip c y <> EmptyString ->
  forall x : string, Str.rstrip c (x ++ y) = (x ++ Str.rstrip c y)%string.
Proof.
  intros Hy. induction x as [|a x IH]; [reflexivity|].
  rewrite !append_String. cbn [Str.rstrip]. rewrite IH.
  destruct (x ++ Str.rstrip c y)%string as [|b t] eqn:E; [|reflexivity].
  destruct x; [|discriminate E]. now contradiction Hy.
Qed.

(** X16. What SFTP_Cliente1.py uploads it recognises afterwards. When the
    uploads root is [base/uploads], with no [/uploads/] inside it, and the
    relative path of a source file is relative indeed and joins to the
    root without a doubled slash, the file goes to [base/uploads/rel_path],
    and the key under which the destination listing files that very path
    is [rel_path], the key the loop looks up. *)
Theorem enviado_e_reconhecido :
  forall (os : OsPath) (cfg : Cliente1.cliente1JobConfig)
         (caminho_remoto base : string),
    Cliente1.destino_uploads_dir cfg = (base ++ "/uploads")%string ->
    Str.contains "/uploads/" (base ++ "/uploads") = false ->
    let rel_path := Cliente1.rel_path_de cfg caminho_remoto in
    String.prefix "/" rel_path = false ->
    Str.contains "//" (base ++ "/uploads/" ++ rel_path) = false ->
    Cliente1.destino_path_de cfg caminho_remoto =
      (base ++ "/uploads/" ++ rel_path)%string /\
    Cliente1.rel_de cfg (Cliente1.destino_path_de cfg caminho_remoto) = rel_path.
Proof.
  intros os cfg caminho_remoto base HU Hbase rel_path Hrel Hlimpo.
  assert (Hd : Cliente1.destino_path_de cfg caminho_remoto =
               (base ++ "/uploads/" ++ rel_path)%string).
  { unfold Cliente1.destino_path_de, junta. fold rel_path. rewrite HU.
    rewrite rstrip_append by discriminate.
    change (Str.rstrip "/" "/uploads") with "/uploads".
    rewrite append_assoc.
    change ("/uploads" ++ "/" ++ rel_path)%string
      with ("/uploads/" ++ rel_path)%string.
    now apply replace_sem. }
  split; [exact Hd|].
  rewrite Hd. unfold Cliente1.rel_de.
  rewrite (contains_no_meio "/uploads/" base rel_path).
  replace (Str.after_first "/uploads/" (base ++ "/uploads/" ++ rel_path))
    with rel_path
    by (symmetry; exact (after_first_no_fim "/uploads" "/" rel_path base Hbase)).
  rewrite (replace_sem "\" "/" rel_path); [now apply lstrip_sem|reflexivity|].
  apply sem_contrabarra.
Qed.

(** With the roots [/home/uploads] and [/src], the file [/src/a/b.txt]
    goes to [/home/uploads/a/b.txt] and is found again as [a/b.txt]. *)
Lemma enviado_e_reconhecido_witness :
  @Cliente1.destino_path_de Cenario.os Cenario.cfg1 "/src/a/b.txt" =
    "/home/uploads/a/b.txt" /\
  Cliente1.rel_de Cenario.cfg1
    (@Cliente1.destino_path_de Cenario.os Cenario.cfg1 "/src/a/b.txt") = "a/b.txt".
Proof.
  apply (enviado_e_reconhecido Cenario.os Cenario.cfg1 "/src/a/b.txt" "/home");
    reflexivity.
Defined.

(** The condition on the uploads root matters: with [/uploads/] inside
    the root, the key of the uploaded path is not the relative path. *)
Example raiz_com_uploads_no_meio :
  @Cliente1.rel_path_de Cenario.os Terreno.cfg_uploads_no_meio "/src/a/b.txt" =
    "a/b.txt" /\
  @Cliente1.destino_path_de Cenario.os Terreno.cfg_uploads_no_meio "/src/a/b.txt" =
    "/data/uploads/incoming/a/b.txt" /\
  Cliente1.rel_de Terreno.cfg_uploads_no_meio "/data/uploads/incoming/a/b.txt" =
    "incoming/a/b.txt".
Proof. repeat split; reflexivity. Qed.

(* ===================================================================== *)
(** ** The pipeline of one entry *)
(* ===================================================================== *)

(** C6. The calls of one iteration are those of the removal, then those
    of the staging, then those of the upload. For a replaced entry the
    removal is attempted: the session [sftp_rm] is opened; if it opens, the
    destination path is probed with [exists]; and if the probe answers
    true, [remove] is called on it; this is all the removal does, it is
    done before the first staging call, and a call of it that raises is
    counted as one removal error. Whatever the removal did, the staging
    calls of the download block follow, in order up to the first that
    raises; and when none of them raises the upload follows: its session,
    the calls of [ensure_remote_dirs] on the directory of the destination
    path, and the [put]. When a staging call raises, nothing goes through
    [sftp_envio] (no probe, no remote [mkdir], no [put]), one download
    error is counted, the iteration ends by [continue], and the loop goes
    on with the next entry. An entry that is not replaced makes no removal
    call. *)
Theorem remocao_antes_download_decide :
  forall (os : OsPath),
    (forall cfg dest item itens o s,
       let d := decisao dest (Cliente1.rel_path_de cfg (fst item)) (snd item) in
       let p := Cliente1.destino_path_de cfg (fst item) in
       let local_temp :=
         path_join (Cliente1.temp_dir cfg) (Cliente1.rel_path_de cfg (fst item)) in
       let r := Cliente1.processar cfg dest item o s in
       exists lr lb lp,
         historico (fst r) = historico s ++ lr ++ lb ++ lp /\
         (d = Skip -> lr = [] /\ lb = [] /\ lp = []) /\
         (d = Create -> lr = []) /\
         (d = Replace ->
          remocao_de p lr /\
          erros_remocao (status (fst r)) =
            erros_remocao (status s) + um_se (existsb falhou lr) /\
          reenviados (status (fst r)) = S (reenviados (status s))) /\
         (d <> Skip ->
          segue (plano1 (fst item) local_temp) lb /\
          (existsb falhou lb = true ->
           lp = [] /\
           existsb publicando (lr ++ lb ++ lp) = false /\
           erros_download (status (fst r)) = S (erros_download (status s)) /\
           snd r = Continue) /\
          (existsb falhou lb = false ->
           bloco_remoto sftp_envio (dirname p) [sftp_put sftp_envio local_temp p] lp /\
           erros_download (status (fst r)) = erros_download (status s) /\
           snd r = Ok tt)) /\
         for_each (Cliente1.processar cfg dest) (item :: itens) o s =
           for_each (Cliente1.processar cfg dest) itens o (fst r)) /\
    (forall cfg dest item itens o s,
       let d := decisao dest (Cliente2.caminho_dest_de cfg (fst item)) (snd item) in
       let p := Cliente2.caminho_dest_de cfg (fst item) in
       let rel_path := Cliente2.rel_path_de cfg (fst item) in
       let local_temp := path_join (Cliente2.temp_dir cfg) rel_path in
       let r := Cliente2.processar cfg dest item o s in
       exists lr lb lp,
         historico (fst r) = historico s ++ lr ++ lb ++ lp /\
         (d = Skip -> lr = [] /\ lb = [] /\ lp = []) /\
         (d = Create -> lr = []) /\
         (d = Replace ->
          remocao_de p lr /\
          erros_remocao (status (fst r)) =
            erros_remocao (status s) + um_se (existsb falhou lr) /\
          reenviados (status (fst r)) = S (reenviados (status s))) /\
         (d <> Skip ->
          segue (plano2 cfg (fst item) rel_path local_temp) lb /\
          (existsb falhou lb = true ->
           lp = [] /\
           existsb publicando (lr ++ lb ++ lp) = false /\
           erros_download (status (fst r)) = S (erros_download (status s)) /\
           snd r = Continue) /\
          (existsb falhou lb = false ->
           bloco_remoto sftp_envio (dirname p) [sftp_put sftp_envio local_temp p] lp /\
           erros_download (status (fst r)) = erros_download (status s) /\
           snd r = Ok tt)) /\
         for_each (Cliente2.processar cfg dest) (item :: itens) o s =
           for_each (Cliente2.processar cfg dest) itens o (fst r)).
Proof.
  intros os. split.
  - intros cfg dest item itens o s d p local_temp r.
    destruct (corpo_pipeline d p
                (Cliente1.baixar (fst item) local_temp) (enviar local_temp p)
                (plano1 (fst item) local_temp)
                (bloco_remoto sftp_envio (dirname p) [sftp_put sftp_envio local_temp p])
                o s)
      as (lr & lb & lp & Hh & H1 & H2 & H3 & H4).
    + apply plano1_fora_do_envio.
    + intros s1. apply baixar1_segue.
    + intros s1. apply enviar_exato.
    + exists lr, lb, lp.
      split; [exact Hh|]. split; [exact H1|]. split; [exact H2|].
      split; [exact H3|]. split; [exact H4|].
      apply for_each_cons, processar1_nao_levanta.
  - intros cfg dest item itens o s d p rel_path local_temp r.
    destruct (corpo_pipeline d p
                (Cliente2.baixar cfg (fst item) rel_path local_temp)
                (enviar local_temp p)
                (plano2 cfg (fst item) rel_path local_temp)
                (bloco_remoto sftp_envio (dirname p) [sftp_put sftp_envio local_temp p])
                o s)
      as (lr & lb & lp & Hh & H1 & H2 & H3 & H4).
    + apply plano2_fora_do_envio.
    + intros s1. apply baixar2_segue.
    + intros s1. apply enviar_exato.
    + exists lr, lb, lp.
      split; [exact Hh|]. split; [exact H1|]. split; [exact H2|].
      split; [exact H3|]. split; [exact H4|].
      apply for_each_cons, processar2_nao_levanta.
Qed.

(** A replaced file whose stale copy cannot be removed: the removal is
    attempted, with its session, its probe and its [remove], and its
    failure is counted; the file is staged and put all the same. *)
Lemma remocao_antes_download_decide_witness :
  let item := ("/src/y.txt"%string, {| tamanho := 20; data := 100 |}) in
  let dest := [("y.txt"%string, {| tamanho := 5; data := 100 |})] in
  let o := Cenario.falha_em Cenario.e_remove
             ["/home/uploads/y.txt"%string; "/home/uploads"%string] in
  let s := {| historico := []; status := StatusContador_init |} in
  let r := @Cliente1.processar Cenario.os Cenario.cfg1 dest item o s in
  historico (fst r) =
    [{| chamada := Connection sftp_rm; resultado := Retorna true |};
     {| chamada := sftp_exists sftp_rm "/home/uploads/y.txt"; resultado := Retorna true |};
     {| chamada := sftp_remove sftp_rm "/home/uploads/y.txt"; resultado := Levanta |};
     {| chamada := local_mkdir "/job/CARGAS/cliente1"; resultado := Retorna true |};
     {| chamada := sftp_get sftp_orig "/src/y.txt" "/job/CARGAS/cliente1/y.txt";
        resultado := Retorna true |};
     {| chamada := Connection sftp_envio; resultado := Retorna true |};
     {| chamada := sftp_exists sftp_envio "/home/uploads"; resultado := Retorna true |};
     {| chamada := sftp_put sftp_envio "/job/CARGAS/cliente1/y.txt" "/home/uploads/y.txt";
        resultado := Retorna true |}] /\
  status (fst r) =
    {| novos := 0; iguais := 0; reenviados := 1;
       erros_download := 0; erros_upload := 0; erros_remocao := 1 |} /\
  snd r = Ok tt /\
  exists lr lb lp,
    historico (fst r) = lr ++ lb ++ lp /\
    remocao_de "/home/uploads/y.txt" lr /\
    In {| chamada := sftp_remove sftp_rm "/home/uploads/y.txt"; resultado := Levanta |} lr /\
    segue (@plano1 Cenario.os "/src/y.txt" "/job/CARGAS/cliente1/y.txt") lb.
Proof.
  intros item dest o s r.
  split; [vm_compute; reflexivity|]. split; [vm_compute; reflexivity|].
  split; [vm_compute; reflexivity|].
  destruct (proj1 (remocao_antes_download_decide Cenario.os) Cenario.cfg1 dest item []
              o s) as (lr & lb & lp & Hh & _ & _ & Hrep & Hns & _).
  destruct (Hrep eq_refl) as (Hrem & _).
  assert (Hd : decisao dest (@Cliente1.rel_path_de Cenario.os Cenario.cfg1 (fst item))
                 (snd item) <> Skip) by (vm_compute; discriminate).
  destruct (Hns Hd) as (Hseg & _).
  exists lr, lb, lp. split; [exact Hh|]. split; [exact Hrem|]. split; [|exact Hseg].
  vm_compute in Hh.
  destruct Hrem; simpl in Hh; try discriminate Hh.
  injection Hh as _ <- _. simpl. auto.
Defined.

(* ===================================================================== *)
(** ** What ends a run *)
(* ===================================================================== *)




(** A configuration that names a known_hosts file which is not there: the
    run ends before its first session, whatever the servers would answer.
    So does a run of SFTP_Cliente2.py whose [DAYS_BACK] reaches before the
    first day of the calendar. *)
Example sem_known_hosts_nao_conecta :
  Execucao1.main (H := Cenario.os) (H0 := Terreno.posix_environ)
    Terreno.sem_int "/job" "20240102_0304"
    (Linhas Terreno.dotenv_com_hosts) [("HOME", "/root")]
    Terreno.maquina Cenario.hoje Cenario.mundo_igual (Cenario.responde []) =
    ({| historico := []; status := StatusContador_init |}, Raised) /\
  Execucao2.main (H := Cenario.os) (H0 := Terreno.posix_environ)
    (fun _ => Some 4000000%Z) "/job" "20240102_0304"
    (Linhas ("DAYS_BACK=4000000"%string :: Terreno.dotenv2_completo)) [("HOME", "/root")]
    Terreno.maquina 739000 Cenario.mundo2_igual (Cenario.responde []) =
    ({| historico := []; status := StatusContador_init |}, Raised).
Proof. split; reflexivity. Qed.

(* ===================================================================== *)
(** ** A listing that raises *)
(* ===================================================================== *)

(** C5. A directory whose listing raises contributes nothing and stops
    nothing. Take a directory [nome] listed between the entries [pre] and
    [post]: when the walk gets to it (the entries before it have dates
    that convert, and it is not skipped), it is listed, which raises; every
    file that the walk had come to in [pre] is a key of the snapshot, and
    so is every file that the walk comes to in [post], sibling directories
    included; and the snapshot is the one of the walk without [nome].
    Anywhere in the tree such a directory leaves the snapshot that an empty
    directory would leave, and a walk whose root cannot be listed returns
    an empty snapshot after that one call. The walk is a total function:
    it raises in no case. The files that the walk comes to are stated for
    trees of at most [niveis_seguros] levels, which the recursion takes. *)
Theorem falha_de_listagem_vale_vazio :
  (forall sftp remote_dir filtro pre nome dm post feitas,
     let w := Cliente1.listar_arquivos_sftp_recursivo sftp remote_dir filtro
                (Some (pre ++ Dir nome (Some dm) None :: post)) feitas in
     (forallb legivel pre = true ->
      In {| chamada := listdir_attr sftp (junta remote_dir nome); resultado := Levanta |}
         (listagens w)) /\
     (forall k,
        altura_de (pre ++ post) <= niveis_seguros ->
        alcanca (fun _ _ => false) (Cliente1.passa_filtro filtro) 0 remote_dir pre k ->
        Dict.mem (arquivos w) k = true) /\
     (forall k,
        altura_de (pre ++ post) <= niveis_seguros ->
        forallb legivel pre = true ->
        alcanca (fun _ _ => false) (Cliente1.passa_filtro filtro) 0 remote_dir post k ->
        Dict.mem (arquivos w) k = true) /\
     arquivos w =
       arquivos (Cliente1.listar_arquivos_sftp_recursivo sftp remote_dir filtro
                   (Some (pre ++ post)) feitas)) /\
  (forall sftp remote_dir filtro r feitas,
     arquivos (Cliente1.listar_arquivos_sftp_recursivo sftp remote_dir filtro r feitas) =
       arquivos (Cliente1.listar_arquivos_sftp_recursivo sftp remote_dir filtro
                   (sarar_listing r) feitas)) /\
  (forall sftp remote_dir filtro feitas,
     Cliente1.listar_arquivos_sftp_recursivo sftp remote_dir filtro None feitas =
       {| listagens :=
            feitas ++ [{| chamada := listdir_attr sftp remote_dir; resultado := Levanta |}];
          arquivos := Dict.empty |}) /\
  (forall sftp remote_dir nivel filtro pre nome dm post feitas,
     let w := Cliente2.listar_arquivos_sftp_recursivo sftp remote_dir nivel filtro
                (Some (pre ++ Dir nome (Some dm) None :: post)) feitas in
     (forallb legivel pre = true ->
      Cliente2.pasta_antiga nivel filtro dm = false ->
      In {| chamada := listdir_attr sftp (junta remote_dir nome); resultado := Levanta |}
         (listagens w)) /\
     (forall k,
        altura_de (pre ++ post) <= niveis_seguros ->
        alcanca (fun n d => Cliente2.pasta_antiga n filtro d)
          (Cliente2.passa_filtro filtro) nivel remote_dir pre k ->
        Dict.mem (arquivos w) k = true) /\
     (forall k,
        altura_de (pre ++ post) <= niveis_seguros ->
        forallb legivel pre = true ->
        alcanca (fun n d => Cliente2.pasta_antiga n filtro d)
          (Cliente2.passa_filtro filtro) nivel remote_dir post k ->
        Dict.mem (arquivos w) k = true) /\
     arquivos w =
       arquivos (Cliente2.listar_arquivos_sftp_recursivo sftp remote_dir nivel filtro
                   (Some (pre ++ post)) feitas)) /\
  (forall sftp remote_dir nivel filtro r feitas,
     arquivos (Cliente2.listar_arquivos_sftp_recursivo sftp remote_dir nivel filtro r
                 feitas) =
       arquivos (Cliente2.listar_arquivos_sftp_recursivo sftp remote_dir nivel filtro
                   (sarar_listing r) feitas)) /\
  (forall sftp remote_dir nivel filtro feitas,
     Cliente2.listar_arquivos_sftp_recursivo sftp remote_dir nivel filtro None feitas =
       {| listagens :=
            feitas ++ [{| chamada := listdir_attr sftp remote_dir; resultado := Levanta |}];
          arquivos := Dict.empty |}).
Proof.
  repeat apply conj.
  - intros sftp remote_dir filtro pre nome dm post feitas w. subst w.
    repeat apply conj.
    + intros Hl.
      apply (percorrer_lista_a_pasta sftp _ _ 0 remote_dir pre post nome dm None feitas Hl).
      reflexivity.
    + intros k _ Hk. apply percorrer_ao_lado_da_falha. now left.
    + intros k _ Hl Hk. apply percorrer_ao_lado_da_falha. now right.
    + apply percorrer_sem_pasta_falha.
  - intros. apply percorrer_sarar.
  - reflexivity.
  - intros sftp remote_dir nivel filtro pre nome dm post feitas w. subst w.
    repeat apply conj.
    + intros Hl Hp.
      apply (percorrer_lista_a_pasta sftp _ _ nivel remote_dir pre post nome dm None
               feitas Hl Hp).
    + intros k _ Hk. apply percorrer_ao_lado_da_falha. now left.
    + intros k _ Hl Hk. apply percorrer_ao_lado_da_falha. now right.
    + apply percorrer_sem_pasta_falha.
  - intros. apply percorrer_sarar.
  - reflexivity.
Qed.

(** A source root with a file, a directory that cannot be listed and a
    directory with a file, in the order of their names: the listing of the
    second raises, and the files of the first and of the third are in the
    snapshot. *)
Lemma falha_de_listagem_vale_vazio_witness :
  let w := Cliente1.listar_arquivos_sftp_recursivo sftp_orig "/src" (Some 100%Z)
             (Some ([File "a.txt" 1 (Some 100%Z)]
                    ++ Dir "b" (Some 100%Z) None
                    :: [Dir "c" (Some 100%Z) (Some [File "d.txt" 2 (Some 100%Z)])])) [] in
  In {| chamada := listdir_attr sftp_orig "/src/b"; resultado := Levanta |} (listagens w) /\
  Dict.mem (arquivos w) "/src/a.txt" = true /\
  Dict.mem (arquivos w) "/src/c/d.txt" = true /\
  arquivos w =
    [("/src/a.txt"%string, {| tamanho := 1; data := 100 |});
     ("/src/c/d.txt"%string, {| tamanho := 2; data := 100 |})].
Proof.
  intros w.
  destruct (proj1 falha_de_listagem_vale_vazio sftp_orig "/src"%string (Some 100%Z)
              [File "a.txt" 1 (Some 100%Z)] "b"%string 100%Z
              [Dir "c" (Some 100%Z) (Some [File "d.txt" 2 (Some 100%Z)])] [])
    as (H1 & H2 & H3 & H4).
  split; [exact (H1 eq_refl)|]. split; [|split].
  - apply H2.
    + apply Nat.leb_le. reflexivity.
    + apply (alcanca_arquivo _ _ 0 "/src" [] "a.txt" 1 100 []); reflexivity.
  - apply H3.
    + apply Nat.leb_le. reflexivity.
    + reflexivity.
    + apply (alcanca_pasta _ _ 0 "/src" [] "c" 100
               [File "d.txt" 2 (Some 100%Z)] [] "/src/c/d.txt"); try reflexivity.
      apply (alcanca_arquivo _ _ 1 "/src/c" [] "d.txt" 2 100 []); reflexivity.
  - reflexivity.
Defined.
